(** * 539 lottery data engine and statistics engine: a shallow embedding

    The development follows the modules of the repository:

    - [data_engine.py]: the fetcher ([crawl_daily_cash]), the record
      normalizer ([process_daily_cash_data]) and the fetch-and-merge run
      ([crawl_and_save_daily_cash]);
    - [stats_engine.py]: the queries of [StatsEngine];
    - [ai_layer.py]: the prompt and the chat of [AILayer];
    - [app.py]: the loader of the dashboard.

    Python values are modelled by the Rocq types closest to them: [int] is
    [Z], [str] is [string] (UTF-8 bytes), a [dict] is an insertion-ordered
    association list, an exception is a constructor of [exn] carried by
    [result].  Floating-point results (means, percentages) are kept as exact
    rationals.  What pandas leaves open, the order in which [sort_values]
    puts rows of the same date and the dates that a timestamp holds, is a
    parameter of the development ([Pandas]).

    The console and the file system do not fail: [print] raises only for a
    text that UTF-8 does not encode, and creating the directory, opening
    the file and writing bytes to it succeed. *)

From Stdlib Require Import ZArith List String Ascii Bool Lia.
From Stdlib Require Import Permutation Sorted QArith DecimalString.
From Stdlib Require Import DecimalPos DecimalZ.
Import ListNotations.

Set Implicit Arguments.
Open Scope string_scope.
Open Scope list_scope.
Open Scope Z_scope.

(* ================================================================== *)
(** * Python runtime: exceptions, strings, sorting, dictionaries       *)
(* ================================================================== *)

(** The exception classes that the modules raise or catch.  [HTTPError]
    is a subclass of [RequestException]; requests' own [JSONDecodeError],
    here [RequestsJSONDecodeError], is a subclass both of
    [RequestException] and of [json.JSONDecodeError], which is a subclass
    of [ValueError], as are [UnicodeEncodeError], pandas'
    [OutOfBoundsDatetime] and the [JSONDecodeError] of simplejson, here
    [SimplejsonDecodeError], which is not a [json.JSONDecodeError]. *)
Inductive exn : Type :=
| KeyError
| ValueError
| IndexError
| TypeError
| AttributeError
| RecursionError
| UnicodeEncodeError
| OutOfBoundsDatetime
| RequestException
| HTTPError
| JSONDecodeError
| RequestsJSONDecodeError
| SimplejsonDecodeError.

(** [isinstance(e, requests.exceptions.RequestException)] *)
Definition is_RequestException (e : exn) : bool :=
  match e with
  | RequestException | HTTPError | RequestsJSONDecodeError => true
  | _ => false
  end.

(** [isinstance(e, json.JSONDecodeError)] *)
Definition is_JSONDecodeError (e : exn) : bool :=
  match e with
  | JSONDecodeError | RequestsJSONDecodeError => true
  | _ => false
  end.

(** [isinstance(e, ValueError)] *)
Definition is_ValueError (e : exn) : bool :=
  match e with
  | ValueError | UnicodeEncodeError | OutOfBoundsDatetime
  | JSONDecodeError | RequestsJSONDecodeError | SimplejsonDecodeError => true
  | _ => false
  end.

Inductive result (A : Type) : Type :=
| Ok (a : A)
| Raise (e : exn).

Arguments Ok {A} a.
Arguments Raise {A} e.

Definition bind {A B : Type} (m : result A) (k : A -> result B) : result B :=
  match m with
  | Ok a => k a
  | Raise e => Raise e
  end.

Notation "x <- m ;; k" := (bind m (fun x => k))
  (at level 61, m at next level, right associativity).

(** [d[k]] on a mapping whose key may be absent. *)
Definition subscript {A : Type} (field : option A) : result A :=
  match field with
  | Some v => Ok v
  | None => Raise KeyError
  end.

Definition returns {A : Type} (m : result A) : Prop :=
  exists a, m = Ok a.

(** ** Strings *)

(** [str(n)] for an [int]. *)
Definition str_of_int (n : Z) : string :=
  NilZero.string_of_int (Z.to_int n).

(** [f"{n:02d}"]: decimal, zero-padded to a minimum width of two. *)
Definition format_02d (n : Z) : string :=
  if (0 <=? n) && (n <? 10) then ("0" ++ str_of_int n)%string
  else str_of_int n.

(** [sep.join(parts)]. *)
Definition join (sep : string) (parts : list string) : string :=
  String.concat sep parts.

(** [s.replace(old, new)] for a non-empty [old]: every non-overlapping
    occurrence, scanning from the left.  [skip] counts the characters of a
    matched occurrence that are still to be dropped. *)
Fixpoint replace_from (old new : string) (skip : nat) (s : string) : string :=
  match s with
  | EmptyString => EmptyString
  | String c s' =>
      match skip with
      | S k => replace_from old new k s'
      | O =>
          if prefix old s
          then (new ++ replace_from old new (String.length old - 1) s')%string
          else String c (replace_from old new 0 s')
      end
  end.

Definition str_replace (old new s : string) : string :=
  replace_from old new 0 s.

(** [s.split(sep)] for a one-character separator. *)
Fixpoint split_on (sep : ascii) (s : string) : list string :=
  match s with
  | EmptyString => [EmptyString]
  | String c s' =>
      if Ascii.eqb c sep
      then EmptyString :: split_on sep s'
      else match split_on sep s' with
           | [] => [String c EmptyString]
           | w :: ws => String c w :: ws
           end
  end.

(** [int(s)] for the spellings the persisted table holds: an optional
    minus sign followed by decimal digits.  Anything else is a
    [ValueError]. *)
Definition int_of_str (s : string) : result Z :=
  match NilZero.int_of_string s with
  | Some d => Ok (Z.of_int d)
  | None => Raise ValueError
  end.

(** ** Text and its encoding *)

(** A [str] is held as the bytes of its UTF-8 encoding.  A surrogate code
    point (U+D800 to U+DFFF), which a [str] can hold and UTF-8 does not
    encode, is held as the three bytes [ED A0..BF 80..BF] that the
    encoding scheme would give it. *)
Fixpoint has_surrogate (s : string) : bool :=
  match s with
  | String c (String c' _ as rest) =>
      ((N_of_ascii c =? 237)%N
       && (160 <=? N_of_ascii c')%N && (N_of_ascii c' <=? 191)%N)
      || has_surrogate rest
  | _ => false
  end.

(** [s.encode('utf-8')] succeeds. *)
Definition encodable (s : string) : bool := negb (has_surrogate s).

(** A byte [10xxxxxx] continues the character that the bytes before it
    began. *)
Definition is_continuation (c : ascii) : bool :=
  ((128 <=? N_of_ascii c)%N && (N_of_ascii c <=? 191)%N).

(** [list(s)]: the characters of a string, each a string of its own. *)
Fixpoint characters (s : string) : list string :=
  match s with
  | EmptyString => []
  | String c rest =>
      match characters rest with
      | String c' ch :: more =>
          if is_continuation c'
          then String c (String c' ch) :: more
          else String c EmptyString :: String c' ch :: more
      | _ => [String c EmptyString]
      end
  end.

(** ** Stable sorting: [sorted(...)] *)

Section Sorting.
Context {A : Type}.
Variable leb : A -> A -> bool.

Fixpoint insert_sorted (x : A) (l : list A) : list A :=
  match l with
  | [] => [x]
  | y :: l' => if leb x y then x :: l else y :: insert_sorted x l'
  end.

(** Rows that compare equal keep their input order. *)
Fixpoint sort_by (l : list A) : list A :=
  match l with
  | [] => []
  | x :: l' => insert_sorted x (sort_by l')
  end.
End Sorting.

(** [sorted(xs)] on a list of [int]. *)
Definition sorted (xs : list Z) : list Z := sort_by Z.leb xs.

(** ** Dictionaries: insertion-ordered, one entry per key *)

Class PyKey (K : Type) : Type :=
  { key_eqb : K -> K -> bool;
    key_eqb_spec : forall a b : K, reflect (a = b) (key_eqb a b) }.

#[export] Instance PyKey_string : PyKey string :=
  { key_eqb := String.eqb; key_eqb_spec := String.eqb_spec }.

#[export] Instance PyKey_Z : PyKey Z :=
  { key_eqb := Z.eqb; key_eqb_spec := Z.eqb_spec }.

Definition dict (K V : Type) : Type := list (K * V).

Section Dict.
Context {K V : Type} `{PyKey K}.

(** [d.get(k)], [None] when absent. *)
Fixpoint dict_find (d : dict K V) (k : K) : option V :=
  match d with
  | [] => None
  | (k', v) :: d' => if key_eqb k k' then Some v else dict_find d' k
  end.

(** [d.get(k, default)]. *)
Definition dict_get (d : dict K V) (k : K) (default : V) : V :=
  match dict_find d k with
  | Some v => v
  | None => default
  end.

(** [d[k] = v]: overwrite in place, or append a new last entry. *)
Fixpoint dict_set (d : dict K V) (k : K) (v : V) : dict K V :=
  match d with
  | [] => [(k, v)]
  | (k', v') :: d' =>
      if key_eqb k k' then (k', v) :: d' else (k', v') :: dict_set d' k v
  end.

(** [k in d]. *)
Definition dict_mem (d : dict K V) (k : K) : bool :=
  match dict_find d k with
  | Some _ => true
  | None => false
  end.

(** [d[k]], raising [KeyError] when absent. *)
Definition dict_item (d : dict K V) (k : K) : result V :=
  subscript (dict_find d k).

Definition dict_keys (d : dict K V) : list K := map fst d.
End Dict.

(** ** JSON values, as [response.json()] builds them *)

(** An integer is an [int], any other number a [float], held by its
    [repr] (["1.5"], ["1e+22"], ["nan"]); an object is a [dict], whose keys
    are distinct. *)
#[warnings="-register-all"] Inductive json : Type :=
| JNull
| JBool (b : bool)
| JNum (n : Z)
| JFloat (repr : string)
| JStr (s : string)
| JArr (items : list json)
| JObj (fields : list (string * json)).

(** [x == 0] for a [float] of the given [repr]. *)
Definition float_is_zero (repr : string) : bool :=
  String.eqb repr "0.0" || String.eqb repr "-0.0".

(** [bool(v)] *)
Definition truthy (v : json) : bool :=
  match v with
  | JNull => false
  | JBool b => b
  | JNum n => negb (n =? 0)
  | JFloat repr => negb (float_is_zero repr)
  | JStr s => negb (String.eqb s "")
  | JArr items => match items with [] => false | _ :: _ => true end
  | JObj fields => match fields with [] => false | _ :: _ => true end
  end.

(** [v.get(key)]: only a [dict] has the method. *)
Definition json_get (v : json) (key : string) : result (option json) :=
  match v with
  | JObj fields => Ok (dict_find fields key)
  | _ => Raise AttributeError
  end.

(** [v.get(key, default)] *)
Definition json_get_default (v : json) (key : string) (default : json)
    : result json :=
  match v with
  | JObj fields => Ok (dict_get fields key default)
  | _ => Raise AttributeError
  end.

(** [x == 0] for the value of [v.get(key)]; [False == 0] and [0.0 == 0]
    hold in Python. *)
Definition equals_zero (x : option json) : bool :=
  match x with
  | Some (JNum n) => n =? 0
  | Some (JBool b) => negb b
  | Some (JFloat repr) => float_is_zero repr
  | _ => false
  end.

Definition is_json_str (key : string) (v : json) : bool :=
  match v with
  | JStr s => String.eqb s key
  | _ => false
  end.

(** [key in v] for a string [key]. *)
Definition json_contains (v : json) (key : string) : result bool :=
  match v with
  | JObj fields => Ok (dict_mem fields key)
  | JArr items => Ok (existsb (is_json_str key) items)
  | JStr s => Ok (match index 0 key s with Some _ => true | None => false end)
  | _ => Raise TypeError
  end.

(** [v[key]] for a string [key]. *)
Definition json_item (v : json) (key : string) : result json :=
  match v with
  | JObj fields => dict_item fields key
  | _ => Raise TypeError
  end.

(** [v.replace(old, new)]: a method of [str] only. *)
Definition json_replace (v : json) (old new : string) : result string :=
  match v with
  | JStr s => Ok (str_replace old new s)
  | _ => Raise AttributeError
  end.

(** [for item in v]: a list gives its items, a [dict] its keys, a [str]
    its characters; nothing else can be iterated. *)
Definition py_iter (v : json) : result (list json) :=
  match v with
  | JArr items => Ok items
  | JObj fields => Ok (map (fun kv => JStr (fst kv)) fields)
  | JStr s => Ok (map JStr (characters s))
  | _ => Raise TypeError
  end.

(** [v[:5]]: a list or a [str] is sliced.  A [dict] looks the slice up as
    a key: that is a [KeyError] where slices are hashable (Python 3.12 and
    later) and a [TypeError] where they are not. *)
Definition first_five (slices_hashable : bool) (v : json)
    : result (list json) :=
  match v with
  | JArr items => Ok (firstn 5 items)
  | JStr s => Ok (map JStr (firstn 5 (characters s)))
  | JObj _ => Raise (if slices_hashable then KeyError else TypeError)
  | _ => Raise TypeError
  end.

(** An [int]; [bool] is a subclass of [int]. *)
Definition as_int (v : json) : option Z :=
  match v with
  | JNum n => Some n
  | JBool b => Some (if b then 1 else 0)
  | _ => None
  end.

Definition is_number (v : json) : bool :=
  match v with
  | JNum _ | JBool _ | JFloat _ => true
  | _ => false
  end.

Definition is_text (v : json) : bool :=
  match v with
  | JStr _ => true
  | _ => false
  end.

Fixpoint ints_of (xs : list json) : option (list Z) :=
  match xs with
  | [] => Some []
  | x :: rest =>
      match as_int x, ints_of rest with
      | Some n, Some ns => Some (n :: ns)
      | _, _ => None
      end
  end.

(** [sorted(xs)] followed by [f"{n:02d}"] for each entry of the result
    (lines 68 and 74; no statement between the two can raise).  Numbers
    are ordered among themselves and strings among themselves, and the
    format takes an [int] only: it raises [ValueError] for a [float] or a
    [str].  Every other list either holds entries that [sorted] cannot
    compare or an entry ([None], a list, a [dict]) that the format refuses
    with [TypeError]. *)
Definition sorted_numbers (xs : list json) : result (list Z) :=
  if forallb is_number xs
  then match ints_of xs with
       | Some ns => Ok (sorted ns)
       | None => Raise ValueError
       end
  else if forallb is_text xs then Raise ValueError
  else Raise TypeError.


(* ================================================================== *)
(** * [data_engine.py]: data model                                     *)
(* ================================================================== *)

(** A calendar day as [datetime] exposes it: [year], [month] in 1..12 and
    [day].  The month is kept as a count of months since year 0, so that
    [month] is in range by construction; the time of day is midnight for
    every value the engine handles and is not represented. *)
Record datetime : Type := mkDatetime
  { month_index : Z;
    day : Z }.

Definition year (d : datetime) : Z := month_index d / 12.
Definition month (d : datetime) : Z := month_index d mod 12 + 1.

(** [datetime(y, m, d)]. *)
Definition datetime_of (y m d : Z) : datetime :=
  {| month_index := y * 12 + (m - 1); day := d |}.

(** The constructor call [datetime(y, m, d)] checks the year and the month
    (the engine only ever passes the first day of a month). *)
Definition new_datetime (y m d : Z) : result datetime :=
  if (1 <=? y) && (y <=? 9999) && (1 <=? m) && (m <=? 12)
  then Ok (datetime_of y m d)
  else Raise ValueError.

(** [d.replace(day=1)], [d.replace(month=m)], [d.replace(year=y, month=m)]. *)
Definition replace_day (d : datetime) (dd : Z) : datetime :=
  datetime_of (year d) (month d) dd.
Definition replace_month (d : datetime) (m : Z) : datetime :=
  datetime_of (year d) m (day d).
Definition replace_year_month (d : datetime) (y m : Z) : datetime :=
  datetime_of y m (day d).

(** [a <= b] and [a > b] on dates. *)
Definition date_leb (a b : datetime) : bool :=
  (month_index a <? month_index b)
  || ((month_index a =? month_index b) && (day a <=? day b)).

Definition date_gtb (a b : datetime) : bool := negb (date_leb a b).

Definition date_max (a b : datetime) : datetime :=
  if date_leb a b then b else a.

(** [d.strftime('%Y-%m-%d')], for a year of four digits.  How a year
    before 1000 is written depends on the C library, and the development
    leaves those years out. *)
Definition strftime_ymd (d : datetime) : string :=
  (str_of_int (year d) ++ "-" ++ format_02d (month d) ++ "-"
     ++ format_02d (day d))%string.

(** [f"{y}-{m:02d}"], the month parameter of the remote API. *)
Definition year_month_of (d : datetime) : string :=
  (str_of_int (year d) ++ "-" ++ format_02d (month d))%string.

(** One row of the persisted table.  [ad_date] is the calendar day that the
    ISO text of the column denotes: [strftime] writes it, and
    [fromisoformat] and [pd.to_datetime] read the same day back, for a
    year of four digits. *)
Record row : Type := mkRow
  { draw : string;
    date : string;
    ad_date : datetime;
    numbers : string;
    price : Z;
    lottery_type : string }.

(** A [DataFrame]: [pd.DataFrame()] has no columns at all; a frame read
    from the table has the table's columns and any number of rows. *)
Inductive DataFrame (R : Type) : Type :=
| NoColumns
| Frame (rows : list R).

Arguments NoColumns {R}.
Arguments Frame {R} rows.

Definition rows_of {R : Type} (df : DataFrame R) : list R :=
  match df with
  | NoColumns => []
  | Frame rows => rows
  end.

(** [df.empty] *)
Definition df_empty {R : Type} (df : DataFrame R) : bool :=
  match rows_of df with
  | [] => true
  | _ :: _ => false
  end.

(** ['ad_date' in df.columns] *)
Definition has_columns {R : Type} (df : DataFrame R) : bool :=
  match df with
  | NoColumns => false
  | Frame _ => true
  end.

(** [len(df)] *)
Definition df_len {R : Type} (df : DataFrame R) : Z :=
  Z.of_nat (List.length (rows_of df)).

(** ** What the development takes of pandas *)

(** The rows are in ascending order of the date that [key] reads. *)
Definition in_date_order {R : Type} (key : R -> datetime) (rows : list R)
    : Prop :=
  Sorted (fun a b => date_leb (key a) (key b) = true) rows.

(** What pandas does.  [csv] is the content of the persisted file;
    [read_csv] stands for [pd.read_csv] followed by [pd.to_datetime] on the
    date column, raising what either raises, and a file that it reads has
    the columns of the table; [to_csv rows] is the content
    that [to_csv] writes for [rows], and [torn_csv rows] what it leaves in
    the file when it fails on a text that cannot be encoded, the file
    being open for writing by then.

    [sort_values(by='ad_date')] sorts with the library's default
    algorithm, quicksort, which is not stable: the result holds the rows in
    ascending order of date, and rows of the same date in an order that
    the library chooses.  [in_timestamp_range d] tells whether
    [pd.to_datetime] takes the date [d] of a record: with timestamps in
    nanoseconds, the days from 1677-09-22 to 2262-04-11. *)
Class Pandas : Type :=
  { csv : Type;
    read_csv : csv -> result (list row);
    to_csv : list row -> csv;
    torn_csv : list row -> csv;
    sort_by_date : forall R : Type, (R -> datetime) -> list R -> list R;
    sort_by_date_perm :
      forall (R : Type) (key : R -> datetime) (rows : list R),
        Permutation (sort_by_date key rows) rows;
    sort_by_date_sorted :
      forall (R : Type) (key : R -> datetime) (rows : list R),
        in_date_order key (sort_by_date key rows);
    in_timestamp_range : datetime -> bool }.

(** ** The remote API and the messages *)

(** The status codes for which [raise_for_status] raises. *)
Definition is_http_error (status : Z) : bool :=
  (400 <=? status) && (status <? 600).

(** The body of an HTTP response, as [response.json()] finds it. *)
Inductive body : Type :=
| Json (data : json)
    (* the text is JSON and [data] is the value built from it *)
| NotJson
    (* the text is not JSON: the decoder raises a [JSONDecodeError] *)
| TooManyDigits
    (* an integer of the text has more digits than [int] converts: the
       decoder raises a plain [ValueError] *)
| TooDeep.
    (* the text is nested too deeply: the decoder raises [RecursionError] *)

(** Where [response.json()] takes the exception that it raises for a text
    that is not JSON. *)
Inductive json_decoder : Type :=
| RequestsOwn
    (* requests 2.27 and later: its own [JSONDecodeError] *)
| StdlibJson
    (* requests before 2.27: the [JSONDecodeError] of [json] *)
| Simplejson.
    (* requests before 2.27 where simplejson is installed: the
       [JSONDecodeError] of simplejson *)

(** [type(e)] for that exception. *)
Definition decode_error (decoder : json_decoder) : exn :=
  match decoder with
  | RequestsOwn => RequestsJSONDecodeError
  | StdlibJson => JSONDecodeError
  | Simplejson => SimplejsonDecodeError
  end.

(** What the remote API does with one [GET]. *)
Inductive http_outcome : Type :=
| NoResponse
    (* [session.get] raised a [RequestException]: no connection, timeout *)
| Response (status : Z) (content : body).

(** Messages written by [print]. *)
Inductive message : Type :=
| MsgCrawling (year_month : string) (page_num : Z)
| MsgApiError (rtMsg : json)
| MsgRequestFailed (e : exn)
| MsgJsonFailed (e : exn)
| MsgItemError (e : exn) (item : json)
| MsgReadFailed (e : exn)
| MsgExistingLatest (latest : string)
| MsgIncremental (from_month : string)
| MsgFirstCrawl (start_year start_month : Z)
| MsgMonthProcessed (year_month : string) (count : Z)
| MsgMonthFailed (year_month : string) (e : exn)
| MsgUpdateDone
| MsgUpdateCounts (new_count total : Z)
| MsgSaved
| MsgUpToDate (total : Z)
| MsgNoData.

(** Whether the console, which encodes in UTF-8 and refuses what it
    cannot encode, takes the text of a message.  [rtMsg] is the one text of the API that a message holds as
    it came: the text of an exception and the [repr] of an item or of a
    value that is not a [str] write a surrogate as an escape. *)
Definition printable (m : message) : bool :=
  match m with
  | MsgApiError (JStr s) => encodable s
  | _ => true
  end.

(* ================================================================== *)
(** * [data_engine.py]: the merge pipeline                             *)
(* ================================================================== *)

(** [df['ad_date'].max()], [None] on no rows. *)
Definition max_step (acc : option datetime) (r : row) : option datetime :=
  match acc with
  | None => Some (ad_date r)
  | Some d => Some (date_max d (ad_date r))
  end.

Definition max_ad_date (rows : list row) : option datetime :=
  fold_left max_step rows None.

Definition get_latest_ad_date (df : DataFrame row) : option datetime :=
  if negb (df_empty df) && has_columns df
  then max_ad_date (rows_of df)
  else None.

(** [latest_date_ad is None or fromisoformat(record['ad_date']) > latest_date_ad] *)
Definition is_newer (latest_date_ad : option datetime) (record : row) : bool :=
  match latest_date_ad with
  | None => true
  | Some latest => date_gtb (ad_date record) latest
  end.

(** The [for record in processed_list] loop; the pair is
    [(all_new_records, new_count)]. *)
Fixpoint collect_new (latest_date_ad : option datetime)
    (processed_list : list row) (acc : list row * Z) : list row * Z :=
  match processed_list with
  | [] => acc
  | record :: rest =>
      if is_newer latest_date_ad record
      then collect_new latest_date_ad rest (fst acc ++ [record], snd acc + 1)
      else collect_new latest_date_ad rest acc
  end.

(** [drop_duplicates(subset=['draw'])]: a row is kept when its [draw] has
    not been seen in an earlier row. *)
Fixpoint drop_duplicates_seen (seen : list string) (rows : list row)
    : list row :=
  match rows with
  | [] => []
  | r :: rest =>
      if existsb (String.eqb (draw r)) seen
      then drop_duplicates_seen seen rest
      else r :: drop_duplicates_seen (draw r :: seen) rest
  end.

Definition drop_duplicates (rows : list row) : list row :=
  drop_duplicates_seen [] rows.

Definition ad_date_leb (a b : row) : bool := date_leb (ad_date a) (ad_date b).

(** [pd.concat([existing_df, new_df])] *)
Definition concat_frames (existing_df : DataFrame row) (new_df : list row)
    : list row :=
  rows_of existing_df ++ new_df.

(** [pd.to_datetime(combined_df['ad_date'])]: it raises the
    [OutOfBoundsDatetime] of pandas when a date is one that a timestamp
    cannot hold. *)
Definition to_datetime {P : Pandas} (rows : list row) : result (list row) :=
  if forallb (fun r => in_timestamp_range (ad_date r)) rows
  then Ok rows
  else Raise OutOfBoundsDatetime.

(** [sort_values(by='ad_date').reset_index(drop=True)] *)
Definition sort_values {P : Pandas} (rows : list row) : list row :=
  sort_by_date ad_date rows.

(** Lines 158-167, when no date is refused: the table that is written. *)
Definition combine {P : Pandas} (existing_df : DataFrame row)
    (all_new_records : list row) : list row :=
  sort_values (drop_duplicates (concat_frames existing_df all_new_records)).

(** The table after a run that loaded [existing] and normalized the batch
    [incoming]: the combined table when a record of the batch is new, the
    loaded table, untouched, when none is. *)
Definition merge {P : Pandas} (existing incoming : list row) : list row :=
  let existing_df := Frame existing in
  let latest_date_ad := get_latest_ad_date existing_df in
  let all_new_records := fst (collect_new latest_date_ad incoming ([], 0)) in
  match all_new_records with
  | [] => existing
  | _ :: _ => combine existing_df all_new_records
  end.

(** [latest_date] of the specification: the sentinel is [None]. *)
Definition latest_date (table : list row) : option datetime :=
  get_latest_ad_date (Frame table).

(** The maximum of two optional dates, [None] being the least. *)
Definition option_date_max (a b : option datetime) : option datetime :=
  match a, b with
  | None, _ => b
  | _, None => a
  | Some x, Some y => Some (date_max x y)
  end.

(** The text of every cell of the row can be encoded in UTF-8. *)
Definition row_encodable (r : row) : bool :=
  encodable (draw r) && encodable (date r) && encodable (numbers r)
  && encodable (lottery_type r).

(* ================================================================== *)
(** * [data_engine.py]: the crawler and its effects                    *)
(* ================================================================== *)

(** What the development takes of the Python installation:
    [datetime.fromisoformat], [None] standing for its [ValueError]; [repr]
    of a list or of a [dict]; whether slices are hashable, as they are
    from Python 3.12 on; and the decoder behind [response.json()]. *)
Class Python : Type :=
  { fromisoformat : string -> option datetime;
    py_repr : json -> string;
    slices_hashable : bool;
    decoder : json_decoder }.

(** What is outside the program: [remote month pageNum pageSize] is the
    answer of the API to [GET Daily539Result] with these parameters, and
    [now] is [datetime.now()]. *)
Class Outside : Type :=
  { remote : string -> Z -> Z -> http_outcome;
    now : datetime }.

Section DataEngine.
Context {P : Pandas} {Py : Python} {Out : Outside}.

(** Everything the crawler can observe or change. *)
Record world : Type := mkWorld
  { stdout : list message;
    output_dir : bool;            (* [lottery_data/] exists *)
    disk : option csv;            (* [lottery_data/lottery_data.csv] *)
    written : list csv;           (* what every [to_csv] so far has left *)
    requested : list string;      (* the months asked of the API *)
    slept : Z }.                  (* seconds spent in [time.sleep] *)

Definition io (A : Type) : Type := world -> result A * world.

Definition ret {A : Type} (a : A) : io A := fun w => (Ok a, w).

Definition raise {A : Type} (e : exn) : io A := fun w => (Raise e, w).

Definition lift {A : Type} (r : result A) : io A := fun w => (r, w).

Definition io_bind {A B : Type} (m : io A) (k : A -> io B) : io B :=
  fun w =>
    match m w with
    | (Ok a, w') => k a w'
    | (Raise e, w') => (Raise e, w')
    end.

Notation "x <~ m ;; k" := (io_bind m (fun x => k))
  (at level 61, m at next level, right associativity).
Notation "m ;;; k" := (io_bind m (fun _ => k))
  (at level 61, right associativity).

(** [try: m except ...]: [handlers e] is the body of the first [except]
    clause that matches [e], if one does. *)
Definition try_except {A : Type} (m : io A)
    (handlers : exn -> option (io A)) : io A :=
  fun w =>
    match m w with
    | (Ok a, w') => (Ok a, w')
    | (Raise e, w') =>
        match handlers e with
        | Some handler => handler w'
        | None => (Raise e, w')
        end
    end.

(** [print(...)]: the text is encoded before any of it is written. *)
Definition print (m : message) : io unit :=
  fun w =>
    if printable m
    then
      (Ok tt,
       {| stdout := stdout w ++ [m]; output_dir := output_dir w;
          disk := disk w; written := written w;
          requested := requested w; slept := slept w |})
    else (Raise UnicodeEncodeError, w).

Definition sleep (seconds : Z) : io unit :=
  fun w =>
    (Ok tt,
     {| stdout := stdout w; output_dir := output_dir w;
        disk := disk w; written := written w;
        requested := requested w; slept := slept w + seconds |}).

(** [os.makedirs(output_dir, exist_ok=True)] *)
Definition makedirs : io unit :=
  fun w =>
    (Ok tt,
     {| stdout := stdout w; output_dir := true;
        disk := disk w; written := written w;
        requested := requested w; slept := slept w |}).

(** [os.path.exists(filepath)] *)
Definition path_exists : io bool :=
  fun w => (Ok (match disk w with Some _ => true | None => false end), w).

(** [df.to_csv(filepath, index=False, encoding='utf-8')]: the file is
    opened, and then the rows are encoded as they are written. *)
Definition write_csv (rows : list row) : io unit :=
  fun w =>
    if forallb row_encodable rows
    then
      (Ok tt,
       {| stdout := stdout w; output_dir := output_dir w;
          disk := Some (to_csv rows); written := written w ++ [to_csv rows];
          requested := requested w; slept := slept w |})
    else
      (Raise UnicodeEncodeError,
       {| stdout := stdout w; output_dir := output_dir w;
          disk := Some (torn_csv rows);
          written := written w ++ [torn_csv rows];
          requested := requested w; slept := slept w |}).

(** [self.session.get(url, params=params, timeout=10)] *)
Definition session_get (year_month : string) (page_num page_size : Z)
    : io (Z * body) :=
  fun w =>
    let w' :=
      {| stdout := stdout w; output_dir := output_dir w;
         disk := disk w; written := written w;
         requested := requested w ++ [year_month]; slept := slept w |} in
    match remote year_month page_num page_size with
    | NoResponse => (Raise RequestException, w')
    | Response status content => (Ok (status, content), w')
    end.

(** [response.raise_for_status()] *)
Definition raise_for_status (response : Z * body) : io unit :=
  if is_http_error (fst response)
  then raise HTTPError
  else ret tt.

(** [response.json()] *)
Definition response_json (response : Z * body) : io json :=
  match snd response with
  | Json data => ret data
  | NotJson => raise (decode_error decoder)
  | TooManyDigits => raise ValueError
  | TooDeep => raise RecursionError
  end.

(** ** [crawl_daily_cash] *)

Definition crawl_daily_cash (year_month : string) (page_num page_size : Z)
    : io json :=
  try_except
    (print (MsgCrawling year_month page_num) ;;;
     response <~ session_get year_month page_num page_size ;;
     raise_for_status response ;;;
     data <~ response_json response ;;
     rtCode <~ lift (json_get data "rtCode") ;;
     if equals_zero rtCode
     then lift (json_get_default data "content" (JObj []))
     else
       rtMsg <~ lift (json_get_default data "rtMsg" (JStr "未知錯誤")) ;;
       print (MsgApiError rtMsg) ;;;
       ret (JObj []))
    (fun e =>
       if is_RequestException e
       then Some (print (MsgRequestFailed e) ;;; ret (JObj []))
       else if is_JSONDecodeError e
       then Some (print (MsgJsonFailed e) ;;; ret (JObj []))
       else None).

(** ** [process_daily_cash_data] *)

Definition parse_date (s : string) : result datetime :=
  match fromisoformat s with
  | Some d => Ok d
  | None => Raise ValueError
  end.

(** [str(v)] *)
Definition py_str (v : json) : string :=
  match v with
  | JNull => "None"
  | JBool true => "True"
  | JBool false => "False"
  | JNum n => str_of_int n
  | JFloat repr => repr
  | JStr s => s
  | JArr _ | JObj _ => py_repr v
  end.

(** The body of the [try] block, for one item. *)
Definition process_item (item : json) : result row :=
  lottery_date_field <- json_item item "lotteryDate" ;;
  lottery_date_str <- json_replace lottery_date_field "T00:00:00" "" ;;
  lottery_date <- parse_date lottery_date_str ;;
  let tw_year := year lottery_date - 1911 in
  period_field <- json_item item "period" ;;
  let period := py_str period_field in
  draw_numbers <- json_item item "drawNumberAppear" ;;
  head <- first_five slices_hashable draw_numbers ;;
  numbers <- sorted_numbers head ;;
  Ok {| draw := period;
        date := (str_of_int tw_year ++ "/" ++ format_02d (month lottery_date)
                   ++ "/" ++ format_02d (day lottery_date))%string;
        ad_date := lottery_date;
        numbers := join "," (map format_02d numbers);
        price := 8000000;
        lottery_type := "daily_cash" |}.

(** [except (KeyError, ValueError, IndexError)] *)
Definition is_item_error (e : exn) : bool :=
  match e with
  | KeyError | IndexError => true
  | _ => is_ValueError e
  end.

(** The [for item in raw_data] loop over the items that are left,
    [processed_list] being the list built so far. *)
Fixpoint process_loop (items : list json) (processed_list : list row)
    : io (list row) :=
  match items with
  | [] => ret processed_list
  | item :: rest =>
      processed_list' <~
        try_except
          (r <~ lift (process_item item) ;; ret (processed_list ++ [r]))
          (fun e =>
             if is_item_error e
             then Some (print (MsgItemError e item) ;;; ret processed_list)
             else None) ;;
      process_loop rest processed_list'
  end.

Definition process_daily_cash_data (raw_data : json) : io (list row) :=
  items <~ lift (py_iter raw_data) ;;
  process_loop items [].

(** ** [get_existing_data_df] *)

Definition get_existing_data_df : io (DataFrame row) :=
  exists_ <~ path_exists ;;
  if exists_ : bool
  then
    try_except
      (fun w =>
         match disk w with
         | Some content =>
             (rows <- read_csv content ;; Ok (Frame rows), w)
         | None => (Ok NoColumns, w)
         end)
      (fun e => Some (print (MsgReadFailed e) ;;; ret NoColumns))
  else ret NoColumns.

(** ** [crawl_and_save_daily_cash] *)

(** "Move to the next month". *)
Definition next_month (current_month_iter : datetime) : datetime :=
  if month current_month_iter =? 12
  then replace_year_month current_month_iter
         (year current_month_iter + 1) 1
  else replace_month current_month_iter (month current_month_iter + 1).

Definition non_empty {A : Type} (l : list A) : bool :=
  match l with
  | [] => false
  | _ :: _ => true
  end.

(** Lines 132-134: the list that the normalizer makes of the month's
    results, [None] when the content has no result list. *)
Definition month_results (year_month : string) : io (option (list row)) :=
  raw_content <~ crawl_daily_cash year_month 1 50 ;;
  has_results <~
    (if truthy raw_content
     then lift (json_contains raw_content "daily539Res")
     else ret false) ;;
  if has_results : bool
  then
    raw_data <~ lift (json_item raw_content "daily539Res") ;;
    processed_list <~ process_daily_cash_data raw_data ;;
    ret (Some processed_list)
  else ret None.

(** One pass through the body of the [while] loop, up to the change of
    month; the pair is [(all_new_records, new_count)]. *)
Definition crawl_month (latest_date_ad : option datetime)
    (current_month_iter : datetime) (acc : list row * Z)
    : io (list row * Z) :=
  let year_month := year_month_of current_month_iter in
  try_except
    (results <~ month_results year_month ;;
     acc' <~
       match results with
       | Some processed_list =>
           let acc' := collect_new latest_date_ad processed_list acc in
           (if non_empty processed_list
            then print (MsgMonthProcessed year_month
                          (Z.of_nat (List.length processed_list)))
            else ret tt) ;;;
           ret acc'
       | None => ret acc
       end ;;
     sleep 1 ;;;
     ret acc')
    (fun e => Some (print (MsgMonthFailed year_month e) ;;; ret acc)).

(** [while current_month_iter <= current_date].  The loop is unrolled
    at most [fuel] times; [None] reports that [fuel] was too small. *)
Fixpoint crawl_months (fuel : nat) (latest_date_ad : option datetime)
    (current_month_iter : datetime) (acc : list row * Z) (w : world)
    : option (result (list row * Z) * world) :=
  if date_leb current_month_iter now
  then
    match fuel with
    | O => None
    | S fuel' =>
        match crawl_month latest_date_ad current_month_iter acc w with
        | (Ok acc', w') =>
            crawl_months fuel' latest_date_ad
              (next_month current_month_iter) acc' w'
        | (Raise e, w') => Some (Raise e, w')
        end
    end
  else Some (Ok acc, w).

(** The number of months from [start] to [now], both included. *)
Definition months_to_crawl (start : datetime) : nat :=
  Z.to_nat (month_index now - month_index start + 1).

(** Lines 157-177: what is done with the records gathered. *)
Definition save_or_report (existing_df : DataFrame row)
    (all_new_records : list row) (new_count : Z) : io unit :=
  if non_empty all_new_records
  then
    let combined_df :=
      drop_duplicates (concat_frames existing_df all_new_records) in
    combined_df <~ lift (to_datetime combined_df) ;;
    let combined_df := sort_values combined_df in
    write_csv combined_df ;;;
    print MsgUpdateDone ;;;
    print (MsgUpdateCounts new_count (Z.of_nat (List.length combined_df))) ;;;
    print MsgSaved
  else if negb (df_empty existing_df)
  then print (MsgUpToDate (df_len existing_df))
  else print MsgNoData.

(** Lines 106-122: the loaded table, its latest date and the month at
    which the crawl starts. *)
Definition start_of_crawl (start_year start_month : Z)
    : io (DataFrame row * option datetime * datetime) :=
  makedirs ;;;
  existing_df <~ get_existing_data_df ;;
  let latest_date_ad := get_latest_ad_date existing_df in
  start_crawl_date <~
    match latest_date_ad with
    | Some latest =>
        let start_crawl_date := replace_day latest 1 in
        print (MsgExistingLatest (strftime_ymd latest)) ;;;
        print (MsgIncremental (year_month_of start_crawl_date)) ;;;
        ret start_crawl_date
    | None =>
        start_crawl_date <~ lift (new_datetime start_year start_month 1) ;;
        print (MsgFirstCrawl start_year start_month) ;;;
        ret start_crawl_date
    end ;;
  ret (existing_df, latest_date_ad, start_crawl_date).

(** Lines 106-155: the run up to the end of the [while] loop; it yields
    the loaded table with [all_new_records] and [new_count]. *)
Definition gather_new_records (start_year start_month : Z) (w0 : world)
    : option (result (DataFrame row * list row * Z) * world) :=
  match start_of_crawl start_year start_month w0 with
  | (Raise e, w1) => Some (Raise e, w1)
  | (Ok (existing_df, latest_date_ad, start_crawl_date), w1) =>
      match crawl_months (months_to_crawl start_crawl_date)
              latest_date_ad start_crawl_date ([], 0) w1 with
      | None => None
      | Some (Raise e, w2) => Some (Raise e, w2)
      | Some (Ok (all_new_records, new_count), w2) =>
          Some (Ok (existing_df, all_new_records, new_count), w2)
      end
  end.

Definition crawl_and_save_daily_cash (start_year start_month : Z)
    (w0 : world) : option (result unit * world) :=
  match gather_new_records start_year start_month w0 with
  | None => None
  | Some (Raise e, w2) => Some (Raise e, w2)
  | Some (Ok (existing_df, all_new_records, new_count), w2) =>
      Some (save_or_report existing_df all_new_records new_count w2)
  end.
End DataEngine.

(* ================================================================== *)
(** * [stats_engine.py]                                                *)
(* ================================================================== *)

(** A row of the engine's frame: the persisted columns and the
    [numbers_list] column computed on loading. *)
Record stats_row : Type := mkStatsRow
  { persisted : row;
    numbers_list : list Z }.

(** The values held by the result dictionaries.  Floating-point results
    are exact: [VNum q] is the rational [q], [VSqrt q] its square root. *)
Inductive value : Type :=
| VNone
| VInt (n : Z)
| VNum (q : Q)
| VSqrt (q : Q)
| VNaN
| VInts (ns : list Z)
| VStrs (ss : list string)
| VCounts (counts : dict string Z).

(** [range(a, b)] *)
Definition py_range (a b : Z) : list Z :=
  map (fun i => a + Z.of_nat i) (seq 0 (Z.to_nat (b - a))).

(** [sum(xs)] *)
Definition py_sum (xs : list Z) : Z := fold_left Z.add xs 0.

(** [rows.tail(n)] as pandas slices it: [iloc[0:0]] for [n = 0],
    otherwise [iloc[-n:]]. *)
Definition tail {A : Type} (n : Z) (rows : list A) : list A :=
  if n =? 0 then []
  else if 0 <? n then skipn (List.length rows - Z.to_nat n) rows
  else skipn (Z.to_nat (- n)) rows.

(** [[int(n) for n in x.split(',')]] *)
Fixpoint ints_of_strs (parts : list string) : result (list Z) :=
  match parts with
  | [] => Ok []
  | p :: rest =>
      n <- int_of_str p ;;
      ns <- ints_of_strs rest ;;
      Ok (n :: ns)
  end.

Definition parse_numbers (x : string) : result (list Z) :=
  ints_of_strs (split_on "," x).

Fixpoint with_numbers_list (rows : list row) : result (list stats_row) :=
  match rows with
  | [] => Ok []
  | r :: rest =>
      ns <- parse_numbers (numbers r) ;;
      others <- with_numbers_list rest ;;
      Ok ({| persisted := r; numbers_list := ns |} :: others)
  end.

Definition stats_date_leb (a b : stats_row) : bool :=
  ad_date_leb (persisted a) (persisted b).

(** [df.sort_values(by='ad_date', ascending=True).reset_index(drop=True)] *)
Definition sort_stats_values {P : Pandas} (df : list stats_row)
    : list stats_row :=
  sort_by_date (fun r => ad_date (persisted r)) df.

(** [StatsEngine._load_data]; [file] is [None] when the path does not
    exist, and otherwise holds the rows that [pd.read_csv] returns, the
    date of each being the day that [pd.to_datetime] reads. *)
Definition _load_data {P : Pandas} (file : option (list row))
    : result (DataFrame stats_row) :=
  match file with
  | None => Ok NoColumns
  | Some rows =>
      df <- with_numbers_list rows ;;
      Ok (Frame (sort_stats_values df))
  end.

Record StatsEngine : Type := mkStatsEngine
  { df : DataFrame stats_row }.

(** [target_df['numbers_list']]: a frame without columns has no such
    column. *)
Definition numbers_list_column (target_df : DataFrame stats_row)
    : result (list (list Z)) :=
  match target_df with
  | NoColumns => Raise KeyError
  | Frame rows => Ok (map numbers_list rows)
  end.

Definition get_latest_n_draws (self : StatsEngine) (n : Z)
    : DataFrame stats_row :=
  if df_empty (df self) then NoColumns
  else match df self with
       | NoColumns => NoColumns
       | Frame rows => Frame (tail n rows)
       end.

(** The first lines of every query: the window. *)
Definition target (self : StatsEngine) (num_draws : option Z)
    : DataFrame stats_row :=
  match num_draws with
  | Some n => get_latest_n_draws self n
  | None => df self
  end.

(** ** Frequency tables *)

(** [pd.Series(xs).value_counts()]: how often each value occurs. *)
Definition count_step (counts : dict Z Z) (x : Z) : dict Z Z :=
  dict_set counts x (dict_get counts x 0 + 1).

Definition value_counts (xs : list Z) : dict Z Z :=
  fold_left count_step xs [].

Definition entry_leb (a b : Z * Z) : bool := fst a <=? fst b.

(** [.sort_index()] *)
Definition sort_index (series : dict Z Z) : dict Z Z :=
  sort_by entry_leb series.

(** [pd.Series(0, index=range(a, b))] *)
Definition zero_series (a b : Z) : dict Z Z :=
  map (fun k => (k, 0)) (py_range a b).

(** [full.update(other)]: the labels of [full] that [other] has take
    [other]'s value; no label is added. *)
Definition series_update (full other : dict Z Z) : dict Z Z :=
  map (fun kv => (fst kv, dict_get other (fst kv) (snd kv))) full.

Definition calculate_frequency (self : StatsEngine) (num_draws : option Z)
    : result (dict Z Z) :=
  let target_df := target self num_draws in
  if df_empty target_df then Ok []
  else
    column <- numbers_list_column target_df ;;
    let all_numbers := List.concat column in
    let frequency := sort_index (value_counts all_numbers) in
    let full_range_freq := zero_series 1 40 in
    Ok (series_update full_range_freq frequency).

Definition analyze_last_digits (self : StatsEngine) (num_draws : option Z)
    : result (dict Z Z) :=
  let target_df := target self num_draws in
  if df_empty target_df then Ok []
  else
    column <- numbers_list_column target_df ;;
    let all_last_digits :=
      fold_left (fun acc ns => acc ++ map (fun n => n mod 10) ns) column [] in
    let last_digit_frequency := sort_index (value_counts all_last_digits) in
    let full_range_freq := zero_series 0 10 in
    Ok (series_update full_range_freq last_digit_frequency).

(** ** Sum analysis *)

Definition Q_of_Z (n : Z) : Q := inject_Z n.

(** [sums.mean()] *)
Definition series_mean (xs : list Z) : Q :=
  (Q_of_Z (py_sum xs) / Q_of_Z (Z.of_nat (List.length xs)))%Q.

(** [sums.median()]: the middle of the sorted values, or the mean of the
    two middle ones. *)
Definition series_median (xs : list Z) : Q :=
  let ordered := sorted xs in
  let n := List.length ordered in
  let lower := nth (n / 2 - 1)%nat ordered 0 in
  let upper := nth (n / 2)%nat ordered 0 in
  if Nat.even n
  then ((Q_of_Z lower + Q_of_Z upper) / Q_of_Z 2)%Q
  else Q_of_Z upper.

(** [sums.std()]: the sample standard deviation, [NaN] below two values. *)
Definition series_std (xs : list Z) : value :=
  match xs with
  | [] | [_] => VNaN
  | _ =>
      let m := series_mean xs in
      let squares :=
        fold_left (fun acc x => (acc + (Q_of_Z x - m) * (Q_of_Z x - m))%Q)
          xs (Q_of_Z 0) in
      let degrees := Z.of_nat (List.length xs) - 1 in
      VSqrt (squares / Q_of_Z degrees)%Q
  end.

(** [sums.min()], [sums.max()] on at least one value. *)
Definition series_min (xs : list Z) : Z :=
  match xs with
  | [] => 0
  | x :: rest => fold_left Z.min rest x
  end.

Definition series_max (xs : list Z) : Z :=
  match xs with
  | [] => 0
  | x :: rest => fold_left Z.max rest x
  end.

Definition calculate_sum_analysis (self : StatsEngine) (num_draws : option Z)
    : result (dict string value) :=
  let target_df := target self num_draws in
  if df_empty target_df
  then Ok [("sums", VInts []);
           ("mean_sum", VNone);
           ("median_sum", VNone);
           ("std_dev_sum", VNone);
           ("min_sum", VNone);
           ("max_sum", VNone)]
  else
    column <- numbers_list_column target_df ;;
    let sums := map py_sum column in
    Ok [("sums", VInts sums);
        ("mean_sum", VNum (series_mean sums));
        ("median_sum", VNum (series_median sums));
        ("std_dev_sum", series_std sums);
        ("min_sum", VInt (series_min sums));
        ("max_sum", VInt (series_max sums))].

(** ** Odd/even and big/small ratios *)

(** [sum(1 for n in numbers if p(n))] *)
Definition count_if (p : Z -> bool) (numbers : list Z) : Z :=
  Z.of_nat (List.length (filter p numbers)).

Definition is_odd (n : Z) : bool := negb (n mod 2 =? 0).
Definition is_small (n : Z) : bool := (1 <=? n) && (n <=? 19).

(** [counts[label] = counts.get(label, 0) + 1] *)
Definition bump (counts : dict string Z) (label : string) : dict string Z :=
  dict_set counts label (dict_get counts label 0 + 1).

(** Tuples [(label, count)] in Python's order: by label, then by count. *)
Definition item_leb (a b : string * Z) : bool :=
  String.ltb (fst a) (fst b)
  || (String.eqb (fst a) (fst b) && (snd a <=? snd b)).

(** [dict(sorted(counts.items()))] *)
Definition sorted_items (counts : dict string Z) : dict string Z :=
  sort_by item_leb counts.

Record ratio_state : Type := mkRatioState
  { odd_even_ratios : list string;
    big_small_ratios : list string;
    odd_even_counts : dict string Z;
    big_small_counts : dict string Z }.

(** The body of the [for _, row in target_df.iterrows()] loop. *)
Definition ratio_step (st : ratio_state) (r : stats_row) : ratio_state :=
  let numbers := numbers_list r in
  let odd_count := count_if is_odd numbers in
  let even_count := 5 - odd_count in
  let small_count := count_if is_small numbers in
  let big_count := 5 - small_count in
  {| odd_even_ratios :=
       odd_even_ratios st
         ++ [(str_of_int odd_count ++ ":" ++ str_of_int even_count)%string];
     big_small_ratios :=
       big_small_ratios st
         ++ [(str_of_int big_count ++ ":" ++ str_of_int small_count)%string];
     odd_even_counts :=
       bump (odd_even_counts st)
         (str_of_int odd_count ++ "奇" ++ str_of_int even_count ++ "偶")%string;
     big_small_counts :=
       bump (big_small_counts st)
         (str_of_int big_count ++ "大" ++ str_of_int small_count ++ "小")%string
  |}.

Definition calculate_odd_even_big_small_ratios (self : StatsEngine)
    (num_draws : option Z) : result (dict string value) :=
  let target_df := target self num_draws in
  if df_empty target_df
  then Ok [("odd_even_ratios", VStrs []);
           ("big_small_ratios", VStrs []);
           ("odd_even_counts", VCounts []);
           ("big_small_counts", VCounts [])]
  else
    let st :=
      fold_left ratio_step (rows_of target_df)
        {| odd_even_ratios := []; big_small_ratios := [];
           odd_even_counts := []; big_small_counts := [] |} in
    Ok [("odd_even_ratios", VStrs (odd_even_ratios st));
        ("big_small_ratios", VStrs (big_small_ratios st));
        ("odd_even_distribution", VCounts (sorted_items (odd_even_counts st)));
        ("big_small_distribution",
          VCounts (sorted_items (big_small_counts st)))].

(** ** Consecutive numbers *)

(** [f"{a:02d},{b:02d}"] *)
Definition pattern_of (a b : Z) : string :=
  (format_02d a ++ "," ++ format_02d b)%string.

(** The [for i in range(len(numbers) - 1)] loop over adjacent entries;
    the pair is [(consecutive_patterns, has_consecutive)]. *)
Fixpoint scan_adjacent (numbers : list Z) (acc : dict string Z * bool)
    : dict string Z * bool :=
  match numbers with
  | a :: (b :: _) as rest =>
      if b - a =? 1
      then scan_adjacent rest (bump (fst acc) (pattern_of a b), true)
      else scan_adjacent rest acc
  | _ => acc
  end.

(** The body of the loop over the rows; the pair is
    [(consecutive_patterns, total_draws_with_consecutive)]. *)
Definition consecutive_step (acc : dict string Z * Z) (r : stats_row)
    : dict string Z * Z :=
  let numbers := sorted (numbers_list r) in
  let scanned := scan_adjacent numbers (fst acc, false) in
  if snd scanned : bool
  then (fst scanned, snd acc + 1)
  else (fst scanned, snd acc).

Definition analyze_consecutive_numbers (self : StatsEngine)
    (num_draws : option Z) : result (dict string value) :=
  let target_df := target self num_draws in
  if df_empty target_df
  then Ok [("consecutive_patterns", VCounts []);
           ("total_draws_with_consecutive", VInt 0)]
  else
    let acc := fold_left consecutive_step (rows_of target_df) ([], 0) in
    let consecutive_patterns := fst acc in
    let total_draws_with_consecutive := snd acc in
    Ok [("consecutive_patterns", VCounts (sorted_items consecutive_patterns));
        ("total_draws_with_consecutive", VInt total_draws_with_consecutive);
        ("percentage_with_consecutive",
          if 0 <? df_len target_df
          then VNum (Q_of_Z total_draws_with_consecutive
                       / Q_of_Z (df_len target_df) * Q_of_Z 100)%Q
          else VInt 0)].

(** [StatsEngine(data_filepath)]: the constructor loads the table; an
    exception of the loading reaches the caller. *)
Definition StatsEngine_init {P : Pandas} (file : option (list row))
    : result StatsEngine :=
  table <- _load_data file ;;
  Ok {| df := table |}.

(* ================================================================== *)
(** * [ai_layer.py]                                                    *)
(* ================================================================== *)

(** The character [\n]. *)
Definition new_line : string := String (ascii_of_nat 10) EmptyString.

(** [sorted(series.items(), key=lambda item: item[1])] and the same with
    [reverse=True]; both keep items of equal count in their order. *)
Definition count_leb (a b : Z * Z) : bool := snd a <=? snd b.
Definition count_geb (a b : Z * Z) : bool := snd b <=? snd a.

Definition sorted_by_count (series : dict Z Z) : list (Z * Z) :=
  sort_by count_leb series.

Definition sorted_by_count_desc (series : dict Z Z) : list (Z * Z) :=
  sort_by count_geb series.

(** [l[-n:]] for a positive [n] *)
Definition last_n {A : Type} (n : nat) (l : list A) : list A :=
  skipn (List.length l - n) l.

(** [max(d, key=d.get)]: the first key of the greatest value; an empty
    mapping has none. *)
Fixpoint max_key_from (best : string * Z) (d : dict string Z) : string :=
  match d with
  | [] => fst best
  | kv :: d' =>
      if snd best <? snd kv then max_key_from kv d' else max_key_from best d'
  end.

Definition max_key (d : dict string Z) : result string :=
  match d with
  | [] => Raise ValueError
  | kv :: d' => Ok (max_key_from kv d')
  end.

(** The distribution held under a key of the ratio result. *)
Definition counts_of (v : value) : result (dict string Z) :=
  match v with
  | VCounts d => Ok d
  | _ => Raise TypeError
  end.

(** What the layer prints. *)
Inductive ai_message : Type :=
| AiConfigured
| AiConfigureFailed (e : exn)
| AiSending.

(** What the layer asks of the Gemini library. *)
Inductive ai_call : Type :=
| CallConfigure (key : string)
| CallStartChat
| CallSendMessage (text : string).

Section AILayer.
(** The Gemini library: the model object and the chat session are its
    own; [send_message] returns the text of the response and leaves the
    session in a new state, or raises. *)
Variable Model : Type.
Variable Chat : Type.
Variable genai_configure : string -> result Model.
Variable start_chat : Model -> result Chat.
Variable send_message : Chat -> string -> result string * Chat.

(** [os.getenv('GOOGLE_API_KEY')] *)
Variable getenv : option string.

(** [f"{x:.2f}"] and [str(x)] for a float [x], and [str(e)] for an
    exception. *)
Variable format_2f : Q -> string.
Variable str_float : Q -> string.
Variable exn_text : exn -> string.

(** [f"{v:.2f}"] for a field of a result: [None] has no such format. *)
Definition format_2f_value (v : value) : result string :=
  match v with
  | VNum q => Ok (format_2f q)
  | VInt n => Ok (format_2f (inject_Z n))
  | VNaN => Ok "nan"
  | _ => Raise TypeError
  end.

(** [f"{v}"] for the fields that the prompt prints as they are: an
    integer, a float or [None]. *)
Definition str_value (v : value) : result string :=
  match v with
  | VInt n => Ok (str_of_int n)
  | VNum q => Ok (str_float q)
  | VNaN => Ok "nan"
  | VNone => Ok "None"
  | _ => Raise TypeError
  end.

Record AILayer : Type := mkAILayer
  { stats_engine : StatsEngine;
    model : option Model;
    chat : option Chat }.

(** [AILayer(stats_engine)] *)
Definition AILayer_init (engine : StatsEngine) : AILayer :=
  {| stats_engine := engine; model := None; chat := None |}.

(** The text of the prompt, the computed fields being given. *)
Definition prompt_text (num_draws : Z) (hot_numbers cold_numbers : list string)
    (mean_sum min_sum max_sum common_odd_even common_big_small : string)
    (total percentage hot_last_digits_str : string) : string :=
  (new_line
   ++ "您是一位專業的樂透數據分析師，專精於「今彩539」。請根據以下最近 "
   ++ str_of_int num_draws
   ++ " 期的統計數據，提供您的專業分析與見解。請用繁體中文回答。"
   ++ new_line ++ new_line
   ++ "--- 數據摘要 (最近 " ++ str_of_int num_draws ++ " 期) ---" ++ new_line
   ++ "- **熱門號碼 (出現最多次)**: " ++ join ", " hot_numbers ++ new_line
   ++ "- **冷門號碼 (出現最少次)**: " ++ join ", " cold_numbers ++ new_line
   ++ "- **和值趨勢**: 平均和值為 " ++ mean_sum ++ "，近期和值在 " ++ min_sum
   ++ " 到 " ++ max_sum ++ " 之間波動。" ++ new_line
   ++ "- **奇偶比趨勢**: 最常見的奇偶比為「" ++ common_odd_even ++ "」。"
   ++ new_line
   ++ "- **大小比趨勢** (1-19為小, 20-39為大): 最常見的大小比為「"
   ++ common_big_small ++ "」。" ++ new_line
   ++ "- **連號趨勢**: 最近 " ++ str_of_int num_draws ++ " 期中，有 " ++ total
   ++ " 期出現連號，佔比約 " ++ percentage ++ "%。" ++ new_line
   ++ "- **尾數趨勢**: 最熱門的尾數為 " ++ hot_last_digits_str ++ "。"
   ++ new_line ++ new_line
   ++ "--- 分析任務 ---" ++ new_line
   ++ "請根據以上數據，完成以下三項任務：" ++ new_line ++ new_line
   ++ "1.  **總結趨勢**: 請用 2-3 句話，以專業且易懂的方式，總結近期的主要趨勢。"
   ++ new_line
   ++ "2.  **提供建議**: 基於「排除低機率極端組合」的原則（例如，避免全奇/全偶、全大/全小、和值過高/過低），並結合上述數據，請提供 2 組 (每組 5 個號碼) 具有參考價值的選號建議。"
   ++ new_line
   ++ "3.  **說明理由**: 簡要說明您提供這 2 組號碼的理由，例如您是如何平衡熱門/冷門號碼，或如何考慮奇偶/大小比的。"
   ++ new_line)%string.

(** The message returned for a table without data. *)
Definition no_data_message : string :=
  "錯誤：無法生成提示，因為沒有可用的統計數據。".

Definition _generate_analysis_prompt (self : AILayer) (num_draws : Z)
    : result string :=
  if df_empty (df (stats_engine self)) then Ok no_data_message
  else
    freq <- calculate_frequency (stats_engine self) (Some num_draws) ;;
    sum_analysis <-
      calculate_sum_analysis (stats_engine self) (Some num_draws) ;;
    ratios <-
      calculate_odd_even_big_small_ratios (stats_engine self)
        (Some num_draws) ;;
    consecutive <-
      analyze_consecutive_numbers (stats_engine self) (Some num_draws) ;;
    last_digits <- analyze_last_digits (stats_engine self) (Some num_draws) ;;
    let sorted_freq := sorted_by_count freq in
    let hot_numbers :=
      map (fun item => format_02d (fst item)) (last_n 5 sorted_freq) in
    let cold_numbers :=
      map (fun item => format_02d (fst item)) (firstn 5 sorted_freq) in
    odd_even <- dict_item ratios "odd_even_distribution" ;;
    odd_even <- counts_of odd_even ;;
    common_odd_even <- max_key odd_even ;;
    big_small <- dict_item ratios "big_small_distribution" ;;
    big_small <- counts_of big_small ;;
    common_big_small <- max_key big_small ;;
    let hot_last_digits := sorted_by_count_desc last_digits in
    let hot_last_digits_str :=
      join ", "
        (map (fun item => str_of_int (fst item)) (firstn 3 hot_last_digits)) in
    mean_sum <- dict_item sum_analysis "mean_sum" ;;
    mean_sum <- format_2f_value mean_sum ;;
    min_sum <- dict_item sum_analysis "min_sum" ;;
    min_sum <- str_value min_sum ;;
    max_sum <- dict_item sum_analysis "max_sum" ;;
    max_sum <- str_value max_sum ;;
    total <- dict_item consecutive "total_draws_with_consecutive" ;;
    total <- str_value total ;;
    percentage <- dict_item consecutive "percentage_with_consecutive" ;;
    percentage <- format_2f_value percentage ;;
    Ok (prompt_text num_draws hot_numbers cold_numbers mean_sum min_sum
          max_sum common_odd_even common_big_small total percentage
          hot_last_digits_str).

(** The layer together with what it has printed and asked so far. *)
Record ai_state : Type := mkAiState
  { layer : AILayer;
    ai_stdout : list ai_message;
    ai_calls : list ai_call }.

Definition set_model (st : ai_state) (m : option Model) : ai_state :=
  {| layer := {| stats_engine := stats_engine (layer st); model := m;
                 chat := chat (layer st) |};
     ai_stdout := ai_stdout st; ai_calls := ai_calls st |}.

Definition set_chat (st : ai_state) (c : option Chat) : ai_state :=
  {| layer := {| stats_engine := stats_engine (layer st);
                 model := model (layer st); chat := c |};
     ai_stdout := ai_stdout st; ai_calls := ai_calls st |}.

Definition ai_print (st : ai_state) (m : ai_message) : ai_state :=
  {| layer := layer st; ai_stdout := ai_stdout st ++ [m];
     ai_calls := ai_calls st |}.

Definition ai_call_made (st : ai_state) (c : ai_call) : ai_state :=
  {| layer := layer st; ai_stdout := ai_stdout st;
     ai_calls := ai_calls st ++ [c] |}.

(** [bool(s)] for an optional string: [None] and [""] are false. *)
Definition non_empty_key (key : option string) : option string :=
  match key with
  | Some EmptyString => None
  | _ => key
  end.

Definition configure_api_key (api_key : option string) (st : ai_state)
    : result unit * ai_state :=
  let key :=
    match non_empty_key api_key with
    | Some k => Some k
    | None => getenv
    end in
  match non_empty_key key with
  | None => (Raise ValueError, st)
  | Some k =>
      let st := ai_call_made st (CallConfigure k) in
      match genai_configure k with
      | Ok m => (Ok tt, ai_print (set_model st (Some m)) AiConfigured)
      | Raise e => (Ok tt, set_model (ai_print st (AiConfigureFailed e)) None)
      end
  end.

Definition not_configured_message : string :=
  "錯誤：Gemini 模型未配置。請先設定 API 金鑰。".

Definition no_session_message : string :=
  "錯誤：對話會話未啟動。請先獲取 AI 分析以啟動對話。".

Definition get_ai_analysis (num_draws : Z) (st : ai_state)
    : result string * ai_state :=
  match model (layer st) with
  | None => (Ok not_configured_message, st)
  | Some m =>
      match _generate_analysis_prompt (layer st) num_draws with
      | Raise e => (Raise e, st)
      | Ok analysis_prompt =>
          if prefix "錯誤" analysis_prompt then (Ok analysis_prompt, st)
          else
            let st := ai_print st AiSending in
            let st := ai_call_made st CallStartChat in
            match start_chat m with
            | Raise e =>
                (Ok ("❌ 與 Gemini API 互動時發生錯誤: " ++ exn_text e)%string,
                 st)
            | Ok session =>
                let st := set_chat st (Some session) in
                let st := ai_call_made st (CallSendMessage analysis_prompt) in
                match send_message session analysis_prompt with
                | (Ok text, session') => (Ok text, set_chat st (Some session'))
                | (Raise e, session') =>
                    (Ok ("❌ 與 Gemini API 互動時發生錯誤: "
                           ++ exn_text e)%string,
                     set_chat st (Some session'))
                end
            end
      end
  end.

Definition send_chat_message (message : string) (st : ai_state)
    : result string * ai_state :=
  match chat (layer st) with
  | None => (Ok no_session_message, st)
  | Some session =>
      let st := ai_call_made st (CallSendMessage message) in
      match send_message session message with
      | (Ok text, session') => (Ok text, set_chat st (Some session'))
      | (Raise e, session') =>
          (Ok ("❌ 與 Gemini API 對話時發生錯誤: " ++ exn_text e)%string,
           set_chat st (Some session'))
      end
  end.
End AILayer.

(* ================================================================== *)
(** * [app.py]: loading the table for the dashboard                    *)
(* ================================================================== *)

Section App.
Context {P : Pandas} {Py : Python} {Out : Outside}.

(** [load_and_process_data], on its first call: the crawl with its default
    start month, then the table as the statistics engine loads it. *)
Definition load_and_process_data (w0 : world)
    : option (result (DataFrame stats_row) * world) :=
  match crawl_and_save_daily_cash 2014 1 w0 with
  | None => None
  | Some (Raise e, w1) => Some (Raise e, w1)
  | Some (Ok _, w1) =>
      match disk w1 with
      | Some content =>
          Some (rows <- read_csv content ;; _load_data (Some rows), w1)
      | None => Some (Ok NoColumns, w1)
      end
  end.
End App.

(* ================================================================== *)
(** * Specification vocabulary and sample data                         *)
(* ================================================================== *)

(** The order that a boolean comparison decides. *)
Definition le_of {A : Type} (leb : A -> A -> bool) (a b : A) : Prop :=
  leb a b = true.

(** [d] is the latest date of [rows]: it is the date of one of them and
    none is later. *)
Definition is_latest (rows : list row) (d : datetime) : Prop :=
  In d (map ad_date rows)
  /\ Forall (fun r => date_leb (ad_date r) d = true) rows.

(** The table is in ascending order of date. *)
Definition date_sorted (rows : list row) : Prop :=
  Sorted (le_of ad_date_leb) rows.

(** No two rows of the table have the same period. *)
Definition unique_periods (rows : list row) : Prop :=
  NoDup (map draw rows).

(** The incoming records that pass the date filter. *)
Definition survivors (existing incoming : list row) : list row :=
  filter (is_newer (latest_date existing)) incoming.

(** The date of the record is strictly greater than the maximum date of
    the table: than the date of every row of it, which every date is when
    the table has no row. *)
Definition after_maximum (existing : list row) (r : row) : bool :=
  forallb (fun e => date_gtb (ad_date r) (ad_date e)) existing.

(** The incoming records whose date is strictly greater than the maximum
    date of the table. *)
Definition date_filtered (existing incoming : list row) : list row :=
  filter (after_maximum existing) incoming.

(** Removing the duplicate periods and keeping the first occurrence, in
    the words of the specification: a row stays when no row before it
    carries its period. *)
Fixpoint keep_first_occurrence (rows : list row) : list row :=
  match rows with
  | [] => []
  | r :: rest =>
      r :: filter (fun r' => negb (String.eqb (draw r') (draw r)))
             (keep_first_occurrence rest)
  end.

(** No two rows of the table have the same date. *)
Definition distinct_dates (rows : list row) : Prop :=
  NoDup (map ad_date rows).

(** The first row of a table that carries a given period. *)
Definition first_with_period (p : string) (rows : list row) : option row :=
  find (fun r => String.eqb (draw r) p) rows.

(** Sample rows, used to run the pipeline on concrete tables. *)
Definition sample_row (p : string) (y m d : Z) (ns : string) : row :=
  {| draw := p;
     date := (str_of_int (y - 1911) ++ "/" ++ format_02d m ++ "/"
                ++ format_02d d)%string;
     ad_date := datetime_of y m d;
     numbers := ns;
     price := 8000000;
     lottery_type := "daily_cash" |}.

Definition row_jan_02 : row := sample_row "113000001" 2024 1 2 "01,02,03,04,05".

Definition row_jan_03 : row := sample_row "113000002" 2024 1 3 "10,11,20,21,39".

Definition row_jan_04 : row := sample_row "113000003" 2024 1 4 "02,04,06,08,10".

(** The period of [row_jan_02], reported again under a later date. *)
Definition row_jan_02_redated : row :=
  sample_row "113000001" 2024 1 5 "01,02,03,04,05".

(** A table that holds the period of [row_jan_02] twice, and a batch that
    reports it a third time together with a new period of an earlier day. *)
Definition doubled_table : list row :=
  [row_jan_02; sample_row "113000001" 2024 1 9 "01,02,03,04,05"].

Definition doubled_batch : list row :=
  [sample_row "113000001" 2024 1 10 "01,02,03,04,05";
   sample_row "113000009" 2024 1 5 "01,02,03,04,06"].

(** Rows that carry the same period carry the same date. *)
Definition period_fixes_date (rows : list row) : Prop :=
  forall r1 r2, In r1 rows -> In r2 rows ->
                draw r1 = draw r2 -> ad_date r1 = ad_date r2.

(** The property of the data model: five entries, each in 1..39, no
    entry twice. *)
Definition valid_numbers (ns : list Z) : Prop :=
  List.length ns = 5%nat
  /\ Forall (fun n => 1 <= n <= 39) ns
  /\ NoDup ns.

(** The entries of the [numbers] field of a row are the integers that
    the statistics engine reads from it. *)
Definition numbers_ok (r : row) : Prop :=
  exists entries,
    parse_numbers (numbers r) = Ok entries
    /\ valid_numbers entries
    /\ Sorted Z.le entries.

(** The raw item carries at least five draw numbers, the first five of
    which are integers, distinct values of 1..39; what follows the fifth
    is not looked at. *)
Definition well_drawn (item : json) : Prop :=
  exists values ns,
    json_item item "drawNumberAppear" = Ok (JArr values)
    /\ (5 <= List.length values)%nat
    /\ ints_of (firstn 5 values) = Some ns
    /\ Forall (fun n => 1 <= n <= 39) ns
    /\ NoDup ns.

(** A reading of [fromisoformat] for the ten-character form [YYYY-MM-DD],
    to run the model on examples (the length of each month is not
    checked). *)
Definition digit_of (c : ascii) : option Z :=
  let n := Z.of_N (N_of_ascii c) in
  if (48 <=? n) && (n <=? 57) then Some (n - 48) else None.

Fixpoint number_of (s : string) (acc : Z) : option Z :=
  match s with
  | EmptyString => Some acc
  | String c s' =>
      match digit_of c with
      | Some d => number_of s' (acc * 10 + d)
      | None => None
      end
  end.

Definition fromisoformat_ymd (s : string) : option datetime :=
  if (String.length s =? 10)%nat
     && String.eqb (substring 4 1 s) "-"
     && String.eqb (substring 7 1 s) "-"
  then
    match number_of (substring 0 4 s) 0,
          number_of (substring 5 2 s) 0,
          number_of (substring 8 2 s) 0 with
    | Some y, Some m, Some d =>
        if (1 <=? y) && (1 <=? m) && (m <=? 12) && (1 <=? d) && (d <=? 31)
        then Some (datetime_of y m d)
        else None
    | _, _, _ => None
    end
  else None.

(** An item with three draw numbers, one twice and one above 39. *)
Definition short_item : json :=
  JObj [("lotteryDate", JStr "2024-01-05T00:00:00");
        ("period", JNum 113000004);
        ("drawNumberAppear", JArr [JNum 40; JNum 7; JNum 7])].

(** An item with six draw numbers, all distinct values of 1..39. *)
Definition full_item : json :=
  JObj [("lotteryDate", JStr "2024-01-05T00:00:00");
        ("period", JNum 113000004);
        ("drawNumberAppear",
          JArr [JNum 39; JNum 7; JNum 21; JNum 1; JNum 12; JNum 30])].

(** [repr] of a list or of a [dict], for the examples, none of which
    shows one. *)
Definition sample_repr (v : json) : string := "...".

(** The character [sep] does not occur in [s]. *)
Fixpoint no_char (sep : ascii) (s : string) : bool :=
  match s with
  | EmptyString => true
  | String c s' => negb (Ascii.eqb c sep) && no_char sep s'
  end.

(** Every integer of 0..99 is written without a comma and read back. *)
Definition reads_back (n : Z) : bool :=
  no_char "," (format_02d n)
  && match int_of_str (format_02d n) with
     | Ok m => m =? n
     | Raise _ => false
     end.

(** A world with no file, before anything has happened. *)
Definition empty_world {P : Pandas} : world :=
  {| stdout := []; output_dir := false; disk := None;
     written := []; requested := []; slept := 0 |}.

(** A remote that answers every request with the JSON array [[]]. *)
Definition array_remote (year_month : string) (page_num page_size : Z)
    : http_outcome :=
  Response 200 (Json (JArr [])).

(** A remote that answers with one draw of January 2024, for every
    month. *)
Definition january_remote (year_month : string) (page_num page_size : Z)
    : http_outcome :=
  Response 200
    (Json (JObj
       [("rtCode", JNum 0);
        ("content", JObj [("daily539Res", JArr [full_item])])])).

(** A computation that leaves the persisted file alone: same content, no
    write recorded. *)
Definition keeps_disk {P : Pandas} {A : Type} (m : io A) : Prop :=
  forall w, disk (snd (m w)) = disk w /\ written (snd (m w)) = written w.

(** The table that [get_existing_data_df] loads from a world. *)
Definition loaded_table {P : Pandas} (w : world) : DataFrame row :=
  match disk w with
  | Some content =>
      match read_csv content with
      | Ok rows => Frame rows
      | Raise _ => NoColumns
      end
  | None => NoColumns
  end.

(** The draw that [january_remote] reports. *)
Definition january_row : row :=
  sample_row "113000004" 2024 1 5 "01,07,12,21,39".

(** A pandas for the examples: the content of the file is the table
    itself, a write that fails leaves the file empty, timestamps count
    nanoseconds, and the sort is a stable sort of the rows as [arrange]
    puts them first. *)
Definition sample_pandas (arrange : forall R : Type, list R -> list R)
    (arranged : forall (R : Type) (l : list R), Permutation (arrange R l) l)
    : Pandas.
Proof.
  refine
    {| csv := list row;
       read_csv := fun content => Ok content;
       to_csv := fun rows => rows;
       torn_csv := fun _ => [];
       sort_by_date :=
         fun (R : Type) (key : R -> datetime) (rows : list R) =>
           sort_by (fun a b => date_leb (key a) (key b)) (arrange R rows);
       sort_by_date_perm := _;
       sort_by_date_sorted := _;
       in_timestamp_range :=
         fun d => date_leb (datetime_of 1677 9 22) d
                  && date_leb d (datetime_of 2262 4 11) |}.
  - intros R key rows.
    set (leb := fun a b : R => date_leb (key a) (key b)).
    apply Permutation_trans with (arrange R rows); [|apply arranged].
    induction (arrange R rows) as [|x l IH]; simpl; [constructor|].
    apply Permutation_trans with (x :: sort_by leb l);
      [|now apply perm_skip].
    clear IH.
    induction (sort_by leb l) as [|y l' IH]; simpl;
      [apply Permutation_refl|].
    destruct (leb x y); [apply Permutation_refl|].
    apply Permutation_trans with (y :: x :: l');
      [now apply perm_skip | apply perm_swap].
  - intros R key rows. unfold in_date_order.
    set (leb := fun a b : R => date_leb (key a) (key b)).
    assert (Htotal : forall a b, leb a b = false -> leb b a = true).
    { intros a b. unfold leb, date_leb.
      rewrite orb_false_iff, andb_false_iff, orb_true_iff, andb_true_iff.
      rewrite !Z.ltb_ge, !Z.ltb_lt, Z.leb_gt, Z.leb_le, Z.eqb_neq, Z.eqb_eq.
      lia. }
    induction (arrange R rows) as [|x l IH]; simpl; [constructor|].
    induction IH as [|y l' Hs IH Hhd]; simpl; [repeat constructor|].
    fold leb. destruct (leb x y) eqn:Hxy.
    + constructor; [now constructor | now constructor].
    + constructor; [exact IH|].
      destruct l' as [|z l'']; simpl.
      * constructor. now apply Htotal.
      * destruct (leb x z); constructor;
          [now apply Htotal | now inversion Hhd].
Defined.

(** The sort keeps the rows of the same date in their input order. *)
Definition stable_pandas : Pandas :=
  sample_pandas (fun (R : Type) (l : list R) => l)
    (fun (R : Type) (l : list R) => Permutation_refl l).

(** The sort puts the rows of the same date in the reverse of their input
    order. *)
Definition reversing_pandas : Pandas :=
  sample_pandas (fun (R : Type) (l : list R) => rev l)
    (fun (R : Type) (l : list R) => Permutation_sym (Permutation_rev l)).

(** A Python for the examples: version 3.12, requests 2.27 or later. *)
Definition sample_python : Python :=
  {| fromisoformat := fromisoformat_ymd;
     py_repr := sample_repr;
     slices_hashable := true;
     decoder := RequestsOwn |}.

(** The API answering as [january_remote] or [array_remote] does, on
    January 20 and on February 20, 2024. *)
Definition january_outside : Outside :=
  {| remote := january_remote; now := datetime_of 2024 1 20 |}.

Definition february_outside : Outside :=
  {| remote := january_remote; now := datetime_of 2024 2 20 |}.

Definition array_outside : Outside :=
  {| remote := array_remote; now := datetime_of 2024 1 20 |}.

(** An answer whose message is a string that holds the surrogate U+D800,
    and one that is nested too deeply for the decoder. *)
Definition surrogate_outside : Outside :=
  {| remote :=
       fun _ _ _ =>
         Response 200
           (Json (JObj [("rtCode", JNum 1);
                        ("rtMsg",
                          JStr (String (ascii_of_nat 237)
                                  (String (ascii_of_nat 160)
                                     (String (ascii_of_nat 128) ""))))]));
     now := datetime_of 2024 1 20 |}.

Definition deep_outside : Outside :=
  {| remote := fun _ _ _ => Response 200 TooDeep;
     now := datetime_of 2024 1 20 |}.

(** A world whose file already holds the draw that [january_remote]
    reports. *)
Definition january_world : world (P := stable_pandas) :=
  @mkWorld stable_pandas [] true (Some [january_row]) [] [] 0.

(** How often [k] occurs in [xs]. *)
Definition occurrences (k : Z) (xs : list Z) : Z :=
  Z.of_nat (count_occ Z.eq_dec xs k).

(** All the numbers drawn in the window, draw after draw. *)
Definition window_numbers (self : StatsEngine) (num_draws : option Z)
    : list Z :=
  List.concat (map numbers_list (rows_of (target self num_draws))).

(** The pairs of neighbours of a list, left to right. *)
Fixpoint adjacent_pairs (ns : list Z) : list (Z * Z) :=
  match ns with
  | a :: (b :: _) as rest => (a, b) :: adjacent_pairs rest
  | _ => []
  end.

(** The second entry of the pair is the first plus one. *)
Definition is_step (ab : Z * Z) : bool := snd ab - fst ab =? 1.

(** The adjacent pairs of a draw, once sorted, that differ by exactly 1. *)
Definition consecutive_pairs (numbers : list Z) : list (Z * Z) :=
  filter is_step (adjacent_pairs (sorted numbers)).

(** The pattern under which a pair is counted. *)
Definition pair_pattern (ab : Z * Z) : string :=
  pattern_of (fst ab) (snd ab).

(** The patterns of one draw, one entry per consecutive pair. *)
Definition draw_patterns (r : stats_row) : list string :=
  map pair_pattern (consecutive_pairs (numbers_list r)).

(** The draw has at least one such pair. *)
Definition has_consecutive (r : stats_row) : bool :=
  non_empty (consecutive_pairs (numbers_list r)).

(** The patterns of all the draws of a window, one entry per pair. *)
Definition window_patterns (rows : list stats_row) : list string :=
  flat_map draw_patterns rows.

(** How often the pattern [p] occurs in a list of patterns. *)
Definition pattern_occurrences (p : string) (patterns : list string) : Z :=
  Z.of_nat (count_occ string_dec patterns p).

(** The labels of a mapping are in strictly ascending order. *)
Definition sorted_by_label (counts : dict string Z) : Prop :=
  Sorted (fun a b => String.ltb (fst a) (fst b) = true) counts.

(** The table of the specification's scenario: three draws. *)
Definition scenario_engine : StatsEngine :=
  {| df := Frame [ {| persisted := row_jan_02;
                      numbers_list := [1; 2; 3; 4; 5] |};
                   {| persisted := row_jan_03;
                      numbers_list := [10; 11; 20; 21; 39] |};
                   {| persisted := row_jan_04;
                      numbers_list := [2; 4; 6; 8; 10] |} ] |}.

(** ** Vocabulary of the further properties *)

Section NormalizerVocabulary.
Context {Py : Python}.

(** The exception that the processing of an item raises and that the
    [except] clause of the loop does not catch, if there is one. *)
Definition stops (item : json) : option exn :=
  match process_item item with
  | Ok _ => None
  | Raise e => if is_item_error e then None else Some e
  end.

(** The exception that ends the loop over a list of items, if one does:
    that of the first item that raises one. *)
Fixpoint stopped_by (raw_data : list json) : option exn :=
  match raw_data with
  | [] => None
  | item :: rest =>
      match stops item with
      | Some e => Some e
      | None => stopped_by rest
      end
  end.

(** The items that the loop goes through to their end: those before the
    first that ends it. *)
Fixpoint passed (raw_data : list json) : list json :=
  match raw_data with
  | [] => []
  | item :: rest =>
      match stops item with
      | Some _ => []
      | None => item :: passed rest
      end
  end.

(** The records that the normalizer makes of a list of items, and the
    diagnostics it prints for the others, in the order of the items. *)
Definition records_of (raw_data : list json) : list row :=
  flat_map (fun item =>
              match process_item item with
              | Ok r => [r]
              | Raise _ => []
              end) raw_data.

Definition diagnostics_of (raw_data : list json) : list message :=
  flat_map (fun item =>
              match process_item item with
              | Ok _ => []
              | Raise e => [MsgItemError e item]
              end) raw_data.

(** The item is an object with its three fields: a date that is a string
    which, once the time suffix is removed, [fromisoformat] reads as [d];
    a period [p], of any kind; and draw numbers of which the first five,
    or all if there are fewer, are the integers [ns] ([True] and [False]
    counting as 1 and 0). *)
Definition complete_item (item : json) (d : datetime) (p : json)
    (ns : list Z) : Prop :=
  exists fields s v head,
    item = JObj fields
    /\ dict_find fields "lotteryDate" = Some (JStr s)
    /\ fromisoformat (str_replace "T00:00:00" "" s) = Some d
    /\ dict_find fields "period" = Some p
    /\ dict_find fields "drawNumberAppear" = Some v
    /\ first_five slices_hashable v = Ok head
    /\ ints_of head = Some ns.

(** The record that the normalizer makes of such an item. *)
Definition record_of (d : datetime) (p : json) (ns : list Z) : row :=
  {| draw := py_str p;
     date := (str_of_int (year d - 1911) ++ "/" ++ format_02d (month d)
                ++ "/" ++ format_02d (day d))%string;
     ad_date := d;
     numbers := join "," (map format_02d (sorted ns));
     price := 8000000;
     lottery_type := "daily_cash" |}.
End NormalizerVocabulary.

(** The month at which a run starts to crawl: the month of the latest
    date of the loaded table, or the start month given. *)
Definition crawl_start (table : DataFrame row) (start_year start_month : Z)
    : datetime :=
  match get_latest_ad_date table with
  | Some latest => replace_day latest 1
  | None => datetime_of start_year start_month 1
  end.

(** The first day of the [i]-th month after that of [start]. *)
Definition month_after (start : datetime) (i : nat) : datetime :=
  {| month_index := month_index start + Z.of_nat i; day := 1 |}.

(** The month parameters of [n] months in a row, from that of [start]. *)
Definition month_sequence (start : datetime) (n : nat) : list string :=
  map (fun i => year_month_of (month_after start i)) (seq 0 n).

(** The start month given for a first crawl is a month of a year that
    [datetime] accepts. *)
Definition valid_start (start_year start_month : Z) : bool :=
  (1 <=? start_year) && (start_year <=? 9999)
  && (1 <=? start_month) && (start_month <=? 12).

(** The sum of the counts of a mapping. *)
Definition total_count {K : Type} (counts : dict K Z) : Z :=
  fold_right (fun kv acc => snd kv + acc) 0 counts.

(** The world after the messages [ms] have been printed. *)
Definition printed {P : Pandas} (w : world) (ms : list message) : world :=
  {| stdout := stdout w ++ ms; output_dir := output_dir w;
     disk := disk w; written := written w;
     requested := requested w; slept := slept w |}.

(** The diagnostic that loading the table prints: one message when the
    file exists and cannot be read. *)
Definition read_diagnostics {P : Pandas} (w : world) : list message :=
  match disk w with
  | Some content =>
      match read_csv content with
      | Ok _ => []
      | Raise e => [MsgReadFailed e]
      end
  | None => []
  end.

(** The world after the month [year_month] has been asked of the API and
    the messages [ms] have been printed. *)
Definition asked {P : Pandas} (w : world) (year_month : string)
    (ms : list message) : world :=
  {| stdout := stdout w ++ ms; output_dir := output_dir w;
     disk := disk w; written := written w;
     requested := requested w ++ [year_month]; slept := slept w |}.

(** The value is a string that holds a surrogate code point. *)
Definition holds_surrogate (v : json) : bool :=
  match v with
  | JStr s => has_surrogate s
  | _ => false
  end.

(** What the fetcher makes of an answer of the API: its result, and the
    diagnostic that it prints after the progress line, if any. *)
Definition fetched {Py : Python} (answer : http_outcome)
    : result json * list message :=
  match answer with
  | NoResponse => (Ok (JObj []), [MsgRequestFailed RequestException])
  | Response status content =>
      if is_http_error status
      then (Ok (JObj []), [MsgRequestFailed HTTPError])
      else
        match content with
        | NotJson =>
            match decoder with
            | RequestsOwn =>
                (Ok (JObj []), [MsgRequestFailed RequestsJSONDecodeError])
            | StdlibJson => (Ok (JObj []), [MsgJsonFailed JSONDecodeError])
            | Simplejson => (Raise SimplejsonDecodeError, [])
            end
        | TooManyDigits => (Raise ValueError, [])
        | TooDeep => (Raise RecursionError, [])
        | Json (JObj fields) =>
            if equals_zero (dict_find fields "rtCode")
            then (Ok (dict_get fields "content" (JObj [])), [])
            else
              let rtMsg := dict_get fields "rtMsg" (JStr "未知錯誤") in
              if holds_surrogate rtMsg
              then (Raise UnicodeEncodeError, [])
              else (Ok (JObj []), [MsgApiError rtMsg])
        | Json _ => (Raise AttributeError, [])
        end
  end.

(** The content payload of an answer of the API, when the fetcher returns
    one: the status is not an HTTP error, the body is a JSON object and
    its API status code is 0. *)
Definition payload (answer : http_outcome) : option json :=
  match answer with
  | Response status (Json (JObj fields)) =>
      if negb (is_http_error status)
         && equals_zero (dict_find fields "rtCode")
      then Some (dict_get fields "content" (JObj []))
      else None
  | _ => None
  end.

(** The result list of a content payload: what an object holds under
    the key [daily539Res]. *)
Definition result_list (content : json) : option json :=
  match content with
  | JObj fields => dict_find fields "daily539Res"
  | _ => None
  end.

(** The world after [content] has been written to the file and the
    messages [ms] have been printed. *)
Definition saved {P : Pandas} (w : world) (content : csv)
    (ms : list message) : world :=
  {| stdout := stdout w ++ ms; output_dir := output_dir w;
     disk := Some content; written := written w ++ [content];
     requested := requested w; slept := slept w |}.

(** The number of passes of the month loop that starts at [iter]: one for
    every month from that of [iter] on in which the day of [iter] is not
    after [now]. *)
Definition months_left (now iter : datetime) : nat :=
  Z.to_nat (month_index now - month_index iter
            + (if day iter <=? day now then 1 else 0)).

Section BatchVocabulary.
Context {Py : Python} {Out : Outside}.

(** The records that the normalizer returns for a result list: those of
    the items of a list when it goes through the whole list, and none when
    an item ends the loop or the value is not a list. *)
Definition normalized (raw_data : json) : list row :=
  match raw_data with
  | JArr items =>
      match stopped_by items with
      | None => records_of items
      | Some _ => []
      end
  | _ => []
  end.

(** The records that a run takes from the answer of the API for one
    month: those that the normalizer returns for the result list of the
    payload, and none when the answer has no payload or the payload no
    result list. *)
Definition month_batch (answer : http_outcome) : list row :=
  match payload answer with
  | Some content =>
      match result_list content with
      | Some raw_data => normalized raw_data
      | None => []
      end
  | None => []
  end.

(** The batch that a run gathers from the API when it starts to crawl at
    [start]: the records of every month, first page, month after month. *)
Definition gathered (start : datetime) : list row :=
  flat_map (fun year_month => month_batch (remote year_month 1 50))
    (month_sequence start (months_left now start)).
End BatchVocabulary.

(** Every draw holds five entries, each in 1..39. *)
Definition five_in_range (r : stats_row) : Prop :=
  List.length (numbers_list r) = 5%nat
  /\ Forall (fun n => 1 <= n <= 39) (numbers_list r).

(** The ratio strings and the labels under which the ratio query counts
    one draw. *)
Definition odd_even_ratio (r : stats_row) : string :=
  let odd_count := count_if is_odd (numbers_list r) in
  (str_of_int odd_count ++ ":" ++ str_of_int (5 - odd_count))%string.

Definition odd_even_label (r : stats_row) : string :=
  let odd_count := count_if is_odd (numbers_list r) in
  (str_of_int odd_count ++ "奇" ++ str_of_int (5 - odd_count) ++ "偶")%string.

Definition big_small_ratio (r : stats_row) : string :=
  let small_count := count_if is_small (numbers_list r) in
  (str_of_int (5 - small_count) ++ ":" ++ str_of_int small_count)%string.

Definition big_small_label (r : stats_row) : string :=
  let small_count := count_if is_small (numbers_list r) in
  (str_of_int (5 - small_count) ++ "大" ++ str_of_int small_count
     ++ "小")%string.

(** The [numbers] field of the row is the text that the normalizer writes
    for the integers [ns], of which there are at least two. *)
Definition written_numbers (r : row) (ns : list Z) : Prop :=
  (2 <= List.length ns)%nat
  /\ numbers r = join "," (map format_02d ns).

(** The requests that a caller makes of the AI layer. *)
Inductive ai_request : Type :=
| Configure (api_key : option string)
| Analyse (num_draws : Z)
| ChatMessage (message : string).

(** What the calls made so far allow: whether a key was passed to the
    library and whether a chat was started.  [None] stands for a list of
    calls in which a chat was started before any key was passed, or a
    message sent before any chat was started. *)
Definition protocol_step (flags : option (bool * bool)) (c : ai_call)
    : option (bool * bool) :=
  match flags with
  | None => None
  | Some (configured, started) =>
      match c with
      | CallConfigure _ => Some (true, started)
      | CallStartChat => if configured then Some (configured, true) else None
      | CallSendMessage _ =>
          if started then Some (configured, started) else None
      end
  end.

Definition protocol (calls : list ai_call) : option (bool * bool) :=
  fold_left protocol_step calls (Some (false, false)).

(** The exception that a result stands for, if any. *)
Definition exception_of {A : Type} (r : result A) : option exn :=
  match r with
  | Ok _ => None
  | Raise e => Some e
  end.

(** The key that [configure_api_key] passes to the library: its argument
    unless that is missing or empty, and then the one of the environment
    unless that is missing or empty too. *)
Definition key_used (getenv api_key : option string) : option string :=
  match non_empty_key api_key with
  | Some k => Some k
  | None => non_empty_key getenv
  end.

Section Session.
Variable Model : Type.
Variable Chat : Type.
Variable genai_configure : string -> result Model.
Variable start_chat : Model -> result Chat.
Variable send_message : Chat -> string -> result string * Chat.
Variable getenv : option string.
Variable format_2f : Q -> string.
Variable str_float : Q -> string.
Variable exn_text : exn -> string.

(** The layer after one request; an exception leaves the caller with the
    layer as the request left it. *)
Definition serve (st : ai_state Model Chat) (request : ai_request)
    : ai_state Model Chat :=
  match request with
  | Configure api_key =>
      snd (configure_api_key genai_configure getenv api_key st)
  | Analyse num_draws =>
      snd (get_ai_analysis start_chat send_message format_2f str_float
             exn_text num_draws st)
  | ChatMessage message =>
      snd (send_chat_message send_message exn_text message st)
  end.

(** The exception that a request raises, if any. *)
Definition raised (st : ai_state Model Chat) (request : ai_request)
    : option exn :=
  match request with
  | Configure api_key =>
      exception_of (fst (configure_api_key genai_configure getenv api_key st))
  | Analyse num_draws =>
      exception_of
        (fst (get_ai_analysis start_chat send_message format_2f str_float
                exn_text num_draws st))
  | ChatMessage message =>
      exception_of (fst (send_chat_message send_message exn_text message st))
  end.

(** The layer after a sequence of requests made of a new layer. *)
Definition session (engine : StatsEngine) (requests : list ai_request)
    : ai_state Model Chat :=
  fold_left serve requests
    {| layer := AILayer_init Model Chat engine;
       ai_stdout := []; ai_calls := [] |}.
End Session.


(* ================================================================== *)
(** * Facts about the runtime                                          *)
(* ================================================================== *)

Section SortingFacts.
Context {A : Type}.
Variable leb : A -> A -> bool.

Lemma insert_sorted_perm (x : A) (l : list A) :
  Permutation (insert_sorted leb x l) (x :: l).
Proof.
  induction l as [|y l IH]; simpl.
  - apply Permutation_refl.
  - destruct (leb x y).
    + apply Permutation_refl.
    + apply Permutation_trans with (y :: x :: l).
      * apply perm_skip, IH.
      * apply perm_swap.
Qed.

Lemma sort_by_perm (l : list A) : Permutation (sort_by leb l) l.
Proof.
  induction l as [|x l IH]; simpl.
  - apply perm_nil.
  - apply Permutation_trans with (x :: sort_by leb l).
    + apply insert_sorted_perm.
    + apply perm_skip, IH.
Qed.

Lemma sort_by_in (l : list A) (x : A) : In x (sort_by leb l) <-> In x l.
Proof.
  split; apply Permutation_in;
    [apply sort_by_perm | apply Permutation_sym, sort_by_perm].
Qed.

Lemma sort_by_length (l : list A) :
  List.length (sort_by leb l) = List.length l.
Proof. apply Permutation_length, sort_by_perm. Qed.

(** A list already in order is returned as it is. *)
Lemma sort_by_sorted_id (l : list A) :
  Sorted (le_of leb) l -> sort_by leb l = l.
Proof.
  induction 1 as [|x l Hs IH Hhd]; simpl; [reflexivity|].
  rewrite IH.
  destruct Hhd as [|y l' Hxy]; simpl; [reflexivity|].
  unfold le_of in Hxy. now rewrite Hxy.
Qed.

Hypothesis leb_total : forall a b, leb a b = false -> leb b a = true.

Lemma insert_sorted_hd (x a : A) (l : list A) :
  le_of leb a x -> HdRel (le_of leb) a l ->
  HdRel (le_of leb) a (insert_sorted leb x l).
Proof.
  intros Hax Hhd. destruct l as [|y l]; simpl.
  - now constructor.
  - destruct (leb x y); constructor; [assumption|].
    now inversion Hhd.
Qed.

Lemma insert_sorted_sorted (x : A) (l : list A) :
  Sorted (le_of leb) l -> Sorted (le_of leb) (insert_sorted leb x l).
Proof.
  induction 1 as [|y l Hs IH Hhd]; simpl.
  - repeat constructor.
  - destruct (leb x y) eqn:Hxy.
    + constructor; [now constructor | now constructor].
    + constructor; [exact IH|].
      apply insert_sorted_hd; [|exact Hhd].
      now apply leb_total.
Qed.

Lemma sort_by_sorted (l : list A) : Sorted (le_of leb) (sort_by leb l).
Proof.
  induction l as [|x l IH]; simpl.
  - constructor.
  - now apply insert_sorted_sorted.
Qed.
End SortingFacts.

(** ** The order on dates *)

Lemma date_leb_refl (a : datetime) : date_leb a a = true.
Proof. unfold date_leb. rewrite Z.eqb_refl, Z.leb_refl. apply orb_true_r. Qed.

Lemma date_leb_spec (a b : datetime) :
  date_leb a b = true <->
  month_index a < month_index b
  \/ (month_index a = month_index b /\ day a <= day b).
Proof.
  unfold date_leb.
  rewrite orb_true_iff, andb_true_iff, Z.ltb_lt, Z.eqb_eq, Z.leb_le.
  reflexivity.
Qed.

Lemma date_leb_false (a b : datetime) :
  date_leb a b = false <->
  month_index b < month_index a
  \/ (month_index a = month_index b /\ day b < day a).
Proof.
  rewrite <- not_true_iff_false, date_leb_spec. lia.
Qed.

Lemma date_leb_total (a b : datetime) :
  date_leb a b = false -> date_leb b a = true.
Proof. rewrite date_leb_false, date_leb_spec. lia. Qed.

Lemma date_leb_trans (a b c : datetime) :
  date_leb a b = true -> date_leb b c = true -> date_leb a c = true.
Proof. rewrite !date_leb_spec. lia. Qed.

Lemma date_leb_antisym (a b : datetime) :
  date_leb a b = true -> date_leb b a = true -> a = b.
Proof.
  rewrite !date_leb_spec. destruct a as [ma da], b as [mb db]; simpl.
  intros H1 H2. f_equal; lia.
Qed.

Lemma date_gtb_spec (a b : datetime) :
  date_gtb a b = true <-> date_leb a b = false.
Proof. unfold date_gtb. apply negb_true_iff. Qed.

Lemma date_max_ub_l (a b : datetime) : date_leb a (date_max a b) = true.
Proof.
  unfold date_max. destruct (date_leb a b) eqn:E; [exact E|].
  apply date_leb_refl.
Qed.

Lemma date_max_ub_r (a b : datetime) : date_leb b (date_max a b) = true.
Proof.
  unfold date_max. destruct (date_leb a b) eqn:E.
  - apply date_leb_refl.
  - now apply date_leb_total.
Qed.

Lemma date_max_cases (a b : datetime) : date_max a b = a \/ date_max a b = b.
Proof. unfold date_max. destruct (date_leb a b); auto. Qed.

Lemma ad_date_leb_total (a b : row) :
  ad_date_leb a b = false -> ad_date_leb b a = true.
Proof. apply date_leb_total. Qed.


(** ** Sorting by date *)

(** Rows of distinct dates have one ascending order. *)
Lemma date_order_unique (R : Type) (key : R -> datetime) (l1 l2 : list R) :
  in_date_order key l1 -> in_date_order key l2 -> Permutation l1 l2 ->
  NoDup (map key l1) -> l1 = l2.
Proof.
  unfold in_date_order.
  set (le := fun a b : R => date_leb (key a) (key b) = true).
  assert (Htrans : Relations_1.Transitive le)
    by (intros a b c; apply date_leb_trans).
  revert l2. induction l1 as [|x l1 IH]; intros l2 H1 H2 Hp Hnd.
  - now apply Permutation_nil in Hp.
  - destruct l2 as [|y l2].
    { apply Permutation_sym, Permutation_nil in Hp. discriminate. }
    apply Sorted_StronglySorted in H1; [|exact Htrans].
    apply Sorted_StronglySorted in H2; [|exact Htrans].
    inversion H1 as [|? ? Hs1 Hx]; subst.
    inversion H2 as [|? ? Hs2 Hy]; subst.
    inversion Hnd as [|? ? Hkx Hnd']; subst.
    rewrite Forall_forall in Hx, Hy.
    assert (x = y) as <-.
    { assert (In x (y :: l2)) as Hxin
        by (eapply Permutation_in; [exact Hp | now left]).
      assert (In y (x :: l1)) as Hyin
        by (eapply Permutation_in;
            [apply Permutation_sym; exact Hp | now left]).
      destruct Hxin as [-> | Hxin]; [reflexivity|].
      destruct Hyin as [-> | Hyin]; [reflexivity|].
      exfalso. apply Hkx.
      assert (key x = key y) as ->
        by (apply date_leb_antisym; [now apply Hx | now apply Hy]).
      now apply in_map. }
    f_equal. apply IH.
    + now apply StronglySorted_Sorted.
    + now apply StronglySorted_Sorted.
    + eapply Permutation_cons_inv. exact Hp.
    + exact Hnd'.
Qed.
(* ================================================================== *)
(** * The merge pipeline: specification and proofs                     *)
(* ================================================================== *)

Lemma fold_max_step_some (rows : list row) (d : datetime) :
  exists d',
    fold_left max_step rows (Some d) = Some d'
    /\ date_leb d d' = true
    /\ Forall (fun r => date_leb (ad_date r) d' = true) rows
    /\ (d' = d \/ In d' (map ad_date rows)).
Proof.
  revert d. induction rows as [|r rows IH]; intros d; simpl.
  - exists d. repeat split; auto using date_leb_refl.
  - destruct (IH (date_max d (ad_date r))) as (d' & Hf & Hle & Hall & Hin).
    exists d'. split; [exact Hf|]. split.
    + eapply date_leb_trans; [apply date_max_ub_l | exact Hle].
    + split.
      * constructor; [|exact Hall].
        eapply date_leb_trans; [apply date_max_ub_r | exact Hle].
      * destruct Hin as [-> | Hin]; [|now right; right].
        destruct (date_max_cases d (ad_date r)) as [-> | ->]; auto.
Qed.

Lemma max_ad_date_cons (r : row) (rows : list row) :
  exists d, max_ad_date (r :: rows) = Some d /\ is_latest (r :: rows) d.
Proof.
  unfold max_ad_date; simpl.
  destruct (fold_max_step_some rows (ad_date r)) as (d & Hf & Hle & Hall & Hin).
  exists d. split; [exact Hf|]. split.
  - simpl. destruct Hin as [-> | Hin]; auto.
  - now constructor.
Qed.

Lemma is_latest_unique (rows : list row) (d1 d2 : datetime) :
  is_latest rows d1 -> is_latest rows d2 -> d1 = d2.
Proof.
  intros [Hin1 Hall1] [Hin2 Hall2].
  rewrite Forall_forall in Hall1, Hall2.
  apply in_map_iff in Hin1 as (r1 & <- & Hr1).
  apply in_map_iff in Hin2 as (r2 & <- & Hr2).
  apply date_leb_antisym; auto.
Qed.

Lemma latest_date_nil : latest_date [] = None.
Proof. reflexivity. Qed.

Lemma latest_date_cons (r : row) (rows : list row) :
  latest_date (r :: rows) = max_ad_date (r :: rows).
Proof. reflexivity. Qed.

Lemma latest_date_some (rows : list row) (d : datetime) :
  latest_date rows = Some d <-> is_latest rows d.
Proof.
  destruct rows as [|r rows].
  - split; [discriminate|]. intros [[] _].
  - rewrite latest_date_cons.
    destruct (max_ad_date_cons r rows) as (d' & -> & Hd').
    split.
    + now intros [= <-].
    + intros Hd. f_equal. eapply is_latest_unique; eassumption.
Qed.

Lemma latest_date_none (rows : list row) :
  latest_date rows = None <-> rows = [].
Proof.
  destruct rows as [|r rows]; [easy|].
  rewrite latest_date_cons.
  destruct (max_ad_date_cons r rows) as (d' & -> & _). easy.
Qed.

(** The latest date only depends on the rows as a set. *)
Lemma is_latest_equiv (l1 l2 : list row) (d : datetime) :
  (forall r, In r l1 <-> In r l2) -> is_latest l1 d -> is_latest l2 d.
Proof.
  intros Heq [Hin Hall]. split.
  - apply in_map_iff in Hin as (r & <- & Hr).
    apply in_map, Heq, Hr.
  - rewrite Forall_forall in *. intros r Hr. apply Hall, Heq, Hr.
Qed.

(** ** The date filter *)

Lemma collect_new_filter (latest : option datetime) (l : list row)
    (acc : list row * Z) :
  collect_new latest l acc
  = (fst acc ++ filter (is_newer latest) l,
     snd acc + Z.of_nat (List.length (filter (is_newer latest) l))).
Proof.
  revert acc. induction l as [|r l IH]; intros [recs n]; simpl.
  - now rewrite app_nil_r, Z.add_0_r.
  - destruct (is_newer latest r); rewrite IH; simpl.
    + rewrite <- app_assoc. simpl. f_equal. lia.
    + reflexivity.
Qed.

(** ** De-duplication by period *)

Lemma seen_iff (p : string) (seen : list string) :
  existsb (String.eqb p) seen = true <-> In p seen.
Proof.
  rewrite existsb_exists. split.
  - intros (q & Hq & Heq). apply String.eqb_eq in Heq. now subst.
  - intros Hp. exists p. split; [exact Hp | apply String.eqb_refl].
Qed.

Lemma seen_false_iff (p : string) (seen : list string) :
  existsb (String.eqb p) seen = false <-> ~ In p seen.
Proof. rewrite <- seen_iff. symmetry. apply not_true_iff_false. Qed.

Lemma drop_seen_ext (s1 s2 : list string) (l : list row) :
  (forall p, In p s1 <-> In p s2) ->
  drop_duplicates_seen s1 l = drop_duplicates_seen s2 l.
Proof.
  revert s1 s2. induction l as [|r l IH]; intros s1 s2 Heq; simpl.
  - reflexivity.
  - assert (existsb (String.eqb (draw r)) s1
            = existsb (String.eqb (draw r)) s2) as ->.
    { apply eq_true_iff_eq. rewrite !seen_iff. apply Heq. }
    destruct (existsb _ s2).
    + now apply IH.
    + f_equal. apply IH. intros p. simpl. rewrite Heq. reflexivity.
Qed.

Lemma drop_seen_in (seen : list string) (l : list row) (r : row) :
  In r (drop_duplicates_seen seen l) -> In r l /\ ~ In (draw r) seen.
Proof.
  revert seen. induction l as [|x l IH]; intros seen; simpl; [easy|].
  destruct (existsb _ seen) eqn:E.
  - intros H. apply IH in H. tauto.
  - intros [-> | H].
    + split; [now left | now apply seen_false_iff].
    + apply IH in H. simpl in H. tauto.
Qed.

Lemma drop_seen_periods (seen : list string) (l : list row) (p : string) :
  In p (map draw (drop_duplicates_seen seen l))
  <-> In p (map draw l) /\ ~ In p seen.
Proof.
  revert seen. induction l as [|x l IH]; intros seen; simpl; [tauto|].
  destruct (existsb _ seen) eqn:E.
  - rewrite IH. apply seen_iff in E.
    split; [tauto|]. intros [[<- | H] Hn]; tauto.
  - apply seen_false_iff in E. simpl. rewrite IH. simpl.
    destruct (String.eqb_spec (draw x) p) as [<- | Hne]; tauto.
Qed.

Lemma drop_seen_nodup (seen : list string) (l : list row) :
  NoDup (map draw (drop_duplicates_seen seen l)).
Proof.
  revert seen. induction l as [|x l IH]; intros seen; simpl.
  - constructor.
  - destruct (existsb _ seen); [apply IH|].
    simpl. constructor; [|apply IH].
    rewrite drop_seen_periods. simpl. tauto.
Qed.

Lemma drop_seen_app (seen : list string) (l1 l2 : list row) :
  drop_duplicates_seen seen (l1 ++ l2)
  = drop_duplicates_seen seen l1
    ++ drop_duplicates_seen (map draw l1 ++ seen) l2.
Proof.
  revert seen. induction l1 as [|x l1 IH]; intros seen; simpl.
  - reflexivity.
  - destruct (existsb _ seen) eqn:E.
    + rewrite IH. f_equal. apply drop_seen_ext.
      apply seen_iff in E. intros p. simpl. rewrite !in_app_iff.
      split; [tauto|]. intros [<- | H]; tauto.
    + simpl. rewrite IH. do 2 f_equal. apply drop_seen_ext.
      intros p. simpl. rewrite !in_app_iff. simpl. tauto.
Qed.

Lemma drop_seen_id (seen : list string) (l : list row) :
  NoDup (map draw l) ->
  (forall p, In p (map draw l) -> ~ In p seen) ->
  drop_duplicates_seen seen l = l.
Proof.
  revert seen. induction l as [|x l IH]; intros seen Hnd Hdis; simpl.
  - reflexivity.
  - inversion Hnd as [|? ? Hx Hnd']; subst.
    assert (existsb (String.eqb (draw x)) seen = false) as ->.
    { apply seen_false_iff, Hdis. now left. }
    f_equal. apply IH; [exact Hnd'|].
    intros p Hp [<- | Hs]; [contradiction|].
    apply (Hdis p); [now right | exact Hs].
Qed.

Lemma drop_seen_all (seen : list string) (l : list row) :
  (forall r, In r l -> In (draw r) seen) ->
  drop_duplicates_seen seen l = [].
Proof.
  induction l as [|x l IH]; intros Hall; simpl; [reflexivity|].
  assert (existsb (String.eqb (draw x)) seen = true) as ->.
  { apply seen_iff, Hall. now left. }
  apply IH. intros r Hr. apply Hall. now right.
Qed.

(** De-duplication keeps, for every period, the first row carrying it. *)
Lemma drop_seen_first (seen : list string) (l : list row) (p : string) :
  ~ In p seen ->
  first_with_period p (drop_duplicates_seen seen l) = first_with_period p l.
Proof.
  unfold first_with_period.
  revert seen. induction l as [|x l IH]; intros seen Hp; simpl.
  - reflexivity.
  - destruct (existsb _ seen) eqn:E.
    + apply seen_iff in E.
      destruct (String.eqb_spec (draw x) p) as [<- | Hne]; [contradiction|].
      now apply IH.
    + simpl. destruct (String.eqb_spec (draw x) p) as [<- | Hne].
      * reflexivity.
      * apply IH. intros [Heq | Hs]; auto.
Qed.

Lemma drop_duplicates_nodup (l : list row) :
  unique_periods (drop_duplicates l).
Proof. apply drop_seen_nodup. Qed.

Lemma drop_duplicates_in (l : list row) (r : row) :
  In r (drop_duplicates l) -> In r l.
Proof. intros H. now apply drop_seen_in in H. Qed.

Lemma drop_duplicates_id (l : list row) :
  unique_periods l -> drop_duplicates l = l.
Proof. intros H. apply drop_seen_id; auto. Qed.

Lemma first_with_period_perm (p : string) (l l' : list row) :
  Permutation l l' -> unique_periods l ->
  first_with_period p l = first_with_period p l'.
Proof.
  unfold first_with_period, unique_periods.
  induction 1 as [|x l l' Hp IH|x y l|l l' l'' Hp1 IH1 Hp2 IH2];
    intros Hnd; simpl.
  - reflexivity.
  - inversion Hnd; subst. destruct (String.eqb (draw x) p); auto.
  - simpl in Hnd. inversion Hnd as [|? ? Hy Hnd']; subst.
    destruct (String.eqb_spec (draw y) p) as [Hy1 | Hy1];
      destruct (String.eqb_spec (draw x) p) as [Hx1 | Hx1]; try reflexivity.
    exfalso. apply Hy. left. congruence.
  - rewrite IH1 by exact Hnd. apply IH2.
    eapply Permutation_NoDup; [|exact Hnd].
    now apply Permutation_map.
Qed.

Lemma is_newer_spec (latest : option datetime) (r : row) :
  is_newer latest r = true
  <-> forall d, latest = Some d -> date_leb (ad_date r) d = false.
Proof.
  destruct latest as [d0|]; simpl.
  - rewrite date_gtb_spec. split.
    + now intros H d [= <-].
    + intros H. now apply H.
  - split; [discriminate | reflexivity].
Qed.

Lemma is_latest_attained (rows : list row) (d : datetime) :
  is_latest rows d ->
  exists r, In r rows /\ ad_date r = d
            /\ forall r', In r' rows -> date_leb (ad_date r') d = true.
Proof.
  intros [Hin Hall]. apply in_map_iff in Hin as (r & Hd & Hr).
  exists r. rewrite Forall_forall in Hall. auto.
Qed.

(** The date filter compares with the maximum date of the table. *)
Lemma is_newer_after_maximum (existing : list row) (r : row) :
  is_newer (latest_date existing) r = after_maximum existing r.
Proof.
  unfold after_maximum.
  destruct (latest_date existing) as [d|] eqn:E.
  - apply latest_date_some, is_latest_attained in E as (e & He & Hd & Hmax).
    simpl. apply eq_true_iff_eq. rewrite forallb_forall. split.
    + intros Hgt x Hx. apply date_gtb_spec. apply date_gtb_spec in Hgt.
      apply not_true_iff_false. intros Hle.
      rewrite (date_leb_trans _ _ _ Hle (Hmax x Hx)) in Hgt. discriminate.
    + intros Hall. rewrite <- Hd. now apply Hall.
  - apply latest_date_none in E. subst. reflexivity.
Qed.

Lemma survivors_date_filtered (existing incoming : list row) :
  survivors existing incoming = date_filtered existing incoming.
Proof.
  unfold survivors, date_filtered. apply filter_ext.
  intros r. apply is_newer_after_maximum.
Qed.

Lemma filter_filter (A : Type) (f g : A -> bool) (l : list A) :
  filter f (filter g l) = filter (fun x => g x && f x) l.
Proof.
  induction l as [|x l IH]; simpl; [reflexivity|].
  destruct (g x); simpl; [destruct (f x)|]; now rewrite IH.
Qed.

(** [drop_duplicates] keeps the first occurrence of every period. *)
Lemma drop_seen_keep_first (seen : list string) (l : list row) :
  drop_duplicates_seen seen l
  = filter (fun r => negb (existsb (String.eqb (draw r)) seen))
      (keep_first_occurrence l).
Proof.
  revert seen. induction l as [|x l IH]; intros seen; simpl; [reflexivity|].
  destruct (existsb (String.eqb (draw x)) seen) eqn:E; simpl.
  - rewrite IH, filter_filter. apply filter_ext_in. intros r _.
    destruct (String.eqb_spec (draw r) (draw x)) as [Heq | Hne]; simpl.
    + now rewrite Heq, E.
    + reflexivity.
  - f_equal. rewrite IH, filter_filter. apply filter_ext. intros r. simpl.
    destruct (String.eqb (draw r) (draw x)); reflexivity.
Qed.

Lemma drop_duplicates_keep_first (l : list row) :
  drop_duplicates l = keep_first_occurrence l.
Proof.
  unfold drop_duplicates. rewrite drop_seen_keep_first. simpl.
  induction (keep_first_occurrence l) as [|x k IH]; simpl; [reflexivity|].
  now rewrite IH.
Qed.

Section MergeFacts.
Context {P : Pandas}.

Lemma merge_unfold (existing incoming : list row) :
  merge existing incoming
  = match survivors existing incoming with
    | [] => existing
    | _ :: _ =>
        sort_values (drop_duplicates (existing ++ survivors existing incoming))
    end.
Proof.
  unfold merge, survivors, latest_date.
  rewrite collect_new_filter. simpl.
  destruct (filter _ incoming); reflexivity.
Qed.

Lemma sort_values_perm (l : list row) : Permutation (sort_values l) l.
Proof. apply sort_by_date_perm. Qed.

Lemma sort_values_sorted (l : list row) : date_sorted (sort_values l).
Proof. apply sort_by_date_sorted. Qed.

Lemma sort_values_in (l : list row) (r : row) :
  In r (sort_values l) <-> In r l.
Proof.
  split; apply Permutation_in;
    [apply sort_values_perm | apply Permutation_sym, sort_values_perm].
Qed.

Lemma sort_values_length (l : list row) :
  List.length (sort_values l) = List.length l.
Proof. apply Permutation_length, sort_values_perm. Qed.

Lemma sort_values_unique (l : list row) :
  unique_periods l -> unique_periods (sort_values l).
Proof.
  intros H. eapply Permutation_NoDup; [|exact H].
  apply Permutation_map, Permutation_sym, sort_values_perm.
Qed.

(** A table in date order in which no two rows have the same date is
    returned as it is; with rows of the same date, the library may change
    their order. *)
Lemma sort_values_id (l : list row) :
  date_sorted l -> distinct_dates l -> sort_values l = l.
Proof.
  intros Hs Hd. symmetry. apply (date_order_unique (key := ad_date)).
  - exact Hs.
  - apply sort_values_sorted.
  - apply Permutation_sym, sort_values_perm.
  - exact Hd.
Qed.

(** C1, amended.  For every existing table and every incoming batch,
    [merge] discards the incoming records whose date is not strictly
    greater than the maximum date of the existing table, a test on the
    date alone that comes before the de-duplication.  When a record
    survives, the merged table is the result of sorting by date the
    existing records followed by the survivors, the duplicate periods
    removed and the first occurrence kept: a permutation of these rows in
    ascending order of date.  When none survives, the merged table is the
    existing table as it is. *)
Theorem merge_filters_dedups_sorts (existing incoming : list row) :
  match date_filtered existing incoming with
  | [] => merge existing incoming = existing
  | _ :: _ =>
      merge existing incoming
      = sort_values
          (keep_first_occurrence
             (existing ++ date_filtered existing incoming))
      /\ Permutation (merge existing incoming)
           (keep_first_occurrence
              (existing ++ date_filtered existing incoming))
      /\ date_sorted (merge existing incoming)
  end.
Proof.
  rewrite merge_unfold, survivors_date_filtered.
  destruct (date_filtered existing incoming) as [|r kept] eqn:E;
    [reflexivity|].
  rewrite drop_duplicates_keep_first.
  split; [reflexivity|]. split.
  - apply sort_values_perm.
  - apply sort_values_sorted.
Qed.

(** The equation of the pipeline: it holds whenever the run writes. *)
Lemma merge_pipeline_eq (existing incoming : list row) :
  survivors existing incoming <> [] ->
  merge existing incoming
  = sort_values (drop_duplicates (existing ++ survivors existing incoming)).
Proof.
  intros H. rewrite merge_unfold.
  destruct (survivors existing incoming) as [|r kept] eqn:E; [|reflexivity].
  congruence.
Qed.

(** The two invariants of the data model hold of the empty table and are
    kept by every merge: they hold of every table the engine has built. *)
Lemma merge_keeps_table_invariants (existing incoming : list row) :
  unique_periods existing -> date_sorted existing ->
  unique_periods (merge existing incoming)
  /\ date_sorted (merge existing incoming).
Proof.
  intros Hu Hs. rewrite merge_unfold.
  destruct (survivors existing incoming) as [|r kept]; [now split|].
  split.
  - apply sort_values_unique, drop_duplicates_nodup.
  - apply sort_values_sorted.
Qed.

(** ** The latest date of a merged table *)

Lemma survivors_in (existing incoming : list row) (r : row) :
  In r (survivors existing incoming)
  <-> In r incoming /\ is_newer (latest_date existing) r = true.
Proof. unfold survivors. apply filter_In. Qed.

Lemma merged_periods (existing kept : list row) (r : row) :
  In r (existing ++ kept) ->
  exists r', In r' (sort_values (drop_duplicates (existing ++ kept)))
             /\ draw r' = draw r.
Proof.
  intros Hr.
  assert (In (draw r) (map draw (drop_duplicates (existing ++ kept)))) as H.
  { apply drop_seen_periods. split; [now apply in_map | intros []]. }
  apply in_map_iff in H as (r' & Hd & Hr').
  exists r'. split; [|exact Hd].
  now apply sort_values_in.
Qed.

(** C3, amended.  For every pair of tables A (existing) and B (incoming) in
    which rows of the same period have the same date, the latest date of
    [merge A B] is the maximum of the latest dates of A and of B, the empty
    table contributing [None]. *)
Theorem latest_of_merge (A B : list row) :
  period_fixes_date (A ++ B) ->
  latest_date (merge A B)
  = option_date_max (latest_date A) (latest_date B).
Proof.
  intros Hfix. rewrite merge_unfold.
  destruct (survivors A B) as [|s kept] eqn:E.
  - (* nothing survives: every row of B is at most as late as A *)
    destruct (latest_date B) as [dB|] eqn:EB.
    2:{ destruct (latest_date A); reflexivity. }
    apply latest_date_some, is_latest_attained in EB as (rB & HrB & HdB & _).
    assert (is_newer (latest_date A) rB = false) as Hold.
    { apply not_true_iff_false. intros Hn.
      assert (In rB (survivors A B)) as Hin by now apply survivors_in.
      rewrite E in Hin. destruct Hin. }
    destruct (latest_date A) as [dA|]; [|discriminate].
    simpl in Hold. unfold date_gtb in Hold.
    apply negb_false_iff in Hold. rewrite HdB in Hold.
    simpl. unfold date_max. destruct (date_leb dA dB) eqn:EAB; [|reflexivity].
    f_equal. now apply date_leb_antisym.
  - (* a row survives: the batch holds the latest date *)
    assert (In s (survivors A B)) as Hs by (rewrite E; now left).
    apply survivors_in in Hs as [HsB Hsnew].
    destruct (latest_date B) as [dB|] eqn:EB.
    2:{ apply latest_date_none in EB. subst B. destruct HsB. }
    apply latest_date_some, is_latest_attained in EB as (rB & HrB & HdB & HmaxB).
    assert (HsdB : date_leb (ad_date s) dB = true) by now apply HmaxB.
    assert (HAB : forall dA, latest_date A = Some dA ->
                             date_leb dB dA = false /\ date_leb dA dB = true).
    { intros dA EA. rewrite EA in Hsnew. simpl in Hsnew.
      apply date_gtb_spec in Hsnew.
      assert (date_leb dB dA = false) as Hlt.
      { apply not_true_iff_false. intros Hle.
        rewrite (date_leb_trans _ _ _ HsdB Hle) in Hsnew. discriminate. }
      split; [exact Hlt | now apply date_leb_total]. }
    assert (Hrhs : option_date_max (latest_date A) (Some dB) = Some dB).
    { destruct (latest_date A) as [dA|] eqn:EA; [|reflexivity].
      simpl. unfold date_max.
      destruct (HAB dA eq_refl) as [_ ->]. reflexivity. }
    rewrite Hrhs. rewrite <- E. apply latest_date_some. split.
    + (* the date of [rB] is still in the table *)
      assert (In rB (survivors A B)) as HrBk.
      { apply survivors_in. split; [exact HrB|].
        apply is_newer_spec. intros dA EA. rewrite HdB.
        now destruct (HAB dA EA). }
      destruct (@merged_periods A (survivors A B) rB) as (r' & Hr' & Hp).
      { apply in_or_app. now right. }
      apply in_map_iff. exists r'. split; [|exact Hr'].
      rewrite <- HdB. apply Hfix; [| |exact Hp].
      * apply sort_values_in, drop_duplicates_in, in_app_or in Hr'.
        apply in_or_app. destruct Hr' as [Hr' | Hr']; [now left|].
        right. now apply survivors_in in Hr'.
      * apply in_or_app. now right.
    + (* no row of the table is later *)
      apply Forall_forall. intros r Hr.
      apply sort_values_in, drop_duplicates_in, in_app_or in Hr.
      destruct Hr as [Hr | Hr].
      * destruct (latest_date A) as [dA|] eqn:EA.
        -- apply latest_date_some, is_latest_attained in EA as EA'.
           destruct EA' as (_ & _ & _ & HmaxA).
           eapply date_leb_trans; [now apply HmaxA|].
           now destruct (HAB dA eq_refl).
        -- apply latest_date_none in EA. subst A. destruct Hr.
      * apply survivors_in in Hr as [Hr _]. now apply HmaxB.
Qed.

(** ** Idempotence *)

Lemma merged_nonempty_latest (rows : list row) (r : row) :
  In r rows -> exists d, latest_date rows = Some d.
Proof.
  intros Hr. destruct (latest_date rows) as [d|] eqn:E; [now exists d|].
  apply latest_date_none in E. subst. destruct Hr.
Qed.

Lemma existing_rows_kept (existing kept : list row) (r : row) :
  unique_periods existing -> In r existing ->
  In r (sort_values (drop_duplicates (existing ++ kept))).
Proof.
  intros Hu Hr. apply sort_values_in.
  unfold drop_duplicates. rewrite drop_seen_app.
  apply in_or_app. left.
  fold (drop_duplicates existing). now rewrite drop_duplicates_id.
Qed.

(** What the second merge does on a table that holds one row per period:
    nothing, or one more sort of the table that the first one built. *)
Lemma merge_twice (T I : list row) :
  unique_periods T ->
  merge (merge T I) I = merge T I
  \/ (date_sorted (merge T I)
      /\ merge (merge T I) I = sort_values (merge T I)).
Proof.
  intros HT. rewrite (merge_unfold T I).
  destruct (survivors T I) as [|s kept] eqn:E.
  { left. rewrite merge_unfold, E. reflexivity. }
  rewrite <- E. clear s kept E.
  set (R := sort_values (drop_duplicates (T ++ survivors T I))).
  assert (HRu : unique_periods R)
    by apply sort_values_unique, drop_duplicates_nodup.
  assert (HRs : date_sorted R) by apply sort_values_sorted.
  rewrite merge_unfold.
  destruct (survivors R I) as [|s2 kept2] eqn:E2; [now left|].
  rewrite <- E2. right. split; [exact HRs|].
  assert (Hseen : forall r, In r (survivors R I) ->
                            In (draw r) (map draw R ++ [])).
  { intros r Hr. rewrite app_nil_r.
    apply survivors_in in Hr as [HrI Hnew].
    assert (In r (survivors T I)) as Hk.
    { apply survivors_in. split; [exact HrI|].
      apply is_newer_spec. intros dT ET.
      apply latest_date_some, is_latest_attained in ET
        as (rT & HrT & HdT & _).
      assert (In rT R) as HrTR by now apply existing_rows_kept.
      destruct (merged_nonempty_latest _ _ HrTR) as (dR & ER).
      rewrite ER in Hnew. simpl in Hnew. apply date_gtb_spec in Hnew.
      apply latest_date_some, is_latest_attained in ER
        as (_ & _ & _ & HmaxR).
      apply not_true_iff_false. intros Hle.
      rewrite (date_leb_trans _ _ _ Hle) in Hnew; [discriminate|].
      rewrite <- HdT. now apply HmaxR. }
    destruct (@merged_periods T (survivors T I) r) as (r' & Hr' & Hp).
    { apply in_or_app. now right. }
    rewrite <- Hp. now apply in_map. }
  unfold drop_duplicates. rewrite drop_seen_app.
  rewrite (drop_seen_all _ _ Hseen), app_nil_r.
  fold (drop_duplicates R).
  now rewrite drop_duplicates_id by exact HRu.
Qed.

(** C4, amended.  For every incoming batch I and every table T that holds
    one row per period, merging I into T and then the same I into the
    result yields the rows of merging I into T once: either the same
    table, or that table, which is in date order, sorted by date once
    more.  The two are the same table whenever no two of its rows have the
    same date; rows of the same date may otherwise change places. *)
Theorem merge_idempotent (T I : list row) :
  unique_periods T ->
  Permutation (merge (merge T I) I) (merge T I)
  /\ (merge (merge T I) I = merge T I
      \/ (date_sorted (merge T I)
          /\ merge (merge T I) I = sort_values (merge T I)))
  /\ (distinct_dates (merge T I) -> merge (merge T I) I = merge T I).
Proof.
  intros HT. pose proof (merge_twice I HT) as Hcases.
  split; [|split; [exact Hcases|]].
  - destruct Hcases as [-> | [_ ->]];
      [apply Permutation_refl | apply sort_values_perm].
  - intros Hd. destruct Hcases as [-> | [Hs ->]]; [reflexivity|].
    now apply sort_values_id.
Qed.

End MergeFacts.

(** With rows of distinct dates, a merge does not depend on the sorting
    algorithm. *)
Lemma merge_of_distinct_dates (P : Pandas) (existing incoming : list row) :
  distinct_dates (drop_duplicates (existing ++ survivors existing incoming)) ->
  merge existing incoming = merge (P := stable_pandas) existing incoming.
Proof.
  intros Hd. rewrite (merge_unfold (P := P)).
  rewrite (merge_unfold (P := stable_pandas)).
  destruct (survivors existing incoming) as [|s kept]; [reflexivity|].
  apply (date_order_unique (key := ad_date)).
  - apply sort_values_sorted.
  - apply (sort_values_sorted (P := stable_pandas)).
  - eapply Permutation_trans; [apply sort_values_perm|].
    apply Permutation_sym, (sort_values_perm (P := stable_pandas)).
  - unfold distinct_dates in *. eapply Permutation_NoDup; [|exact Hd].
    apply Permutation_map, Permutation_sym, sort_values_perm.
Qed.

(** Decides that the dates of a list of rows written out are distinct. *)
Ltac distinct_dates_of_rows :=
  unfold distinct_dates; vm_compute;
  repeat (constructor; [simpl; intuition discriminate|]);
  constructor.

(** C1, as stated, fails: when no incoming record passes the date filter
    the existing table is returned as it is, and neither de-duplicated nor
    sorted.  Here the table holds the draw of January 3 before that of
    January 2 and the batch reports the draw of January 2 again. *)
Lemma merge_filters_dedups_sorts_counterexample :
  exists existing incoming,
    existing = [row_jan_03; row_jan_02]
    /\ incoming = [row_jan_02]
    /\ forall P : Pandas,
         merge existing incoming = existing
         /\ ~ date_sorted (merge existing incoming).
Proof.
  exists [row_jan_03; row_jan_02], [row_jan_02].
  split; [reflexivity|]. split; [reflexivity|]. intros P.
  assert (H : merge [row_jan_03; row_jan_02] [row_jan_02]
              = [row_jan_03; row_jan_02]) by reflexivity.
  split; [exact H|]. rewrite H. intros Hs.
  inversion Hs as [|? ? _ Hhd]; subst.
  inversion Hhd as [|? ? Hle]; subst.
  vm_compute in Hle. discriminate.
Qed.

(** C3, as stated, fails: a batch that reports an existing period under a
    later date passes the date filter and is then dropped as a duplicate,
    so the merged table's latest date stays below that of the batch. *)
Lemma latest_of_merge_counterexample :
  exists A B,
    A = [row_jan_02]
    /\ B = [row_jan_02_redated]
    /\ forall P : Pandas,
         latest_date (merge A B)
         <> option_date_max (latest_date A) (latest_date B).
Proof.
  exists [row_jan_02], [row_jan_02_redated].
  split; [reflexivity|]. split; [reflexivity|]. intros P.
  rewrite merge_of_distinct_dates by distinct_dates_of_rows.
  vm_compute. discriminate.
Qed.

Lemma latest_of_merge_witness :
  period_fixes_date ([row_jan_02; row_jan_03] ++ [row_jan_03; row_jan_04])
  /\ latest_date (merge (P := stable_pandas) [row_jan_02; row_jan_03]
                    [row_jan_03; row_jan_04])
     = Some (datetime_of 2024 1 4).
Proof.
  split.
  - intros r1 r2 H1 H2 Hp. simpl in H1, H2.
    repeat (destruct H1 as [<- | H1]; [|]); try contradiction;
      repeat (destruct H2 as [<- | H2]; [|]); try contradiction;
      try reflexivity; vm_compute in Hp; discriminate.
  - rewrite (@latest_of_merge stable_pandas [row_jan_02; row_jan_03]
               [row_jan_03; row_jan_04]).
    + vm_compute. reflexivity.
    + intros r1 r2 H1 H2 Hp. simpl in H1, H2.
      repeat (destruct H1 as [<- | H1]; [|]); try contradiction;
        repeat (destruct H2 as [<- | H2]; [|]); try contradiction;
        try reflexivity; vm_compute in Hp; discriminate.
Defined.

(** C4, as stated, fails on a table that holds a period twice:
    de-duplication lowers the latest date, and the second merge lets in a
    record that the first one held back. *)
Lemma merge_idempotent_counterexample :
  exists T I,
    T = doubled_table
    /\ I = doubled_batch
    /\ forall P : Pandas,
         map ad_date (merge T I) = [datetime_of 2024 1 2]
         /\ map ad_date (merge (merge T I) I)
            = [datetime_of 2024 1 2; datetime_of 2024 1 5]
         /\ merge (merge T I) I <> merge T I.
Proof.
  exists doubled_table, doubled_batch.
  split; [reflexivity|]. split; [reflexivity|]. intros P.
  assert (H1 : merge doubled_table doubled_batch
               = merge (P := stable_pandas) doubled_table doubled_batch)
    by (apply merge_of_distinct_dates; distinct_dates_of_rows).
  assert (H2 : merge (merge doubled_table doubled_batch) doubled_batch
               = merge (P := stable_pandas)
                   (merge (P := stable_pandas) doubled_table doubled_batch)
                   doubled_batch).
  { rewrite H1. apply merge_of_distinct_dates. distinct_dates_of_rows. }
  rewrite H2, H1. split; [vm_compute; reflexivity|].
  split; [vm_compute; reflexivity|].
  vm_compute. discriminate.
Qed.

Lemma merge_idempotent_witness :
  unique_periods [row_jan_02; row_jan_03]
  /\ merge (P := stable_pandas)
       (merge (P := stable_pandas) [row_jan_02; row_jan_03]
          [row_jan_02_redated; row_jan_04])
       [row_jan_02_redated; row_jan_04]
     = [row_jan_02; row_jan_03; row_jan_04].
Proof.
  assert (Hu : unique_periods [row_jan_02; row_jan_03]).
  { unfold unique_periods. simpl.
    constructor; [simpl; intros [H | []]; vm_compute in H; discriminate|].
    constructor; [intros [] | constructor]. }
  split; [exact Hu|].
  destruct (@merge_idempotent stable_pandas [row_jan_02; row_jan_03]
              [row_jan_02_redated; row_jan_04] Hu) as (_ & _ & Heq).
  rewrite Heq; [vm_compute; reflexivity|].
  distinct_dates_of_rows.
Defined.

(** Nothing in what pandas promises of its sort excludes that rows of
    the same date change places when a table in date order is sorted
    again: with a sort that reverses them, merging twice is not merging
    once, even on a table that holds one row per period. *)
Remark merge_twice_reorders_same_day_rows :
  exists T I,
    unique_periods T
    /\ merge (P := reversing_pandas) (merge (P := reversing_pandas) T I) I
       <> merge (P := reversing_pandas) T I.
Proof.
  exists [row_jan_02],
         [sample_row "113000001" 2024 1 10 "01,02,03,04,05";
          sample_row "113000007" 2024 1 5 "01,02,03,04,06";
          sample_row "113000008" 2024 1 5 "01,02,03,04,07"].
  split.
  - unfold unique_periods. simpl. constructor; [intros [] | constructor].
  - vm_compute. discriminate.
Qed.
(* ================================================================== *)
(** * The record normalizer: the [numbers] field                       *)
(* ================================================================== *)

(** ** Writing the numbers and reading them back *)

Lemma split_on_no_char (sep : ascii) (s : string) :
  no_char sep s = true -> split_on sep s = [s].
Proof.
  induction s as [|c s IH]; simpl; [reflexivity|].
  intros H. apply andb_true_iff in H as [Hc Hs].
  apply negb_true_iff in Hc. rewrite Hc, (IH Hs). reflexivity.
Qed.

Lemma split_on_app (sep : ascii) (s t : string) :
  no_char sep s = true ->
  split_on sep (s ++ String sep t) = s :: split_on sep t.
Proof.
  induction s as [|c s IH]; simpl.
  - intros _. now rewrite Ascii.eqb_refl.
  - intros H. apply andb_true_iff in H as [Hc Hs].
    apply negb_true_iff in Hc. rewrite Hc, (IH Hs). reflexivity.
Qed.

Lemma split_on_join (parts : list string) :
  parts <> [] ->
  Forall (fun p => no_char "," p = true) parts ->
  split_on "," (join "," parts) = parts.
Proof.
  induction parts as [|p parts IH]; [congruence|].
  intros _ Hall. inversion Hall as [|? ? Hp Hrest]; subst.
  destruct parts as [|q parts].
  - simpl. now apply split_on_no_char.
  - change (join "," (p :: q :: parts))
      with (p ++ String "," (join "," (q :: parts)))%string.
    rewrite split_on_app by exact Hp.
    f_equal. apply IH; [discriminate | exact Hrest].
Qed.

Lemma py_range_in (a b n : Z) : a <= n < b -> In n (py_range a b).
Proof.
  intros H. unfold py_range. apply in_map_iff.
  exists (Z.to_nat (n - a)). split; [lia|].
  apply in_seq. lia.
Qed.

Lemma in_py_range (a b n : Z) : In n (py_range a b) -> a <= n < b.
Proof.
  unfold py_range. intros H.
  apply in_map_iff in H as (i & <- & Hi). apply in_seq in Hi. lia.
Qed.

Lemma reads_back_small (n : Z) : 0 <= n < 100 -> reads_back n = true.
Proof.
  intros H.
  assert (forallb reads_back (py_range 0 100) = true) as Hall
    by (vm_compute; reflexivity).
  rewrite forallb_forall in Hall. now apply Hall, py_range_in.
Qed.

Lemma ints_of_strs_format (ns : list Z) :
  Forall (fun n => 0 <= n < 100) ns ->
  ints_of_strs (map format_02d ns) = Ok ns.
Proof.
  induction 1 as [|n ns Hn Hns IH]; simpl; [reflexivity|].
  pose proof (reads_back_small Hn) as Hr. unfold reads_back in Hr.
  apply andb_true_iff in Hr as [_ Hr].
  destruct (int_of_str (format_02d n)) as [m|]; [|discriminate].
  apply Z.eqb_eq in Hr. subst m. simpl. now rewrite IH.
Qed.

Lemma parse_numbers_join (ns : list Z) :
  ns <> [] ->
  Forall (fun n => 0 <= n < 100) ns ->
  parse_numbers (join "," (map format_02d ns)) = Ok ns.
Proof.
  intros Hne Hall. unfold parse_numbers.
  rewrite split_on_join.
  - now apply ints_of_strs_format.
  - destruct ns; [congruence | discriminate].
  - apply Forall_map. eapply Forall_impl; [|exact Hall].
    intros n Hn. pose proof (reads_back_small Hn) as Hr.
    unfold reads_back in Hr. now apply andb_true_iff in Hr as [Hr _].
Qed.

Lemma sorted_perm (xs : list Z) : Permutation (sorted xs) xs.
Proof. apply sort_by_perm. Qed.

Lemma sorted_ascending (xs : list Z) : Sorted Z.le (sorted xs).
Proof.
  assert (Sorted (le_of Z.leb) (sorted xs)) as H.
  { apply sort_by_sorted. intros a b Hab.
    apply Z.leb_le. apply Z.leb_gt in Hab. lia. }
  induction H as [|x l Hs IH Hhd]; constructor; [exact IH|].
  destruct Hhd as [|y l Hxy]; constructor.
  now apply Z.leb_le.
Qed.

Lemma valid_numbers_sorted (ns : list Z) :
  valid_numbers ns -> valid_numbers (sorted ns).
Proof.
  intros (Hlen & Hrange & Hnd). repeat split.
  - rewrite <- Hlen. apply Permutation_length, sorted_perm.
  - eapply Permutation_Forall; [|exact Hrange].
    apply Permutation_sym, sorted_perm.
  - eapply Permutation_NoDup; [|exact Hnd].
    apply Permutation_sym, sorted_perm.
Qed.


Lemma printed_nil (P : Pandas) (w : world) : printed w [] = w.
Proof. destruct w. unfold printed. simpl. now rewrite app_nil_r. Qed.

Lemma printed_app (P : Pandas) (w : world) (a b : list message) :
  printed (printed w a) b = printed w (a ++ b).
Proof. unfold printed. simpl. now rewrite app_assoc. Qed.

Lemma print_printable (P : Pandas) (m : message) (w : world) :
  printable m = true -> print m w = (Ok tt, printed w [m]).
Proof. intros H. unfold print. now rewrite H. Qed.

Lemma ints_of_numbers (xs : list json) (ns : list Z) :
  ints_of xs = Some ns -> forallb is_number xs = true.
Proof.
  revert ns. induction xs as [|x xs IH]; intros ns; simpl; [reflexivity|].
  destruct x; simpl; try discriminate;
    (destruct (ints_of xs) as [ms|]; [|discriminate]);
    intros _; now apply (IH ms).
Qed.

Lemma ints_of_length (xs : list json) (ns : list Z) :
  ints_of xs = Some ns -> List.length ns = List.length xs.
Proof.
  revert ns. induction xs as [|x xs IH]; intros ns; simpl.
  - now intros [= <-].
  - destruct (as_int x); [|discriminate].
    destruct (ints_of xs) as [ms|]; [|discriminate].
    intros [= <-]. simpl. now rewrite (IH ms).
Qed.

Lemma sorted_numbers_ok (xs : list json) (l : list Z) :
  sorted_numbers xs = Ok l
  <-> exists ns, ints_of xs = Some ns /\ l = sorted ns.
Proof.
  unfold sorted_numbers. split.
  - destruct (forallb is_number xs).
    + destruct (ints_of xs) as [ns|]; [|discriminate].
      intros [= <-]. now exists ns.
    + destruct (forallb is_text xs); discriminate.
  - intros (ns & Hns & ->). rewrite (ints_of_numbers _ Hns), Hns.
    reflexivity.
Qed.

Lemma sorted_numbers_errors (xs : list json) (e : exn) :
  sorted_numbers xs = Raise e -> e = ValueError \/ e = TypeError.
Proof.
  unfold sorted_numbers.
  destruct (forallb is_number xs).
  - destruct (ints_of xs); [discriminate|]. intros [= <-]. now left.
  - destruct (forallb is_text xs); intros [= <-]; auto.
Qed.

Section NormalizerFacts.
Context {P : Pandas} {Py : Python}.

(** The items of which the normalizer makes a record, and the record. *)
Lemma process_item_ok (item : json) (r : row) :
  process_item item = Ok r
  <-> exists d p ns, complete_item item d p ns /\ r = record_of d p ns.
Proof.
  unfold process_item, complete_item, record_of, parse_date.
  split.
  - destruct item as [| | | | | |fields]; try discriminate.
    unfold json_item, dict_item, subscript. cbn [bind].
    destruct (dict_find fields "lotteryDate") as [v|] eqn:Es;
      [|discriminate].
    cbn [bind]. destruct v as [| | | |s| |]; try discriminate.
    cbn [json_replace bind].
    destruct (fromisoformat (str_replace "T00:00:00" "" s)) as [d|] eqn:Ed;
      [|discriminate].
    cbn [bind].
    destruct (dict_find fields "period") as [p|] eqn:Ep; [|discriminate].
    cbn [bind].
    destruct (dict_find fields "drawNumberAppear") as [v|] eqn:Ev;
      [|discriminate].
    cbn [bind].
    destruct (first_five slices_hashable v) as [head|] eqn:Eh;
      [|discriminate].
    cbn [bind].
    destruct (sorted_numbers head) as [l|] eqn:El; [|discriminate].
    cbn [bind]. intros [= <-].
    apply sorted_numbers_ok in El as (ns & Hns & ->).
    exists d, p, ns. split; [|reflexivity].
    now exists fields, s, v, head.
  - intros (d & p & ns & (fields & s & v & head & -> & Hs & Hd & Hp & Hv
                           & Hh & Hns) & ->).
    unfold json_item, dict_item, subscript.
    rewrite Hs. cbn [bind json_replace]. rewrite Hd. cbn [bind].
    rewrite Hp. cbn [bind]. rewrite Hv. cbn [bind]. rewrite Hh. cbn [bind].
    assert (sorted_numbers head = Ok (sorted ns)) as ->
      by (apply sorted_numbers_ok; now exists ns).
    reflexivity.
Qed.

(** The exceptions of the normalizer on one item. *)
Lemma process_item_errors (item : json) (e : exn) :
  process_item item = Raise e ->
  e = KeyError \/ e = ValueError \/ e = TypeError \/ e = AttributeError.
Proof.
  unfold process_item, parse_date.
  destruct item as [| | | | | |fields];
    try (intros [= <-]; now auto).
  unfold json_item, dict_item, subscript. cbn [bind].
  destruct (dict_find fields "lotteryDate") as [v|];
    [|intros [= <-]; now auto].
  cbn [bind]. destruct v as [| | | |s| |];
    try (intros [= <-]; now auto).
  cbn [json_replace bind].
  destruct (fromisoformat (str_replace "T00:00:00" "" s)) as [d|];
    [|intros [= <-]; now auto].
  cbn [bind].
  destruct (dict_find fields "period") as [p|]; [|intros [= <-]; now auto].
  cbn [bind].
  destruct (dict_find fields "drawNumberAppear") as [v|];
    [|intros [= <-]; now auto].
  cbn [bind].
  destruct (first_five slices_hashable v) as [head|e'] eqn:Eh.
  - cbn [bind].
    destruct (sorted_numbers head) as [l|e'] eqn:El; [discriminate|].
    cbn [bind]. intros [= <-].
    apply sorted_numbers_errors in El as [-> | ->]; auto.
  - cbn [bind]. intros [= <-].
    destruct v; simpl in Eh; try discriminate;
      try (injection Eh as <-; now auto).
    destruct slices_hashable; injection Eh as <-; auto.
Qed.

Lemma stops_fatal (item : json) (e : exn) :
  stops item = Some e ->
  process_item item = Raise e /\ (e = TypeError \/ e = AttributeError).
Proof.
  unfold stops.
  destruct (process_item item) as [r|e'] eqn:E; [discriminate|].
  destruct (is_item_error e') eqn:Ei; [discriminate|].
  intros [= <-]. split; [reflexivity|].
  apply process_item_errors in E as [-> | [-> | [-> | ->]]];
    try discriminate; auto.
Qed.

Lemma process_item_numbers (item : json) (r : row) :
  process_item item = Ok r ->
  exists v head ns,
    json_item item "drawNumberAppear" = Ok v
    /\ first_five slices_hashable v = Ok head
    /\ ints_of head = Some ns
    /\ numbers r = join "," (map format_02d (sorted ns)).
Proof.
  intros H.
  apply process_item_ok in H
    as (d & p & ns & (fields & s & v & head & -> & _ & _ & _ & Hv & Hh & Hns)
        & ->).
  exists v, head, ns. unfold json_item, dict_item, subscript.
  rewrite Hv. auto.
Qed.

(** The loop over the items: the items are processed in order up to the
    first whose exception the [except] clause does not catch. *)
Lemma process_loop_spec (raw_data : list json) :
  forall (processed_list : list row) (w : world),
    process_loop raw_data
      processed_list w
    = (match stopped_by raw_data with
       | Some e => Raise e
       | None => Ok (processed_list ++ records_of raw_data)
       end,
       printed w (diagnostics_of (passed raw_data))).
Proof.
  induction raw_data as [|item rest IH]; intros acc w.
  - simpl. unfold ret. now rewrite app_nil_r, printed_nil.
  - cbn [process_loop stopped_by passed].
    unfold io_bind, try_except, lift, stops.
    destruct (process_item item) as [r|e] eqn:Eitem; cbn [fst snd].
    + unfold ret. rewrite IH.
      unfold records_of, diagnostics_of. cbn [flat_map].
      rewrite Eitem. cbn [app]. rewrite <- app_assoc. reflexivity.
    + destruct (is_item_error e) eqn:Ee.
      * unfold io_bind. rewrite print_printable by reflexivity.
        unfold ret. rewrite IH.
        unfold records_of, diagnostics_of. cbn [flat_map].
        rewrite Eitem. cbn [app]. now rewrite printed_app.
      * now rewrite printed_nil.
Qed.

Lemma process_daily_cash_data_spec (raw_data : json) (w : world) :
  process_daily_cash_data raw_data w
  = match py_iter raw_data with
    | Raise e => (Raise e, w)
    | Ok items =>
        (match stopped_by items with
         | Some e => Raise e
         | None => Ok (records_of items)
         end,
         printed w (diagnostics_of (passed items)))
    end.
Proof.
  unfold process_daily_cash_data, io_bind, lift.
  destruct (py_iter raw_data) as [items|e]; [|reflexivity].
  apply process_loop_spec.
Qed.

Lemma records_of_in (raw_data : list json) (r : row) :
  In r (records_of raw_data)
  <-> exists item, In item raw_data /\ process_item item = Ok r.
Proof.
  unfold records_of. rewrite in_flat_map. split.
  - intros (item & Hit & Hr). exists item. split; [exact Hit|].
    destruct (process_item item) as [r0|e]; [|destruct Hr].
    destruct Hr as [<- | []]. reflexivity.
  - intros (item & Hit & Hr). exists item. split; [exact Hit|].
    rewrite Hr. now left.
Qed.

Lemma well_drawn_numbers_ok (item : json) (r : row) :
  process_item item = Ok r ->
  well_drawn item -> numbers_ok r.
Proof.
  intros Hitem (values & ns & Hv & Hlen & Hns & Hrange & Hnd).
  apply process_item_numbers in Hitem
    as (v & head & ns' & Hv' & Hh & Hns' & Hnum).
  rewrite Hv in Hv'. injection Hv' as <-.
  assert (head = firstn 5 values) as ->
    by (unfold first_five in Hh; congruence).
  rewrite Hns in Hns'. injection Hns' as <-.
  assert (valid_numbers ns) as Hvalid.
  { repeat split; [|exact Hrange | exact Hnd].
    rewrite (ints_of_length _ Hns), length_firstn. lia. }
  apply valid_numbers_sorted in Hvalid.
  exists (sorted ns). split; [|split].
  - rewrite Hnum. apply parse_numbers_join.
    + destruct Hvalid as (Hl & _). destruct (sorted ns);
        [discriminate | discriminate].
    + destruct Hvalid as (_ & Hr & _).
      eapply Forall_impl; [|exact Hr]. simpl. lia.
  - exact Hvalid.
  - apply sorted_ascending.
Qed.

(** C2, amended.  For every Draw Record that the normalizer produces from
    a raw item carrying at least five draw numbers, the first five of them
    distinct values of 1..39, and that is retained in the table, the
    [numbers] field has exactly five entries, each in 1..39, none twice
    (and in ascending order).  The normalizer returns the records of the
    items of the list it is given, unless an item ends its loop with an
    exception other than those it catches. *)
Theorem normalized_numbers_valid (raw_data : json) (w : world)
    (existing : list row) :
  exists outcome w',
    process_daily_cash_data raw_data w
    = (outcome, w')
    /\ outcome = match py_iter raw_data with
                 | Raise e => Raise e
                 | Ok items =>
                     match stopped_by items with
                     | Some e => Raise e
                     | None => Ok (records_of items)
                     end
                 end
    /\ forall processed,
         outcome = Ok processed ->
         (forall r, In r processed ->
            exists items item,
              py_iter raw_data = Ok items
              /\ In item items
              /\ process_item item = Ok r
              /\ (well_drawn item -> numbers_ok r))
         /\ (forall r, In r (merge existing processed) ->
               In r existing
               \/ exists items item,
                    py_iter raw_data = Ok items
                    /\ In item items
                    /\ process_item item = Ok r
                    /\ (well_drawn item -> numbers_ok r)).
Proof.
  rewrite process_daily_cash_data_spec.
  destruct (py_iter raw_data) as [items|e].
  2:{ eexists _, _. split; [reflexivity|]. split; [reflexivity|].
      discriminate. }
  eexists _, _. split; [reflexivity|]. split; [reflexivity|].
  intros processed Hout.
  destruct (stopped_by items); [discriminate|]. injection Hout as <-.
  assert (Hok : forall r, In r (records_of items) ->
            exists items0 item,
              Ok items = Ok items0
              /\ In item items0
              /\ process_item item = Ok r
              /\ (well_drawn item -> numbers_ok r)).
  { intros r Hr. apply records_of_in in Hr as (item & Hit & Hitem).
    exists items, item. split; [reflexivity|]. split; [exact Hit|].
    split; [exact Hitem|]. now apply well_drawn_numbers_ok. }
  split; [exact Hok|].
  intros r Hr. rewrite merge_unfold in Hr.
  destruct (survivors existing (records_of items)) as [|s kept] eqn:E;
    [now left|].
  rewrite <- E in Hr.
  apply sort_values_in, drop_duplicates_in, in_app_or in Hr as [Hr | Hr].
  - now left.
  - right. apply Hok. now apply survivors_in in Hr.
Qed.
End NormalizerFacts.

(** C2, as stated, fails: the normalizer takes the draw numbers as they
    come.  An item with three numbers, one of them twice and one above 39,
    yields a record that a first run retains in the table. *)
Lemma normalized_numbers_counterexample :
  exists r,
    fst (process_daily_cash_data (P := stable_pandas) (Py := sample_python)
           (JArr [short_item]) empty_world)
    = Ok [r]
    /\ (forall P : Pandas, merge [] [r] = [r])
    /\ parse_numbers (numbers r) = Ok [7; 7; 40]
    /\ ~ valid_numbers [7; 7; 40].
Proof.
  eexists. split; [vm_compute; reflexivity|].
  split.
  { intros P. rewrite merge_of_distinct_dates by distinct_dates_of_rows.
    vm_compute. reflexivity. }
  split; [vm_compute; reflexivity|].
  intros (Hlen & _). discriminate.
Qed.

Lemma normalized_numbers_valid_witness :
  well_drawn full_item
  /\ process_item (Py := sample_python) full_item = Ok january_row
  /\ numbers_ok january_row.
Proof.
  assert (Hraw : well_drawn full_item).
  { exists [JNum 39; JNum 7; JNum 21; JNum 1; JNum 12; JNum 30],
           [39; 7; 21; 1; 12].
    split; [reflexivity|].
    split; [simpl; lia|]. split; [reflexivity|]. split.
    - repeat constructor; lia.
    - repeat constructor; simpl; intuition lia. }
  split; [exact Hraw|]. split; [vm_compute; reflexivity|].
  destruct (@normalized_numbers_valid stable_pandas sample_python
              (JArr [full_item]) empty_world [])
    as (outcome & w' & _ & Hout & Hok).
  destruct (Hok [january_row]) as (Hrows & _).
  { rewrite Hout. vm_compute. reflexivity. }
  destruct (Hrows january_row) as (items & item & Hit & Hin & _ & Hnum);
    [now left|].
  simpl in Hit. injection Hit as <-. destruct Hin as [<- | []].
  exact (Hnum Hraw).
Defined.

(* ================================================================== *)
(** * The fetcher                                                      *)
(* ================================================================== *)

Lemma asked_printed (P : Pandas) (w : world) (year_month : string)
    (a b : list message) :
  printed (asked w year_month a) b = asked w year_month (a ++ b).
Proof. unfold printed, asked. simpl. now rewrite app_assoc. Qed.

Lemma printable_api_error (rtMsg : json) :
  printable (MsgApiError rtMsg) = negb (holds_surrogate rtMsg).
Proof. now destruct rtMsg. Qed.

(** Compares two outcomes of a computation, world by world. *)
Ltac same_world :=
  unfold ret, raise, lift, printed, asked;
  cbn [stdout output_dir disk written requested slept fst snd app];
  rewrite <- ?app_assoc;
  cbn [app];
  reflexivity.

Section FetcherFacts.
Context {P : Pandas} {Py : Python} {Out : Outside}.

(** The fetcher prints its progress line, sends one request and makes of
    the answer what [fetched] says. *)
Lemma crawl_daily_cash_spec (year_month : string) (page_num page_size : Z)
    (w : world) :
  crawl_daily_cash year_month page_num page_size w
  = (fst (fetched (remote year_month page_num page_size)),
     asked w year_month
       (MsgCrawling year_month page_num
          :: snd (fetched (remote year_month page_num page_size)))).
Proof.
  unfold crawl_daily_cash, try_except, io_bind.
  rewrite print_printable by reflexivity.
  unfold session_get, fetched.
  destruct (remote year_month page_num page_size) as [|status content].
  { cbn [is_RequestException fst snd]. unfold io_bind.
    rewrite print_printable by reflexivity. same_world. }
  unfold raise_for_status. cbn [fst snd].
  destruct (is_http_error status).
  { unfold raise. cbn [is_RequestException fst snd]. unfold io_bind.
    rewrite print_printable by reflexivity. same_world. }
  unfold ret at 1. unfold response_json. cbn [fst snd].
  destruct content as [data| | |].
  - unfold ret at 1. unfold lift.
    destruct data as [| | | | | |fields];
      try (cbn [json_get is_RequestException is_JSONDecodeError fst snd];
           same_world).
    cbn [json_get json_get_default].
    destruct (equals_zero (dict_find fields "rtCode")); [same_world|].
    cbv zeta. unfold io_bind.
    set (rtMsg := dict_get fields "rtMsg" (JStr "未知錯誤")).
    unfold print at 1. rewrite printable_api_error.
    destruct (holds_surrogate rtMsg); cbn [negb];
      cbn [is_RequestException is_JSONDecodeError fst snd]; same_world.
  - unfold raise.
    destruct decoder;
      cbn [decode_error is_RequestException is_JSONDecodeError fst snd];
      unfold io_bind; rewrite ?print_printable by reflexivity; same_world.
  - same_world.
  - same_world.
Qed.

(** C9, amended.  For every target year-month, the single-page request
    prints its progress line, sends one request and then:

    - on a transport failure (no response, or an HTTP error status), on a
      body that is not JSON and that requests (from 2.27 on) or the [json]
      module reports, and on an API status code other than 0 whose message
      can be printed, it prints a diagnostic and returns the empty object;
    - on success (a JSON object whose API status code is 0) it returns the
      content payload of the response, the empty object when there is
      none;
    - in every other case it raises to its caller: [AttributeError] when
      the JSON body is not an object, [ValueError] or [RecursionError] when
      the decoder raises one (an integer of too many digits, a nesting too
      deep, the decode error of simplejson under requests before 2.27),
      [UnicodeEncodeError] when the message of the API is a string that
      holds a surrogate. *)
Theorem fetch_outcomes (year_month : string) (page_num page_size : Z)
    (w : world) :
  exists outcome diagnostics,
    crawl_daily_cash year_month page_num page_size w
    = (outcome,
       asked w year_month (MsgCrawling year_month page_num :: diagnostics))
    /\ match remote year_month page_num page_size with
       | NoResponse =>
           outcome = Ok (JObj [])
           /\ diagnostics = [MsgRequestFailed RequestException]
       | Response status content =>
           if is_http_error status
           then outcome = Ok (JObj [])
                /\ diagnostics = [MsgRequestFailed HTTPError]
           else
             match content with
             | NotJson =>
                 match decoder with
                 | RequestsOwn =>
                     outcome = Ok (JObj [])
                     /\ diagnostics
                        = [MsgRequestFailed RequestsJSONDecodeError]
                 | StdlibJson =>
                     outcome = Ok (JObj [])
                     /\ diagnostics = [MsgJsonFailed JSONDecodeError]
                 | Simplejson =>
                     outcome = Raise SimplejsonDecodeError
                     /\ diagnostics = []
                 end
             | TooManyDigits =>
                 outcome = Raise ValueError /\ diagnostics = []
             | TooDeep =>
                 outcome = Raise RecursionError /\ diagnostics = []
             | Json (JObj fields) =>
                 if equals_zero (dict_find fields "rtCode")
                 then outcome = Ok (dict_get fields "content" (JObj []))
                      /\ diagnostics = []
                 else if holds_surrogate
                           (dict_get fields "rtMsg" (JStr "未知錯誤"))
                 then outcome = Raise UnicodeEncodeError
                      /\ diagnostics = []
                 else outcome = Ok (JObj [])
                      /\ diagnostics
                         = [MsgApiError
                              (dict_get fields "rtMsg" (JStr "未知錯誤"))]
             | Json _ =>
                 outcome = Raise AttributeError /\ diagnostics = []
             end
       end.
Proof.
  exists (fst (fetched (remote year_month page_num page_size))),
         (snd (fetched (remote year_month page_num page_size))).
  split; [apply crawl_daily_cash_spec|].
  unfold fetched.
  destruct (remote year_month page_num page_size) as [|status content];
    [now split|].
  destruct (is_http_error status); [now split|].
  destruct content as [data| | |]; try now split.
  - destruct data as [| | | | | |fields]; try now split.
    destruct (equals_zero (dict_find fields "rtCode")); [now split|].
    cbv zeta.
    destruct (holds_surrogate (dict_get fields "rtMsg" (JStr "未知錯誤")));
      now split.
  - destruct decoder; now split.
Qed.
End FetcherFacts.

(** C9, as stated, fails: a response whose JSON body is not an object
    makes [data.get] raise [AttributeError], which neither handler of the
    fetcher catches. *)
Lemma fetch_never_raises_counterexample :
  fst (crawl_daily_cash (P := stable_pandas) (Py := sample_python)
         (Out := array_outside) "2024-01" 1 50 empty_world)
  = Raise AttributeError.
Proof. vm_compute. reflexivity. Qed.

(** Neither the message that holds a surrogate nor the nesting too deep
    is caught by the fetcher: [print] raises on the first, the decoder on
    the second. *)
Remark fetch_raises_on_surrogate_and_on_depth :
  fst (crawl_daily_cash (P := stable_pandas) (Py := sample_python)
         (Out := surrogate_outside) "2024-01" 1 50 empty_world)
  = Raise UnicodeEncodeError
  /\ fst (crawl_daily_cash (P := stable_pandas) (Py := sample_python)
            (Out := deep_outside) "2024-01" 1 50 empty_world)
     = Raise RecursionError.
Proof. split; vm_compute; reflexivity. Qed.

(* ================================================================== *)
(** * The fetch-and-merge run                                          *)
(* ================================================================== *)

Create HintDb io_frame.

Section CrawlerFacts.
Context {P : Pandas} {Py : Python} {Out : Outside}.

Lemma keeps_ret (A : Type) (a : A) : keeps_disk (ret a).
Proof. intros w. now split. Qed.

Lemma keeps_raise (A : Type) (e : exn) : keeps_disk (@raise P A e).
Proof. intros w. now split. Qed.

Lemma keeps_lift (A : Type) (r : result A) : keeps_disk (lift r).
Proof. intros w. now split. Qed.

Lemma keeps_print (m : message) : keeps_disk (print m).
Proof. intros w. unfold print. destruct (printable m); now split. Qed.

Lemma keeps_sleep (s : Z) : keeps_disk (sleep s).
Proof. intros w. now split. Qed.

Lemma keeps_makedirs : keeps_disk makedirs.
Proof. intros w. now split. Qed.

Lemma keeps_path_exists : keeps_disk path_exists.
Proof. intros w. now split. Qed.

Lemma keeps_session_get (ym : string) (pn ps : Z) :
  keeps_disk (session_get ym pn ps).
Proof. intros w. unfold session_get. destruct (remote ym pn ps); now split. Qed.

Lemma keeps_bind (A B : Type) (m : io A) (k : A -> io B) :
  keeps_disk m -> (forall a, keeps_disk (k a)) -> keeps_disk (io_bind m k).
Proof.
  intros Hm Hk w. unfold io_bind.
  destruct (Hm w) as [Hd Hw]. destruct (m w) as [[a|e] w1]; simpl in *.
  - destruct (Hk a w1) as [Hd' Hw']. split; congruence.
  - now split.
Qed.

Lemma keeps_try (A : Type) (m : io A) (handlers : exn -> option (io A)) :
  keeps_disk m ->
  (forall e handler, handlers e = Some handler -> keeps_disk handler) ->
  keeps_disk (try_except m handlers).
Proof.
  intros Hm Hh w. unfold try_except.
  destruct (Hm w) as [Hd Hw]. destruct (m w) as [[a|e] w1]; simpl in *.
  - now split.
  - destruct (handlers e) as [handler|] eqn:E; simpl; [|now split].
    destruct (Hh e handler E w1) as [Hd' Hw']. split; congruence.
Qed.

Hint Resolve keeps_ret keeps_raise keeps_lift keeps_print keeps_sleep
  keeps_makedirs keeps_path_exists keeps_session_get : io_frame.

(** Names the body of the [except] clause that handles an exception. *)
Ltac handler_cases :=
  let e := fresh "e" in
  let h := fresh "h" in
  let E := fresh "E" in
  intros e h E; cbv beta in E;
  repeat match type of E with
         | (if ?b then _ else _) = _ => destruct b
         end;
  first [discriminate E | injection E as <-].

(** Splits a computation along its binds, handlers and branches. *)
Ltac frame :=
  repeat first
    [ apply keeps_bind; [|intros ?]
    | apply keeps_try; [|handler_cases]
    | match goal with
      | |- keeps_disk (if ?b then _ else _) => destruct b
      | |- keeps_disk (match ?x with _ => _ end) => destruct x
      end
    | solve [auto with io_frame] ].

Lemma keeps_crawl_daily_cash (ym : string) (pn ps : Z) :
  keeps_disk (crawl_daily_cash ym pn ps).
Proof.
  unfold crawl_daily_cash, raise_for_status, response_json. frame.
Qed.

Lemma keeps_process_loop (raw_data : list json) (acc : list row) :
  keeps_disk (process_loop raw_data acc).
Proof.
  revert acc. induction raw_data as [|item rest IH]; intros acc; simpl.
  - frame.
  - apply keeps_bind; [frame | intros rs; apply IH].
Qed.

Lemma keeps_get_existing_data_df : keeps_disk get_existing_data_df.
Proof.
  unfold get_existing_data_df.
  apply keeps_bind; [frame | intros [|]; [|frame]].
  apply keeps_try; [|handler_cases; frame].
  intros w. destruct (disk w) eqn:E; simpl; rewrite ?E; now split.
Qed.

Lemma keeps_month_results (ym : string) : keeps_disk (month_results ym).
Proof.
  unfold month_results, process_daily_cash_data.
  apply keeps_bind; [apply keeps_crawl_daily_cash | intros raw_content].
  apply keeps_bind; [frame | intros has].
  destruct has; [|frame].
  apply keeps_bind; [frame | intros raw_data].
  apply keeps_bind; [|frame].
  apply keeps_bind; [frame | intros items].
  apply keeps_process_loop.
Qed.

Lemma keeps_crawl_month (latest : option datetime) (iter : datetime)
    (acc : list row * Z) :
  keeps_disk (crawl_month latest iter acc).
Proof.
  unfold crawl_month.
  apply keeps_try; [|handler_cases; frame].
  apply keeps_bind; [apply keeps_month_results | intros results].
  frame.
Qed.

Lemma keeps_crawl_months (latest : option datetime) (fuel : nat) :
  forall (iter : datetime) (acc : list row * Z) (w w' : world) r,
    crawl_months fuel latest iter acc w = Some (r, w') ->
    disk w' = disk w /\ written w' = written w.
Proof.
  induction fuel as [|fuel IH]; intros iter acc w w' r; simpl.
  - destruct (date_leb iter now); [discriminate|].
    intros [= _ <-]. now split.
  - destruct (date_leb iter now).
    + destruct (keeps_crawl_month latest iter acc w) as [Hd Hw].
      destruct (crawl_month latest iter acc w) as [[acc'|e] w1]; simpl in *.
      * intros H. apply IH in H as [Hd' Hw']. split; congruence.
      * intros [= _ <-]. now split.
    + intros [= _ <-]. now split.
Qed.

Lemma keeps_start_of_crawl (start_year start_month : Z) :
  keeps_disk (start_of_crawl start_year start_month).
Proof.
  unfold start_of_crawl.
  apply keeps_bind; [frame | intros _].
  apply keeps_bind; [apply keeps_get_existing_data_df | intros existing_df].
  frame.
Qed.

(** Gathering the new records never touches the persisted file. *)
Lemma keeps_gather_new_records (start_year start_month : Z)
    (w0 w2 : world) r :
  gather_new_records start_year start_month w0 = Some (r, w2) ->
  disk w2 = disk w0 /\ written w2 = written w0.
Proof.
  unfold gather_new_records.
  destruct (keeps_start_of_crawl start_year start_month w0) as [Hd Hw].
  destruct (start_of_crawl start_year start_month w0)
    as [[[[existing_df latest] start]|e] w1]; simpl in *.
  - destruct (crawl_months _ latest start ([], 0) w1) as [[r1 w1']|] eqn:E;
      [|discriminate].
    apply keeps_crawl_months in E as [Hd' Hw'].
    destruct r1 as [[recs n]|e]; intros [= _ <-]; split; congruence.
  - intros [= _ <-]. now split.
Qed.

(** C8. If the run finds no new record and the loaded table is not empty,
    the persisted file is left as it was: its content is unchanged, nothing
    is written, and the only thing the run does after gathering is to
    print the "already up to date" message. *)
Theorem no_new_records_no_write (start_year start_month : Z)
    (w0 w2 : world) (existing_df : DataFrame row) (new_count : Z) :
  gather_new_records start_year start_month w0
  = Some (Ok (existing_df, [], new_count), w2) ->
  df_empty existing_df = false ->
  exists w',
    crawl_and_save_daily_cash start_year start_month w0 = Some (Ok tt, w')
    /\ disk w' = disk w0
    /\ written w' = written w0
    /\ stdout w' = stdout w2 ++ [MsgUpToDate (df_len existing_df)].
Proof.
  intros Hg Hne. unfold crawl_and_save_daily_cash. rewrite Hg.
  apply keeps_gather_new_records in Hg as [Hd Hw].
  unfold save_or_report. simpl. rewrite Hne. simpl.
  eexists. split; [reflexivity|]. simpl. auto.
Qed.
End CrawlerFacts.

(** ** What a run gathers *)

Lemma next_month_index (d : datetime) :
  month_index (next_month d) = month_index d + 1
  /\ day (next_month d) = day d.
Proof.
  unfold next_month, replace_year_month, replace_month, datetime_of,
    year, month.
  pose proof (Z.div_mod (month_index d) 12 ltac:(lia)) as Hdm.
  pose proof (Z.mod_pos_bound (month_index d) 12 ltac:(lia)) as Hb.
  destruct (month_index d mod 12 + 1 =? 12) eqn:E; simpl.
  - apply Z.eqb_eq in E. split; [lia | reflexivity].
  - split; [lia | reflexivity].
Qed.

Lemma collect_new_app (latest : option datetime) (l1 l2 : list row)
    (acc : list row * Z) :
  collect_new latest (l1 ++ l2) acc
  = collect_new latest l2 (collect_new latest l1 acc).
Proof.
  rewrite !collect_new_filter. simpl.
  rewrite filter_app, length_app, app_assoc. f_equal. lia.
Qed.

Lemma get_latest_rows (existing_df : DataFrame row) :
  get_latest_ad_date existing_df = latest_date (rows_of existing_df).
Proof.
  destruct existing_df as [|rows]; [reflexivity|].
  reflexivity.
Qed.

Lemma month_sequence_step (start : datetime) (n : nat) :
  month_sequence start (S n)
  = year_month_of start :: month_sequence (next_month start) n.
Proof.
  unfold month_sequence. simpl. f_equal.
  - unfold year_month_of, year, month, month_after. simpl.
    now rewrite Z.add_0_r.
  - rewrite <- seq_shift, map_map. apply map_ext. intros i.
    unfold month_after. destruct (next_month_index start) as [-> _].
    do 2 f_equal. lia.
Qed.

Lemma characters_nil (s : string) : characters s = [] -> s = "".
Proof.
  destruct s as [|c s]; [reflexivity|]. simpl.
  destruct (characters s) as [|[|c' ch] more]; try discriminate.
  destruct (is_continuation c'); discriminate.
Qed.

(** What the fetcher returns when the answer has a payload, and when it
    has none. *)
Lemma fetched_payload (Py : Python) (answer : http_outcome) :
  match payload answer with
  | Some content => fst (fetched answer) = Ok content
  | None =>
      fst (fetched answer) = Ok (JObj [])
      \/ exists e, fst (fetched answer) = Raise e
  end.
Proof.
  unfold payload, fetched.
  destruct answer as [|status content]; [now left|].
  destruct (is_http_error status); cbn [negb andb].
  { destruct content as [[| | | | | |fields]| | |]; now left. }
  destruct content as [data| | |]; try (right; eexists; reflexivity).
  - destruct data as [| | | | | |fields]; try (right; eexists; reflexivity).
    destruct (equals_zero (dict_find fields "rtCode")); [reflexivity|].
    cbv zeta.
    destruct (holds_surrogate (dict_get fields "rtMsg" (JStr "未知錯誤")));
      [right; eexists; reflexivity | now left].
  - destruct decoder; try (now left). right. eexists. reflexivity.
Qed.

Section RunFacts.
Context {P : Pandas} {Py : Python} {Out : Outside}.

(** A string is no item: the loop ends on it. *)
Lemma stops_on_strings (strings : list string) :
  stopped_by (map JStr strings)
  = match strings with
    | [] => None
    | _ :: _ => Some TypeError
    end.
Proof. destruct strings; reflexivity. Qed.

(** The normalizer prints diagnostics and nothing else; what it returns
    is [normalized], and it raises only where [normalized] has no
    record. *)
Lemma process_daily_cash_data_normalized (raw_data : json) (w : world) :
  exists r diagnostics,
    process_daily_cash_data raw_data w = (r, printed w diagnostics)
    /\ match r with
       | Ok processed_list => processed_list = normalized raw_data
       | Raise _ => normalized raw_data = []
       end.
Proof.
  rewrite process_daily_cash_data_spec. unfold normalized.
  destruct raw_data as [| | | |s|items|fields]; cbn [py_iter];
    try (exists (Raise TypeError), []; split;
         [now rewrite printed_nil | reflexivity]).
  - rewrite stops_on_strings.
    destruct (characters s) as [|c cs]; eexists _, _; split;
      try reflexivity.
  - destruct (stopped_by items); eexists _, _; split; reflexivity.
  - rewrite <- map_map with (f := fst) (g := JStr).
    rewrite stops_on_strings.
    destruct (map fst fields) as [|k ks]; eexists _, _; split;
      try reflexivity.
Qed.

(** The first part of a pass of the month loop: one request, no sleep,
    and the records of the month when it yields a list. *)
Lemma month_results_spec (year_month : string) (w : world) :
  exists r w',
    month_results year_month w = (r, w')
    /\ requested w' = requested w ++ [year_month]
    /\ slept w' = slept w
    /\ match r with
       | Ok (Some processed_list) =>
           processed_list = month_batch (remote year_month 1 50)
       | _ => month_batch (remote year_month 1 50) = []
       end.
Proof.
  unfold month_results, io_bind. rewrite crawl_daily_cash_spec.
  unfold month_batch.
  pose proof (fetched_payload Py (remote year_month 1 50)) as Hf.
  set (w1 := asked w year_month _).
  assert (Hw1 : requested w1 = requested w ++ [year_month]
                /\ slept w1 = slept w) by now split.
  clearbody w1.
  destruct (payload (remote year_month 1 50)) as [content|].
  2:{ destruct Hf as [-> | [e ->]]; cbn [truthy];
        eexists _, _; (split; [reflexivity|]); tauto. }
  rewrite Hf. clear Hf. unfold result_list.
  destruct content as [|b|n|repr|s|items|fields]; cbn [truthy].
  - eexists _, _. split; [reflexivity|]. tauto.
  - destruct b; eexists _, _; (split; [reflexivity|]); tauto.
  - destruct (negb (n =? 0)); eexists _, _; (split; [reflexivity|]); tauto.
  - destruct (negb (float_is_zero repr)); eexists _, _;
      (split; [reflexivity|]); tauto.
  - destruct (negb (String.eqb s "")); [|eexists _, _;
      (split; [reflexivity|]); tauto].
    unfold lift. cbn [json_contains].
    destruct (index 0 "daily539Res" s);
      eexists _, _; (split; [reflexivity|]); tauto.
  - destruct items as [|i items]; [eexists _, _;
      (split; [reflexivity|]); tauto|].
    unfold lift. cbn [json_contains].
    destruct (existsb (is_json_str "daily539Res") (i :: items));
      eexists _, _; (split; [reflexivity|]); tauto.
  - destruct fields as [|f fields].
    { eexists _, _. split; [reflexivity|]. cbn [dict_find]. tauto. }
    unfold lift. cbn [json_contains json_item]. unfold dict_mem, dict_item.
    destruct (dict_find (f :: fields) "daily539Res") as [raw_data|];
      cbn [subscript].
    2:{ eexists _, _. split; [reflexivity|]. tauto. }
    destruct (process_daily_cash_data_normalized raw_data w1)
      as (r & diagnostics & -> & Hr).
    destruct r as [processed_list|e]; eexists _, _;
      (split; [reflexivity|]); cbn [requested slept printed]; tauto.
Qed.

(** One pass of the month loop never raises: it sends one request, sleeps
    for a second at most, and adds the new records of the month to those
    gathered. *)
Lemma crawl_month_spec (latest : option datetime) (iter : datetime)
    (acc : list row * Z) (w : world) :
  exists w',
    crawl_month latest iter acc w
    = (Ok (collect_new latest
             (month_batch (remote (year_month_of iter) 1 50)) acc), w')
    /\ requested w' = requested w ++ [year_month_of iter]
    /\ slept w <= slept w' <= slept w + 1.
Proof.
  unfold crawl_month, try_except, io_bind.
  destruct (month_results_spec (year_month_of iter) w)
    as (r & w1 & -> & Hreq & Hslept & Hbatch).
  destruct r as [[processed_list|]|e].
  - subst processed_list.
    destruct (non_empty (month_batch (remote (year_month_of iter) 1 50)));
      rewrite ?print_printable by reflexivity;
      eexists; (split; [reflexivity|]);
      cbn [requested slept printed sleep snd]; split; (congruence || lia).
  - rewrite Hbatch. eexists. split; [reflexivity|].
    cbn [requested slept sleep snd]. split; (congruence || lia).
  - rewrite Hbatch. cbn [fst snd]. unfold io_bind.
    rewrite print_printable by reflexivity.
    eexists. split; [reflexivity|].
    cbn [requested slept printed]. split; (congruence || lia).
Qed.

Lemma months_left_step (iter : datetime) :
  date_leb iter now = true ->
  months_left now iter = S (months_left now (next_month iter)).
Proof.
  intros H. apply date_leb_spec in H. unfold months_left.
  destruct (next_month_index iter) as [-> ->].
  destruct (Z.leb_spec (day iter) (day now)); lia.
Qed.

Lemma months_left_none (iter : datetime) :
  date_leb iter now = false -> months_left now iter = 0%nat.
Proof.
  intros H. apply date_leb_false in H. unfold months_left.
  destruct (Z.leb_spec (day iter) (day now)); lia.
Qed.

Lemma gathered_step (iter : datetime) :
  date_leb iter now = true ->
  gathered iter
  = month_batch (remote (year_month_of iter) 1 50)
      ++ gathered (next_month iter).
Proof.
  intros H. unfold gathered.
  now rewrite (months_left_step _ H), month_sequence_step.
Qed.

Lemma gathered_none (iter : datetime) :
  date_leb iter now = false -> gathered iter = [].
Proof. intros H. unfold gathered. now rewrite (months_left_none _ H). Qed.

(** The month loop comes to its end within the fuel it is given and
    never raises; it asks for every month left, in order, and gathers the
    new records of the batch. *)
Lemma crawl_months_spec (latest : option datetime) (fuel : nat) :
  forall (iter : datetime) (acc : list row * Z) (w : world),
    month_index now - month_index iter + 1 <= Z.of_nat fuel ->
    exists w',
      crawl_months fuel latest iter acc w
      = Some (Ok (collect_new latest (gathered iter) acc), w')
      /\ requested w'
         = requested w ++ month_sequence iter (months_left now iter)
      /\ slept w <= slept w'
         <= slept w + Z.of_nat (months_left now iter)
      /\ disk w' = disk w
      /\ written w' = written w.
Proof.
  induction fuel as [|fuel IH]; intros iter acc w Hfuel; simpl.
  - destruct (date_leb iter now) eqn:E.
    + apply date_leb_spec in E. lia.
    + exists w. rewrite (gathered_none _ E), (months_left_none _ E).
      unfold month_sequence. simpl. rewrite app_nil_r.
      repeat split; lia.
  - destruct (date_leb iter now) eqn:E.
    + destruct (crawl_month_spec latest iter acc w) as (w1 & Hm & Hr & Hs).
      destruct (keeps_crawl_month latest iter acc w) as [Hd Hw].
      rewrite Hm in *. cbn [snd] in Hd, Hw.
      destruct (next_month_index iter) as [Hidx _].
      destruct (IH (next_month iter)
                  (collect_new latest
                     (month_batch (remote (year_month_of iter) 1 50)) acc)
                  w1)
        as (w' & -> & Hr' & Hs' & Hd' & Hw'); [lia|].
      exists w'. rewrite (gathered_step _ E), collect_new_app.
      split; [reflexivity|].
      rewrite (months_left_step _ E), month_sequence_step.
      rewrite Hr', Hr, <- app_assoc.
      repeat split; (congruence || lia).
    + exists w. rewrite (gathered_none _ E), (months_left_none _ E).
      unfold month_sequence. simpl. rewrite app_nil_r.
      repeat split; lia.
Qed.

(** ** Loading the existing table *)

Lemma get_existing_data_df_spec (w : world) :
  get_existing_data_df w
  = (Ok (loaded_table w), printed w (read_diagnostics w)).
Proof.
  unfold get_existing_data_df, loaded_table, read_diagnostics, io_bind,
    path_exists, try_except.
  destruct (disk w) as [content|] eqn:E; cbn [fst snd].
  - rewrite E. destruct (read_csv content) as [rows|e]; cbn [bind fst snd].
    + now rewrite printed_nil.
    + unfold io_bind. now rewrite print_printable by reflexivity.
  - unfold ret. now rewrite printed_nil.
Qed.

(** The world once the directory is there and the table is loaded. *)
Lemma start_of_crawl_spec (start_year start_month : Z) (w0 : world) :
  exists w1,
    start_of_crawl start_year start_month w0
    = (match get_latest_ad_date (loaded_table w0) with
       | Some latest =>
           Ok (loaded_table w0, Some latest, replace_day latest 1)
       | None =>
           if valid_start start_year start_month
           then Ok (loaded_table w0, None,
                    datetime_of start_year start_month 1)
           else Raise ValueError
       end, w1)
    /\ requested w1 = requested w0
    /\ slept w1 = slept w0
    /\ disk w1 = disk w0
    /\ written w1 = written w0.
Proof.
  unfold start_of_crawl, io_bind.
  unfold makedirs at 1.
  rewrite get_existing_data_df_spec.
  match goal with
  | |- context [loaded_table ?w] =>
      change (loaded_table w) with (loaded_table w0)
  end.
  destruct (get_latest_ad_date (loaded_table w0)) as [latest|].
  - rewrite !print_printable by reflexivity. unfold ret.
    eexists. split; [reflexivity|].
    cbn [requested slept disk written printed]. repeat split.
  - unfold lift, new_datetime, valid_start.
    destruct ((1 <=? start_year) && (start_year <=? 9999)
              && (1 <=? start_month) && (start_month <=? 12)).
    + rewrite ?print_printable by reflexivity. unfold ret.
      eexists. split; [reflexivity|].
      cbn [requested slept disk written printed]. repeat split.
    + eexists. split; [reflexivity|].
      cbn [requested slept disk written printed]. repeat split.
Qed.

Lemma crawl_start_first_day (table : DataFrame row) (sy sm : Z) :
  day (crawl_start table sy sm) = 1.
Proof. unfold crawl_start. now destruct (get_latest_ad_date table). Qed.

(** Gathering comes to its end.  It raises only when nothing is loaded
    and the start month given is not a month, before any request;
    otherwise it yields the loaded table with the records of the batch
    that pass the date filter and their number, having asked for every
    month, and the file is as it was. *)
Lemma gather_new_records_spec (start_year start_month : Z) (w0 : world) :
  let table := loaded_table w0 in
  let start := crawl_start table start_year start_month in
  let kept := survivors (rows_of table) (gathered start) in
  exists w2,
    gather_new_records start_year start_month w0
    = Some (if negb (df_empty table) || valid_start start_year start_month
            then Ok (table, kept, Z.of_nat (List.length kept))
            else Raise ValueError, w2)
    /\ requested w2
       = requested w0
         ++ (if negb (df_empty table) || valid_start start_year start_month
             then month_sequence start (months_left now start)
             else [])
    /\ slept w0 <= slept w2
       <= slept w0
          + (if negb (df_empty table) || valid_start start_year start_month
             then Z.of_nat (months_left now start)
             else 0)
    /\ disk w2 = disk w0
    /\ written w2 = written w0.
Proof.
  intros table start kept. unfold gather_new_records.
  destruct (start_of_crawl_spec start_year start_month w0)
    as (w1 & -> & Hr1 & Hs1 & Hd1 & Hw1).
  fold table.
  assert (Hrun : forall latest,
            get_latest_ad_date table = latest ->
            exists w2,
              crawl_months (months_to_crawl start) latest start ([], 0) w1
              = Some (Ok (kept, Z.of_nat (List.length kept)), w2)
              /\ requested w2
                 = requested w0 ++ month_sequence start (months_left now start)
              /\ slept w0 <= slept w2
                 <= slept w0 + Z.of_nat (months_left now start)
              /\ disk w2 = disk w0
              /\ written w2 = written w0).
  { intros latest Hl.
    destruct (crawl_months_spec latest (months_to_crawl start) start
                ([], 0) w1) as (w2 & -> & Hr2 & Hs2 & Hd2 & Hw2);
      [unfold months_to_crawl; lia|].
    exists w2. rewrite collect_new_filter. cbn [fst snd app].
    unfold kept, survivors. rewrite <- get_latest_rows, Hl.
    split; [do 3 f_equal; lia|].
    repeat split; (congruence || lia). }
  unfold start, crawl_start in *. unfold df_empty.
  rewrite (get_latest_rows table) in *.
  destruct (rows_of table) as [|r rows] eqn:Erows.
  - rewrite latest_date_nil in *. cbn [negb orb].
    destruct (valid_start start_year start_month).
    + destruct (Hrun None eq_refl) as (w2 & -> & H).
      exists w2. split; [reflexivity | exact H].
    + exists w1. split; [reflexivity|]. rewrite app_nil_r.
      repeat split; (congruence || lia).
  - destruct (merged_nonempty_latest (r :: rows) r) as (latest & Hl);
      [now left|].
    rewrite Hl in *. cbn [negb orb].
    destruct (Hrun (Some latest) eq_refl) as (w2 & -> & H).
    exists w2. split; [reflexivity | exact H].
Qed.
End RunFacts.

(** ** The save phase and the run *)

Lemma forallb_perm (A : Type) (f : A -> bool) (l l' : list A) :
  Permutation l l' -> forallb f l = forallb f l'.
Proof.
  induction 1 as [|x l l' _ IH|x y l|l l' l'' _ IH1 _ IH2]; simpl.
  - reflexivity.
  - now rewrite IH.
  - destruct (f x), (f y); reflexivity.
  - congruence.
Qed.

Lemma saved_nothing_printed (P : Pandas) (w : world) (content : csv) :
  {| stdout := stdout w; output_dir := output_dir w;
     disk := Some content; written := written w ++ [content];
     requested := requested w; slept := slept w |}
  = saved w content [].
Proof. unfold saved. now rewrite app_nil_r. Qed.

Section SaveFacts.
Context {P : Pandas} {Py : Python} {Out : Outside}.

(** The dates that [pd.to_datetime] takes, and the texts that [to_csv]
    encodes, are those of the table whatever the order of its rows. *)
Lemma in_range_sorted (rows : list row) :
  forallb (fun r => in_timestamp_range (ad_date r)) (sort_values rows)
  = forallb (fun r => in_timestamp_range (ad_date r)) rows.
Proof. apply forallb_perm, sort_values_perm. Qed.

(** What is done with the records gathered: nothing but a message when
    there is none; otherwise the combined table is written, unless one of
    its dates is refused, and then nothing is written, or one of its texts
    cannot be encoded, and then the write fails after the file was
    opened. *)
Lemma save_or_report_spec (existing_df : DataFrame row)
    (all_new_records : list row) (new_count : Z) (w : world) :
  save_or_report existing_df all_new_records new_count w
  = match all_new_records with
    | [] =>
        (Ok tt,
         printed w [if negb (df_empty existing_df)
                    then MsgUpToDate (df_len existing_df)
                    else MsgNoData])
    | _ :: _ =>
        let table := combine existing_df all_new_records in
        if forallb (fun r => in_timestamp_range (ad_date r)) table
        then
          if forallb row_encodable table
          then (Ok tt,
                saved w (to_csv table)
                  [MsgUpdateDone;
                   MsgUpdateCounts new_count
                     (Z.of_nat (List.length table));
                   MsgSaved])
          else (Raise UnicodeEncodeError, saved w (torn_csv table) [])
        else (Raise OutOfBoundsDatetime, w)
    end.
Proof.
  unfold save_or_report.
  destruct all_new_records as [|r recs]; cbn [non_empty].
  - destruct (negb (df_empty existing_df));
      now rewrite print_printable by reflexivity.
  - cbv zeta. unfold combine. rewrite in_range_sorted.
    set (combined := drop_duplicates
                       (concat_frames existing_df (r :: recs))).
    unfold io_bind, lift, to_datetime.
    destruct (forallb (fun r0 => in_timestamp_range (ad_date r0)) combined);
      [|reflexivity].
    unfold write_csv.
    destruct (forallb row_encodable (sort_values combined)).
    + rewrite !print_printable by reflexivity.
      unfold saved, printed. cbn [stdout output_dir disk written requested
                                   slept].
      rewrite <- !app_assoc. reflexivity.
    + now rewrite saved_nothing_printed.
Qed.

Lemma combine_merge (existing_df : DataFrame row) (incoming : list row) :
  survivors (rows_of existing_df) incoming <> [] ->
  combine existing_df (survivors (rows_of existing_df) incoming)
  = merge (rows_of existing_df) incoming.
Proof.
  intros H. rewrite merge_unfold. unfold combine, concat_frames.
  destruct (survivors (rows_of existing_df) incoming); [congruence|].
  reflexivity.
Qed.

(** The run, from its first line to its last. *)
Lemma run_spec (start_year start_month : Z) (w0 : world) :
  let table := loaded_table w0 in
  let start := crawl_start table start_year start_month in
  let kept := survivors (rows_of table) (gathered start) in
  exists w2,
    requested w2
    = requested w0
      ++ (if negb (df_empty table) || valid_start start_year start_month
          then month_sequence start (months_left now start)
          else [])
    /\ slept w0 <= slept w2
       <= slept w0
          + (if negb (df_empty table) || valid_start start_year start_month
             then Z.of_nat (months_left now start)
             else 0)
    /\ disk w2 = disk w0
    /\ written w2 = written w0
    /\ crawl_and_save_daily_cash start_year start_month w0
       = Some (if negb (df_empty table)
                  || valid_start start_year start_month
               then save_or_report table kept
                      (Z.of_nat (List.length kept)) w2
               else (Raise ValueError, w2)).
Proof.
  intros table start kept.
  destruct (gather_new_records_spec start_year start_month w0)
    as (w2 & Hg & Hr & Hs & Hd & Hw).
  fold table start kept in Hg, Hr, Hs.
  exists w2. split; [exact Hr|]. split; [exact Hs|].
  split; [exact Hd|]. split; [exact Hw|].
  unfold crawl_and_save_daily_cash. rewrite Hg.
  now destruct (negb (df_empty table) || valid_start start_year start_month).
Qed.
(** The run by cases: what it returns or raises, and the world it
    leaves, [w2] being the world at the end of the month loop. *)
Lemma run_cases (start_year start_month : Z) (w0 : world) :
  let table := loaded_table w0 in
  let start := crawl_start table start_year start_month in
  let kept := date_filtered (rows_of table) (gathered start) in
  let merged := merge (rows_of table) (gathered start) in
  exists w2,
    requested w2
    = requested w0
      ++ (if negb (df_empty table) || valid_start start_year start_month
          then month_sequence start (months_left now start)
          else [])
    /\ slept w0 <= slept w2
       <= slept w0
          + (if negb (df_empty table) || valid_start start_year start_month
             then Z.of_nat (months_left now start)
             else 0)
    /\ disk w2 = disk w0
    /\ written w2 = written w0
    /\ crawl_and_save_daily_cash start_year start_month w0
       = Some
           (if negb (df_empty table) || valid_start start_year start_month
            then
              match kept with
              | [] =>
                  (Ok tt,
                   printed w2 [if negb (df_empty table)
                               then MsgUpToDate (df_len table)
                               else MsgNoData])
              | _ :: _ =>
                  if forallb (fun r => in_timestamp_range (ad_date r)) merged
                  then
                    if forallb row_encodable merged
                    then (Ok tt,
                          saved w2 (to_csv merged)
                            [MsgUpdateDone;
                             MsgUpdateCounts (Z.of_nat (List.length kept))
                               (Z.of_nat (List.length merged));
                             MsgSaved])
                    else (Raise UnicodeEncodeError,
                          saved w2 (torn_csv merged) [])
                  else (Raise OutOfBoundsDatetime, w2)
              end
            else (Raise ValueError, w2)).
Proof.
  intros table start kept merged.
  destruct (run_spec start_year start_month w0)
    as (w2 & Hr & Hs & Hd & Hw & Hrun).
  fold table start in Hr, Hs, Hrun.
  exists w2. split; [exact Hr|]. split; [exact Hs|].
  split; [exact Hd|]. split; [exact Hw|].
  rewrite Hrun. f_equal.
  destruct (negb (df_empty table) || valid_start start_year start_month);
    [|reflexivity].
  rewrite save_or_report_spec. unfold kept, merged.
  rewrite <- survivors_date_filtered.
  destruct (survivors (rows_of table) (gathered start)) as [|r recs] eqn:E;
    [reflexivity|].
  rewrite <- E. cbv zeta. rewrite combine_merge by (rewrite E; discriminate).
  reflexivity.
Qed.
End SaveFacts.

Lemma no_new_records_no_write_witness :
  (exists w2,
     gather_new_records (P := stable_pandas) (Py := sample_python)
       (Out := january_outside) 2014 1 january_world
     = Some (Ok (Frame [january_row], [], 0), w2))
  /\ df_empty (Frame [january_row]) = false
  /\ exists w',
       crawl_and_save_daily_cash (P := stable_pandas) (Py := sample_python)
         (Out := january_outside) 2014 1 january_world
       = Some (Ok tt, w')
       /\ disk w' = Some [january_row]
       /\ written w' = [].
Proof.
  assert (Hg : exists w2,
             gather_new_records (P := stable_pandas) (Py := sample_python)
               (Out := january_outside) 2014 1 january_world
             = Some (Ok (Frame [january_row], [], 0), w2))
    by (eexists; lazy; reflexivity).
  split; [exact Hg|]. split; [reflexivity|].
  destruct Hg as (w2 & Hg).
  destruct (@no_new_records_no_write stable_pandas sample_python
              january_outside 2014 1 january_world w2 (Frame [january_row])
              0 Hg eq_refl)
    as (w' & Hrun & Hd & Hw & _).
  exists w'. auto.
Defined.

(* ================================================================== *)
(** * Facts about dictionaries                                         *)
(* ================================================================== *)

Section DictFacts.
Context {K V : Type} `{PyKey K}.

Lemma key_eqb_eq (a b : K) : key_eqb a b = true <-> a = b.
Proof. destruct (key_eqb_spec a b); split; congruence. Qed.

Lemma key_eqb_refl (a : K) : key_eqb a a = true.
Proof. now apply key_eqb_eq. Qed.

Lemma key_eqb_neq (a b : K) : key_eqb a b = false <-> a <> b.
Proof. destruct (key_eqb_spec a b); split; congruence. Qed.

Lemma dict_find_set (d : dict K V) (k k' : K) (v : V) :
  dict_find (dict_set d k v) k'
  = if key_eqb k' k then Some v else dict_find d k'.
Proof.
  induction d as [|[k0 v0] d IH]; simpl.
  - reflexivity.
  - destruct (key_eqb_spec k k0) as [<- | Hne]; simpl.
    + destruct (key_eqb k' k); reflexivity.
    + rewrite IH. destruct (key_eqb_spec k' k0) as [-> | Hne'].
      * assert (key_eqb k0 k = false) as -> by (apply key_eqb_neq; congruence).
        reflexivity.
      * reflexivity.
Qed.

Lemma dict_get_set (d : dict K V) (k k' : K) (v default : V) :
  dict_get (dict_set d k v) k' default
  = if key_eqb k' k then v else dict_get d k' default.
Proof.
  unfold dict_get. rewrite dict_find_set. now destruct (key_eqb k' k).
Qed.

Lemma dict_find_none (d : dict K V) (k : K) :
  dict_find d k = None <-> ~ In k (dict_keys d).
Proof.
  induction d as [|[k0 v0] d IH]; simpl.
  - tauto.
  - destruct (key_eqb_spec k k0) as [-> | Hne].
    + split; [discriminate | tauto].
    + rewrite IH. split; [|tauto]. intros Hn [Heq | Hin]; congruence.
Qed.

Lemma dict_keys_set (d : dict K V) (k : K) (v : V) :
  dict_keys (dict_set d k v)
  = if dict_mem d k then dict_keys d else dict_keys d ++ [k].
Proof.
  unfold dict_mem. induction d as [|[k0 v0] d IH]; simpl.
  - reflexivity.
  - destruct (key_eqb k k0); simpl; [reflexivity|].
    rewrite IH. now destruct (dict_find d k).
Qed.

Lemma dict_set_nodup (d : dict K V) (k : K) (v : V) :
  NoDup (dict_keys d) -> NoDup (dict_keys (dict_set d k v)).
Proof.
  intros Hnd. rewrite dict_keys_set. unfold dict_mem.
  destruct (dict_find d k) eqn:E; [exact Hnd|].
  apply dict_find_none in E.
  apply NoDup_app; [exact Hnd | repeat constructor; intros [] |].
  intros x Hx [<- | []]. contradiction.
Qed.

(** Lookup does not depend on the order of the entries. *)
Lemma dict_find_perm (d d' : dict K V) (k : K) :
  Permutation d d' -> NoDup (dict_keys d) -> dict_find d k = dict_find d' k.
Proof.
  unfold dict_keys.
  induction 1
    as [|[k0 v0] d d' Hp IH|[k0 v0] [k1 v1] d|d d' d'' Hp1 IH1 Hp2 IH2];
    intros Hnd; simpl.
  - reflexivity.
  - inversion Hnd; subst. destruct (key_eqb k k0); auto.
  - simpl in Hnd. inversion Hnd as [|? ? Hk1 Hnd']; subst.
    destruct (key_eqb_spec k k1) as [E1 | H1];
      destruct (key_eqb_spec k k0) as [E0 | H0]; try reflexivity.
    exfalso. apply Hk1. left. congruence.
  - rewrite IH1 by exact Hnd. apply IH2.
    eapply Permutation_NoDup; [|exact Hnd]. now apply Permutation_map.
Qed.
End DictFacts.

(* ================================================================== *)
(** * The statistics engine: empty tables and empty windows            *)
(* ================================================================== *)

(** Every window of an empty table is empty. *)
Lemma target_of_empty (self : StatsEngine) (num_draws : option Z) :
  df_empty (df self) = true -> df_empty (target self num_draws) = true.
Proof.
  intros He. destruct num_draws as [n|]; simpl; [|exact He].
  unfold get_latest_n_draws. now rewrite He.
Qed.

(** C7. Every query of the engine applied to an empty table, or to an
    empty window of a table that has rows, returns, without raising, its
    empty or neutral result: the frequency and last-digit queries the empty
    mapping, sum analysis an empty sequence of sums with [None] for the
    mean, median, standard deviation, minimum and maximum, the ratio query
    empty sequences and mappings, the consecutive analysis an empty mapping
    and a zero count; and the latest-N selector returns an empty frame on
    an empty table. *)
Theorem empty_table_queries (self : StatsEngine) (num_draws : option Z)
    (n : Z) :
  df_empty (df self) = true \/ df_empty (target self num_draws) = true ->
  calculate_frequency self num_draws = Ok []
  /\ calculate_sum_analysis self num_draws
     = Ok [("sums", VInts []); ("mean_sum", VNone); ("median_sum", VNone);
           ("std_dev_sum", VNone); ("min_sum", VNone); ("max_sum", VNone)]
  /\ calculate_odd_even_big_small_ratios self num_draws
     = Ok [("odd_even_ratios", VStrs []); ("big_small_ratios", VStrs []);
           ("odd_even_counts", VCounts []); ("big_small_counts", VCounts [])]
  /\ analyze_consecutive_numbers self num_draws
     = Ok [("consecutive_patterns", VCounts []);
           ("total_draws_with_consecutive", VInt 0)]
  /\ analyze_last_digits self num_draws = Ok []
  /\ (df_empty (df self) = true ->
      get_latest_n_draws self n = NoColumns
      /\ df_empty (target self num_draws) = true).
Proof.
  intros He.
  assert (Ht : df_empty (target self num_draws) = true)
    by (destruct He as [He | Ht]; [now apply target_of_empty | exact Ht]).
  unfold calculate_frequency, calculate_sum_analysis,
    calculate_odd_even_big_small_ratios, analyze_consecutive_numbers,
    analyze_last_digits.
  rewrite Ht. repeat split; trivial.
  unfold get_latest_n_draws. now rewrite H.
Qed.

(** The table of the scenario has three draws and its window of the
    latest 0 draws has none. *)
Lemma empty_table_queries_witness :
  df_empty (target scenario_engine (Some 0)) = true
  /\ df_empty (df scenario_engine) = false
  /\ calculate_sum_analysis scenario_engine (Some 0)
     = Ok [("sums", VInts []); ("mean_sum", VNone); ("median_sum", VNone);
           ("std_dev_sum", VNone); ("min_sum", VNone); ("max_sum", VNone)].
Proof.
  split; [reflexivity|]. split; [reflexivity|].
  apply (@empty_table_queries scenario_engine (Some 0) 0
           (or_intror eq_refl)).
Defined.

(* ================================================================== *)
(** * The ratio query                                                  *)
(* ================================================================== *)

(** C10. The key set of the ratio query depends on the window.  For every
    non-empty window the distributions are returned under
    ['odd_even_distribution'] and ['big_small_distribution']; for an empty
    one the mapping holds ['odd_even_counts'] and ['big_small_counts']
    instead, and reading either distribution key raises [KeyError]. *)
Theorem ratio_keys_depend_on_window (self : StatsEngine)
    (num_draws : option Z) :
  exists d,
    calculate_odd_even_big_small_ratios self num_draws = Ok d
    /\ if df_empty (target self num_draws)
       then dict_keys d = ["odd_even_ratios"; "big_small_ratios";
                           "odd_even_counts"; "big_small_counts"]
            /\ dict_item d "odd_even_distribution" = Raise KeyError
            /\ dict_item d "big_small_distribution" = Raise KeyError
       else dict_keys d = ["odd_even_ratios"; "big_small_ratios";
                           "odd_even_distribution"; "big_small_distribution"]
            /\ (exists odd_even big_small,
                  dict_item d "odd_even_distribution" = Ok (VCounts odd_even)
                  /\ dict_item d "big_small_distribution"
                     = Ok (VCounts big_small))
            /\ dict_item d "odd_even_counts" = Raise KeyError
            /\ dict_item d "big_small_counts" = Raise KeyError.
Proof.
  unfold calculate_odd_even_big_small_ratios.
  destruct (df_empty (target self num_draws)).
  - eexists. split; [reflexivity|]. repeat split.
  - eexists. split; [reflexivity|]. split; [reflexivity|].
    split; [|split; reflexivity].
    eexists _, _. split; reflexivity.
Qed.

(* ================================================================== *)
(** * Frequency and last-digit tables                                  *)
(* ================================================================== *)

Lemma count_step_get (d : dict Z Z) (x k : Z) :
  dict_get (count_step d x) k 0
  = dict_get d k 0 + (if Z.eq_dec x k then 1 else 0).
Proof.
  unfold count_step. rewrite dict_get_set. simpl.
  destruct (Z.eqb_spec k x) as [-> | Hne].
  - destruct (Z.eq_dec x x); [reflexivity | contradiction].
  - destruct (Z.eq_dec x k); [congruence | lia].
Qed.

Lemma fold_count_step_get (xs : list Z) (d : dict Z Z) (k : Z) :
  dict_get (fold_left count_step xs d) k 0
  = dict_get d k 0 + occurrences k xs.
Proof.
  unfold occurrences. revert d.
  induction xs as [|x xs IH]; intros d; simpl.
  - lia.
  - rewrite IH, count_step_get. destruct (Z.eq_dec x k); lia.
Qed.

Lemma fold_count_step_nodup (xs : list Z) (d : dict Z Z) :
  NoDup (dict_keys d) -> NoDup (dict_keys (fold_left count_step xs d)).
Proof.
  revert d. induction xs as [|x xs IH]; intros d Hd; simpl; [exact Hd|].
  apply IH. now apply dict_set_nodup.
Qed.

Lemma value_counts_get (xs : list Z) (k : Z) :
  dict_get (sort_index (value_counts xs)) k 0 = occurrences k xs.
Proof.
  unfold dict_get, sort_index, value_counts.
  rewrite <- (@dict_find_perm _ _ _ (fold_left count_step xs []));
    [| apply Permutation_sym, sort_by_perm
     | apply fold_count_step_nodup; constructor].
  change (dict_get (fold_left count_step xs []) k 0 = occurrences k xs).
  now rewrite fold_count_step_get.
Qed.

Lemma series_update_zero (a b : Z) (other : dict Z Z) :
  series_update (zero_series a b) other
  = map (fun k => (k, dict_get other k 0)) (py_range a b).
Proof. unfold series_update, zero_series. now rewrite map_map. Qed.

Lemma dict_find_tabulate (f : Z -> Z) (ks : list Z) (k : Z) :
  In k ks -> dict_find (map (fun k => (k, f k)) ks) k = Some (f k).
Proof.
  induction ks as [|k0 ks IH]; simpl; [easy|].
  destruct (Z.eqb_spec k k0) as [-> | Hne]; [reflexivity|].
  intros [Heq | Hin]; [congruence | now apply IH].
Qed.

Lemma dict_keys_tabulate (f : Z -> Z) (ks : list Z) :
  dict_keys (map (fun k => (k, f k)) ks) = ks.
Proof. unfold dict_keys. rewrite map_map. simpl. apply map_id. Qed.

Lemma fold_extend_digits (g : Z -> Z) (column : list (list Z))
    (acc : list Z) :
  fold_left (fun acc ns => acc ++ map g ns) column acc
  = acc ++ map g (List.concat column).
Proof.
  revert acc. induction column as [|ns column IH]; intros acc; simpl.
  - now rewrite app_nil_r.
  - rewrite IH, map_app, app_assoc. reflexivity.
Qed.

(** C5, as stated, fails: on an empty table both queries return the empty
    mapping, which holds neither the key 1 nor the key 0. *)
Lemma fixed_domain_counterexample :
  exists freq digits,
    calculate_frequency {| df := NoColumns |} None = Ok freq
    /\ analyze_last_digits {| df := NoColumns |} None = Ok digits
    /\ dict_mem freq 1 = false
    /\ dict_mem digits 0 = false.
Proof. exists [], []. repeat split. Qed.

(** C5, amended.  For every table and window that hold at least one draw,
    the frequency query returns a mapping whose keys are exactly 1 to 39
    and the last-digit query one whose keys are exactly 0 to 9, each key
    with the number of its occurrences in the window, hence 0 for a key
    that never occurs; for an empty table or window both queries return
    the empty mapping. *)
Theorem fixed_domain_tables (self : StatsEngine) (num_draws : option Z) :
  exists freq digits,
    calculate_frequency self num_draws = Ok freq
    /\ analyze_last_digits self num_draws = Ok digits
    /\ if df_empty (target self num_draws)
       then freq = [] /\ digits = []
       else
         let drawn := window_numbers self num_draws in
         dict_keys freq = py_range 1 40
         /\ dict_keys digits = py_range 0 10
         /\ (forall k, 1 <= k <= 39 ->
               dict_find freq k = Some (occurrences k drawn))
         /\ (forall k, 0 <= k <= 9 ->
               dict_find digits k
               = Some (occurrences k (map (fun n => n mod 10) drawn)))
         /\ (forall k, 1 <= k <= 39 -> ~ In k drawn ->
               dict_find freq k = Some 0).
Proof.
  unfold calculate_frequency, analyze_last_digits, window_numbers.
  destruct (df_empty (target self num_draws)) eqn:He.
  { exists [], []. repeat split. }
  destruct (target self num_draws) as [|rows]; [discriminate|].
  cbn [numbers_list_column bind rows_of].
  rewrite !series_update_zero, fold_extend_digits, app_nil_l.
  eexists _, _. split; [reflexivity|]. split; [reflexivity|].
  assert (Hfreq : forall k, 1 <= k <= 39 ->
            dict_find
              (map (fun k0 => (k0, dict_get (sort_index (value_counts
                       (List.concat (map numbers_list rows)))) k0 0))
                 (py_range 1 40)) k
            = Some (occurrences k (List.concat (map numbers_list rows)))).
  { intros k Hk.
    rewrite (dict_find_tabulate
               (fun k0 => dict_get (sort_index (value_counts
                  (List.concat (map numbers_list rows)))) k0 0))
      by (apply py_range_in; lia).
    now rewrite value_counts_get. }
  split; [apply dict_keys_tabulate|].
  split; [apply dict_keys_tabulate|].
  split; [exact Hfreq|]. split.
  - intros k Hk.
    rewrite (dict_find_tabulate
               (fun k0 => dict_get (sort_index (value_counts
                  (map (fun n => n mod 10)
                     (List.concat (map numbers_list rows))))) k0 0))
      by (apply py_range_in; lia).
    now rewrite value_counts_get.
  - intros k Hk Hnot. rewrite Hfreq by exact Hk.
    unfold occurrences.
    now rewrite (proj1 (count_occ_not_In Z.eq_dec _ _) Hnot).
Qed.

(* ================================================================== *)
(** * Consecutive numbers                                              *)
(* ================================================================== *)

Lemma bump_get (d : dict string Z) (q p : string) :
  dict_get (bump d q) p 0
  = dict_get d p 0 + (if string_dec q p then 1 else 0).
Proof.
  unfold bump. rewrite dict_get_set. simpl.
  destruct (String.eqb_spec p q) as [-> | Hne].
  - destruct (string_dec q q); [reflexivity | contradiction].
  - destruct (string_dec q p); [congruence | lia].
Qed.

Lemma fold_bump_get (ps : list string) (d : dict string Z) (p : string) :
  dict_get (fold_left bump ps d) p 0
  = dict_get d p 0 + pattern_occurrences p ps.
Proof.
  unfold pattern_occurrences. revert d.
  induction ps as [|q ps IH]; intros d; simpl.
  - lia.
  - rewrite IH, bump_get. destruct (string_dec q p); lia.
Qed.

Lemma fold_bump_nodup (ps : list string) (d : dict string Z) :
  NoDup (dict_keys d) -> NoDup (dict_keys (fold_left bump ps d)).
Proof.
  revert d. induction ps as [|q ps IH]; intros d Hd; simpl; [exact Hd|].
  apply IH. now apply dict_set_nodup.
Qed.

Lemma scan_adjacent_spec (ns : list Z) :
  forall acc,
    scan_adjacent ns acc
    = (fold_left bump (map pair_pattern (filter is_step (adjacent_pairs ns)))
         (fst acc),
       snd acc || non_empty (filter is_step (adjacent_pairs ns))).
Proof.
  induction ns as [|a ns IH]; intros [d h].
  - simpl. now rewrite orb_false_r.
  - destruct ns as [|b ns].
    + simpl. now rewrite orb_false_r.
    + change (scan_adjacent (a :: b :: ns) (d, h))
        with (if b - a =? 1
              then scan_adjacent (b :: ns) (bump d (pattern_of a b), true)
              else scan_adjacent (b :: ns) (d, h)).
      change (adjacent_pairs (a :: b :: ns))
        with ((a, b) :: adjacent_pairs (b :: ns)).
      cbn [filter].
      assert (Hstep : is_step (a, b) = (b - a =? 1)) by reflexivity.
      rewrite Hstep.
      destruct (b - a =? 1); rewrite IH;
        cbn [fst snd map fold_left non_empty orb].
      * now rewrite orb_true_r.
      * reflexivity.
Qed.

Lemma consecutive_step_spec (acc : dict string Z * Z) (r : stats_row) :
  consecutive_step acc r
  = (fold_left bump (draw_patterns r) (fst acc),
     snd acc + (if has_consecutive r then 1 else 0)).
Proof.
  unfold consecutive_step. rewrite scan_adjacent_spec. cbn [fst snd orb].
  unfold has_consecutive, draw_patterns, consecutive_pairs.
  destruct (non_empty _); [reflexivity|]. now rewrite Z.add_0_r.
Qed.

Lemma fold_consecutive_step (rows : list stats_row) :
  forall acc,
    fold_left consecutive_step rows acc
    = (fold_left bump (window_patterns rows) (fst acc),
       snd acc + Z.of_nat (List.length (filter has_consecutive rows))).
Proof.
  induction rows as [|r rows IH]; intros [d n]; simpl.
  - now rewrite Z.add_0_r.
  - rewrite IH, consecutive_step_spec. cbn [fst snd].
    rewrite fold_left_app. f_equal.
    destruct (has_consecutive r); simpl; lia.
Qed.

(** ** Sorting the items of a mapping *)

Lemma string_ltb_compare (a b : string) :
  String.ltb a b = true <-> String.compare a b = Lt.
Proof.
  unfold String.ltb. destruct (String.compare a b); split; congruence.
Qed.

Lemma item_leb_total (a b : string * Z) :
  item_leb a b = false -> item_leb b a = true.
Proof.
  unfold item_leb. intros H.
  apply orb_false_iff in H as [Hlt Heq].
  destruct (String.compare (fst a) (fst b)) eqn:E.
  - apply String.compare_eq_iff in E. rewrite E in *.
    rewrite String.eqb_refl in *. simpl in Heq.
    apply Z.leb_gt in Heq. apply orb_true_iff. right.
    apply Z.leb_le. lia.
  - apply string_ltb_compare in E. congruence.
  - apply orb_true_iff. left. apply string_ltb_compare.
    rewrite String.compare_antisym, E. reflexivity.
Qed.

Lemma sorted_items_perm (d : dict string Z) : Permutation (sorted_items d) d.
Proof. apply sort_by_perm. Qed.

Lemma sorted_items_by_label (d : dict string Z) :
  NoDup (dict_keys d) -> sorted_by_label (sorted_items d).
Proof.
  intros Hnd.
  assert (NoDup (dict_keys (sorted_items d))) as Hnd'.
  { eapply Permutation_NoDup; [|exact Hnd].
    apply Permutation_map, Permutation_sym, sorted_items_perm. }
  assert (Sorted (le_of item_leb) (sorted_items d)) as Hs
    by apply sort_by_sorted, item_leb_total.
  unfold sorted_by_label. revert Hnd'.
  induction Hs as [|a l Hs IH Hhd]; intros Hnd'; constructor.
  - apply IH. now inversion Hnd'.
  - destruct Hhd as [|b l Hab]; constructor.
    unfold le_of, item_leb in Hab.
    apply orb_true_iff in Hab as [Hlt | Heq]; [exact Hlt|].
    apply andb_true_iff in Heq as [Heq _]. apply String.eqb_eq in Heq.
    exfalso. simpl in Hnd'. inversion Hnd' as [|? ? Hin _]; subst.
    apply Hin. left. now symmetry.
Qed.

Lemma sorted_items_get (d : dict string Z) (p : string) :
  NoDup (dict_keys d) -> dict_get (sorted_items d) p 0 = dict_get d p 0.
Proof.
  intros Hnd. unfold dict_get.
  rewrite <- (@dict_find_perm _ _ _ d); [reflexivity | | exact Hnd].
  apply Permutation_sym, sorted_items_perm.
Qed.

(** C6 fails on an empty window, that of an empty table as that of the
    latest 0 draws of a table that has rows: the guard of the function
    returns the pattern distribution and the count without the percentage,
    for which its last line has the value 0 ready. *)
Lemma consecutive_analysis_counterexample :
  (exists d,
     analyze_consecutive_numbers {| df := Frame [] |} None = Ok d
     /\ dict_find d "percentage_with_consecutive" = None
     /\ dict_item d "percentage_with_consecutive" = Raise KeyError)
  /\ (exists d,
        analyze_consecutive_numbers scenario_engine (Some 0) = Ok d
        /\ dict_find d "percentage_with_consecutive" = None
        /\ dict_item d "percentage_with_consecutive" = Raise KeyError).
Proof. split; eexists; repeat split. Qed.

(** C6, on the windows that hold a draw.  For every non-empty window, the
    consecutive-number analysis counts a draw once toward the draws-with-consecutive tally as
    soon as it has an adjacent pair differing by exactly 1, however many
    such pairs it has, while every such pair adds one to the count of its
    own pattern; the result holds the pattern distribution sorted by
    pattern, the tally, and the tally as a percentage of the number of
    draws in the window. *)
Theorem consecutive_analysis (self : StatsEngine) (num_draws : option Z) :
  df_empty (target self num_draws) = false ->
  let rows := rows_of (target self num_draws) in
  let tally := Z.of_nat (List.length (filter has_consecutive rows)) in
  let draws := Z.of_nat (List.length rows) in
  exists patterns,
    analyze_consecutive_numbers self num_draws
    = Ok [("consecutive_patterns", VCounts patterns);
          ("total_draws_with_consecutive", VInt tally);
          ("percentage_with_consecutive",
            VNum (Q_of_Z tally / Q_of_Z draws * Q_of_Z 100)%Q)]
    /\ (forall p, dict_get patterns p 0
                  = pattern_occurrences p (window_patterns rows))
    /\ sorted_by_label patterns
    /\ 0 <= tally <= draws.
Proof.
  intros Hne rows tally draws.
  unfold analyze_consecutive_numbers. rewrite Hne.
  fold rows. rewrite fold_consecutive_step. cbn [fst snd].
  rewrite Z.add_0_l. fold tally.
  assert (Hpos : (0 <? df_len (target self num_draws)) = true).
  { apply Z.ltb_lt. unfold df_len, df_empty in *.
    destruct (rows_of (target self num_draws)); [discriminate | simpl; lia]. }
  rewrite Hpos. unfold df_len. fold rows. fold draws.
  assert (Hnd : NoDup (dict_keys (fold_left bump (window_patterns rows) [])))
    by (apply fold_bump_nodup; constructor).
  eexists. split; [reflexivity|]. split; [|split].
  - intros p. rewrite sorted_items_get by exact Hnd.
    now rewrite fold_bump_get.
  - now apply sorted_items_by_label.
  - unfold tally, draws. pose proof (filter_length_le has_consecutive rows).
    lia.
Qed.

Lemma consecutive_analysis_witness :
  df_empty (target scenario_engine None) = false
  /\ exists patterns,
       analyze_consecutive_numbers scenario_engine None
       = Ok [("consecutive_patterns", VCounts patterns);
             ("total_draws_with_consecutive", VInt 2);
             ("percentage_with_consecutive",
               VNum (Q_of_Z 2 / Q_of_Z 3 * Q_of_Z 100)%Q)]
       /\ dict_get patterns "01,02" 0 = 1
       /\ dict_get patterns "20,21" 0 = 1.
Proof.
  split; [reflexivity|].
  destruct (@consecutive_analysis scenario_engine None eq_refl)
    as (patterns & Hrun & Hcount & _).
  exists patterns. split; [exact Hrun|].
  rewrite !Hcount. split; vm_compute; reflexivity.
Defined.

(* ================================================================== *)
(** * The scenario of the specification                                *)
(* ================================================================== *)

(** Loading the three persisted rows, in any order and whatever the
    sorting algorithm, gives the table of the scenario. *)
Example scenario_loaded (P : Pandas) :
  _load_data (Some [row_jan_04; row_jan_02; row_jan_03])
  = Ok (df scenario_engine).
Proof.
  unfold _load_data.
  assert (with_numbers_list [row_jan_04; row_jan_02; row_jan_03]
          = Ok [ {| persisted := row_jan_04;
                    numbers_list := [2; 4; 6; 8; 10] |};
                 {| persisted := row_jan_02;
                    numbers_list := [1; 2; 3; 4; 5] |};
                 {| persisted := row_jan_03;
                    numbers_list := [10; 11; 20; 21; 39] |} ]) as ->
    by (vm_compute; reflexivity).
  cbn [bind]. unfold scenario_engine. cbn [df]. do 2 f_equal.
  unfold sort_stats_values. symmetry.
  apply (date_order_unique (key := fun r => ad_date (persisted r))).
  - repeat constructor.
  - apply sort_by_date_sorted.
  - eapply Permutation_trans; [|apply Permutation_sym, sort_by_date_perm].
    eapply Permutation_trans; [apply perm_skip, perm_swap|].
    apply perm_swap.
  - vm_compute. repeat (constructor; [simpl; intuition discriminate|]).
    constructor.
Qed.

Example scenario_frequency :
  exists freq,
    calculate_frequency scenario_engine None = Ok freq
    /\ dict_find freq 2 = Some 2
    /\ dict_find freq 1 = Some 1
    /\ dict_find freq 39 = Some 1
    /\ dict_find freq 7 = Some 0.
Proof. eexists. split; [vm_compute; reflexivity|]. repeat split. Qed.

Example scenario_ratios :
  exists d,
    calculate_odd_even_big_small_ratios scenario_engine None = Ok d
    /\ dict_find d "odd_even_ratios" = Some (VStrs ["3:2"; "3:2"; "0:5"]).
Proof. eexists. split; [vm_compute; reflexivity|]. reflexivity. Qed.

Example scenario_latest_two :
  map numbers_list (rows_of (get_latest_n_draws scenario_engine 2))
  = [[10; 11; 20; 21; 39]; [2; 4; 6; 8; 10]].
Proof. reflexivity. Qed.

Example scenario_sums :
  exists d,
    calculate_sum_analysis scenario_engine None = Ok d
    /\ dict_find d "sums" = Some (VInts [15; 101; 30])
    /\ dict_find d "min_sum" = Some (VInt 15)
    /\ dict_find d "max_sum" = Some (VInt 101).
Proof. eexists. split; [vm_compute; reflexivity|]. repeat split. Qed.

(* ================================================================== *)
(** * Further properties of the data engine                            *)
(* ================================================================== *)

(** ** The latest date *)

(** X1. [get_latest_ad_date] returns [None] exactly for a table without
    rows; otherwise it returns the date of one of the rows, and no row has
    a later date. *)
Theorem get_latest_ad_date_is_max (table : DataFrame row) :
  (get_latest_ad_date table = None <-> rows_of table = [])
  /\ forall d, get_latest_ad_date table = Some d ->
       (exists r, In r (rows_of table) /\ ad_date r = d)
       /\ forall r, In r (rows_of table) -> date_leb (ad_date r) d = true.
Proof.
  rewrite get_latest_rows. split.
  - apply latest_date_none.
  - intros d Hd.
    apply latest_date_some, is_latest_attained in Hd as (r & Hr & Hdate & Hmax).
    split; [now exists r | exact Hmax].
Qed.

(** ** The normalizer *)

Section NormalizerProperties.
Context {P : Pandas} {Py : Python}.

Lemma passed_counts (raw_data : list json) :
  (List.length (records_of (passed raw_data))
   + List.length (diagnostics_of (passed raw_data))
   = List.length (passed raw_data))%nat.
Proof.
  unfold records_of, diagnostics_of.
  induction (passed raw_data) as [|item rest IH]; simpl; [reflexivity|].
  rewrite !length_app.
  destruct (process_item item); simpl; lia.
Qed.

Lemma passed_all (raw_data : list json) :
  stopped_by raw_data = None -> passed raw_data = raw_data.
Proof.
  induction raw_data as [|item rest IH]; simpl; [reflexivity|].
  destruct (stops item); [discriminate|]. intros H. now rewrite IH.
Qed.

(** X2. The normalizer goes through the items of its argument in order.
    It makes a record of every item that is an object with a date string
    that parses, a period and draw numbers of which the first five are
    integers; it skips, with one diagnostic, an item on which it raises
    [KeyError] or [ValueError]; and it stops at the first item on which it
    raises [TypeError] or [AttributeError], which it raises to its caller
    with no record, as it does [TypeError] when its argument cannot be
    iterated.  Nothing but the diagnostics is printed or changed. *)
Theorem normalizer_keeps_or_reports (raw_data : json) (w : world) :
  process_daily_cash_data raw_data w
  = match py_iter raw_data with
    | Raise e => (Raise e, w)
    | Ok items =>
        (match stopped_by items with
         | Some e => Raise e
         | None => Ok (records_of items)
         end,
         printed w (diagnostics_of (passed items)))
    end
  /\ (forall items,
        (List.length (records_of (passed items))
         + List.length (diagnostics_of (passed items))
         = List.length (passed items))%nat
        /\ (stopped_by items = None -> passed items = items))
  /\ (forall item r,
        process_item item = Ok r
        <-> exists d p ns, complete_item item d p ns /\ r = record_of d p ns)
  /\ (forall item e,
        process_item item = Raise e ->
        e = KeyError \/ e = ValueError \/ e = TypeError
        \/ e = AttributeError)
  /\ (forall item e,
        stops item = Some e
        <-> process_item item = Raise e
            /\ (e = TypeError \/ e = AttributeError)).
Proof.
  split; [apply process_daily_cash_data_spec|].
  split; [intros items; split; [apply passed_counts | apply passed_all]|].
  split; [apply process_item_ok|].
  split; [apply process_item_errors|].
  intros item e. split; [apply stops_fatal|].
  intros [Hitem [-> | ->]]; unfold stops; rewrite Hitem; reflexivity.
Qed.
End NormalizerProperties.

(** ** Writing the numbers and reading them back, for every integer *)

Lemma uint_no_comma (d : Decimal.uint) :
  no_char "," (NilEmpty.string_of_uint d) = true.
Proof. induction d; simpl; auto. Qed.

Lemma str_of_int_no_comma (n : Z) : no_char "," (str_of_int n) = true.
Proof.
  unfold str_of_int, NilZero.string_of_int, NilZero.string_of_uint.
  destruct (Z.to_int n) as [d|d]; destruct d; simpl;
    auto using uint_no_comma.
Qed.

Lemma int_of_str_of_int (n : Z) : int_of_str (str_of_int n) = Ok n.
Proof.
  unfold int_of_str, str_of_int.
  rewrite NilZero.isi.
  - now rewrite DecimalZ.of_to.
  - destruct n; simpl; try discriminate.
    intros [= H]. now apply Unsigned.to_uint_nonnil in H.
  - destruct n; simpl; try discriminate.
    intros [= H]. now apply Unsigned.to_uint_nonnil in H.
Qed.

Lemma reads_back_all (n : Z) : reads_back n = true.
Proof.
  destruct ((0 <=? n) && (n <? 10)) eqn:E.
  - apply reads_back_small. lia.
  - unfold reads_back, format_02d. rewrite E.
    now rewrite str_of_int_no_comma, int_of_str_of_int, Z.eqb_refl.
Qed.

Lemma parse_numbers_join_all (ns : list Z) :
  ns <> [] -> parse_numbers (join "," (map format_02d ns)) = Ok ns.
Proof.
  intros Hne. unfold parse_numbers. rewrite split_on_join.
  - induction ns as [|n ns IH]; [congruence|]. simpl.
    pose proof (reads_back_all n) as Hr. unfold reads_back in Hr.
    apply andb_true_iff in Hr as [_ Hr].
    destruct (int_of_str (format_02d n)) as [m|]; [|discriminate].
    apply Z.eqb_eq in Hr. subst m. simpl.
    destruct ns as [|n' ns]; [reflexivity|].
    now rewrite IH.
  - destruct ns; [congruence | discriminate].
  - apply Forall_map, Forall_forall. intros n _.
    pose proof (reads_back_all n) as Hr. unfold reads_back in Hr.
    now apply andb_true_iff in Hr as [Hr _].
Qed.


(** X3. What the normalizer writes in the [numbers] field is what the
    statistics engine reads from it: for a record made of an item of which
    the first five draw numbers are at least two integers, the engine's
    [numbers_list] is these integers in ascending order, whatever integers
    they are.  (A field of a single number holds no comma, and the table
    reader may then take the column for a column of integers.) *)
Theorem numbers_written_are_read_back (Py : Python) (item : json) (r : row)
    (v : json) (head : list json) (ns : list Z) :
  process_item item = Ok r ->
  json_item item "drawNumberAppear" = Ok v ->
  first_five slices_hashable v = Ok head ->
  ints_of head = Some ns ->
  (2 <= List.length ns)%nat ->
  with_numbers_list [r]
  = Ok [ {| persisted := r; numbers_list := sorted ns |} ].
Proof.
  intros Hitem Hv Hh Hns Hne.
  apply process_item_numbers in Hitem
    as (v' & head' & ns' & Hv' & Hh' & Hns' & Hnum).
  rewrite Hv in Hv'. injection Hv' as <-.
  rewrite Hh in Hh'. injection Hh' as <-.
  rewrite Hns in Hns'. injection Hns' as <-.
  simpl. rewrite Hnum, parse_numbers_join_all; [reflexivity|].
  intros Hnil.
  assert (List.length (sorted ns) = List.length ns) as Hlen
    by apply Permutation_length, sorted_perm.
  rewrite Hnil in Hlen. simpl in Hlen. lia.
Qed.

Lemma numbers_written_are_read_back_witness :
  process_item (Py := sample_python) full_item = Ok january_row
  /\ json_item full_item "drawNumberAppear"
     = Ok (JArr [JNum 39; JNum 7; JNum 21; JNum 1; JNum 12; JNum 30])
  /\ first_five true
       (JArr [JNum 39; JNum 7; JNum 21; JNum 1; JNum 12; JNum 30])
     = Ok [JNum 39; JNum 7; JNum 21; JNum 1; JNum 12]
  /\ ints_of [JNum 39; JNum 7; JNum 21; JNum 1; JNum 12]
     = Some [39; 7; 21; 1; 12]
  /\ (2 <= List.length [39; 7; 21; 1; 12])%nat
  /\ with_numbers_list [january_row]
     = Ok [ {| persisted := january_row;
               numbers_list := [1; 7; 12; 21; 39] |} ].
Proof.
  assert (H1 : process_item (Py := sample_python) full_item = Ok january_row)
    by (vm_compute; reflexivity).
  assert (H5 : (2 <= List.length [39; 7; 21; 1; 12])%nat)
    by (simpl; lia).
  split; [exact H1|]. split; [reflexivity|]. split; [reflexivity|].
  split; [reflexivity|]. split; [exact H5|].
  rewrite (@numbers_written_are_read_back sample_python full_item
             january_row
             (JArr [JNum 39; JNum 7; JNum 21; JNum 1; JNum 12; JNum 30])
             [JNum 39; JNum 7; JNum 21; JNum 1; JNum 12]
             [39; 7; 21; 1; 12] H1 eq_refl eq_refl eq_refl H5).
  vm_compute. reflexivity.
Defined.

(** ** Loading the existing table *)

Section LoadingFacts.
Context {P : Pandas}.

(** X4. Loading the existing table never raises.  It yields the rows of
    the file when the file exists and can be read, and a frame without
    columns when the file is missing or unreadable; a diagnostic is printed
    in the unreadable case only, and nothing else changes. *)
Theorem existing_table_loading (w : world) :
  exists table diagnostics,
    get_existing_data_df w = (Ok table, printed w diagnostics)
    /\ match disk w with
       | None => table = NoColumns /\ diagnostics = []
       | Some content =>
           match read_csv content with
           | Ok rows => table = Frame rows /\ diagnostics = []
           | Raise e => table = NoColumns /\ diagnostics = [MsgReadFailed e]
           end
       end.
Proof.
  exists (loaded_table w), (read_diagnostics w).
  split; [apply get_existing_data_df_spec|].
  unfold loaded_table, read_diagnostics.
  destruct (disk w) as [content|]; [|now split].
  destruct (read_csv content); now split.
Qed.
End LoadingFacts.

(** ** The months that a run asks for, and what it raises *)

Section RunProperties.
Context {P : Pandas} {Py : Python} {Out : Outside}.

(** X5. When the current date is a day of its month, a run that gets past
    its first lines has asked the API for every month from its start month
    (the month of the latest loaded date, or the start month given when
    nothing is loaded) through the current month, each once and in order,
    and has slept for one second per month at most, whether it then
    returns or raises while it saves; a run stopped by an invalid start
    month raises [ValueError] and has asked nothing. *)
Theorem run_requests_every_month (start_year start_month : Z)
    (w0 : world) :
  1 <= day now ->
  let start := crawl_start (loaded_table w0) start_year start_month in
  let months := Z.to_nat (month_index now - month_index start + 1) in
  exists outcome w',
    crawl_and_save_daily_cash start_year start_month w0 = Some (outcome, w')
    /\ if negb (df_empty (loaded_table w0))
          || valid_start start_year start_month
       then requested w' = requested w0 ++ month_sequence start months
            /\ slept w0 <= slept w' <= slept w0 + Z.of_nat months
       else outcome = Raise ValueError
            /\ requested w' = requested w0 /\ slept w' = slept w0.
Proof.
  intros Hnow start months.
  destruct (run_cases start_year start_month w0)
    as (w2 & Hr & Hs & _ & _ & Hrun).
  fold start in Hr, Hs, Hrun.
  assert (Hm : months_left now start = months).
  { pose proof (crawl_start_first_day (loaded_table w0) start_year
                  start_month) as Hday.
    fold start in Hday. unfold months_left, months. rewrite Hday.
    destruct (Z.leb_spec 1 (day now)); [reflexivity | lia]. }
  rewrite Hm in Hr, Hs. rewrite Hrun.
  destruct (negb (df_empty (loaded_table w0))
            || valid_start start_year start_month).
  - destruct (date_filtered _ _).
    + eexists _, _. split; [reflexivity|].
      cbn [printed requested slept]. split; [exact Hr | exact Hs].
    + destruct (forallb _ _); [destruct (forallb _ _)|];
        eexists _, _; (split; [reflexivity|]);
        cbn [saved requested slept]; (split; [exact Hr | exact Hs]).
  - eexists _, _. split; [reflexivity|]. rewrite app_nil_r in Hr.
    split; [reflexivity|]. split; [exact Hr | lia].
Qed.

(** X6. No answer of the API makes a run raise before it saves: transport
    failures, bodies that are not JSON or not of the expected shape,
    messages that cannot be printed and items that cannot be processed are
    all contained by the month loop.  A run raises in three cases only:
    [ValueError] before any request, when nothing is loaded and the start
    month given is not a month; [OutOfBoundsDatetime] when there are new
    records and a date of the merged table is not one that a timestamp
    holds; [UnicodeEncodeError] when there are new records and a text of
    the merged table cannot be encoded. *)
Theorem run_contains_failures (start_year start_month : Z) (w0 : world) :
  let table := loaded_table w0 in
  let batch := gathered (crawl_start table start_year start_month) in
  exists w',
    crawl_and_save_daily_cash start_year start_month w0
    = Some
        (if negb (df_empty table) || valid_start start_year start_month
         then
           match date_filtered (rows_of table) batch with
           | [] => Ok tt
           | _ :: _ =>
               if forallb (fun r => in_timestamp_range (ad_date r))
                    (merge (rows_of table) batch)
               then
                 if forallb row_encodable (merge (rows_of table) batch)
                 then Ok tt
                 else Raise UnicodeEncodeError
               else Raise OutOfBoundsDatetime
           end
         else Raise ValueError, w')
    /\ (df_empty table = true ->
        valid_start start_year start_month = false ->
        requested w' = requested w0).
Proof.
  intros table batch.
  destruct (run_cases start_year start_month w0)
    as (w2 & Hr & _ & _ & _ & Hrun).
  fold table batch in Hr, Hrun. rewrite Hrun.
  destruct (negb (df_empty table) || valid_start start_year start_month)
    eqn:Ev.
  - assert (Hno : df_empty table = true ->
                  valid_start start_year start_month = false -> False).
    { intros H1 H2. rewrite H1, H2 in Ev. discriminate. }
    destruct (date_filtered (rows_of table) batch).
    + eexists. split; [reflexivity|]. intros H1 H2. now destruct Hno.
    + destruct (forallb _ _); [destruct (forallb _ _)|];
        eexists; (split; [reflexivity|]); intros H1 H2; now destruct Hno.
  - exists w2. split; [reflexivity|]. intros _ _.
    now rewrite app_nil_r in Hr.
Qed.

(** X22. The run always comes to an end, and what it leaves in the file
    is settled by the table it loaded and the batch it gathered from the
    API, month after month.  The file is as it was, and nothing is written,
    when the run stops on an invalid start month, when no record of the
    batch passes the date filter, and when a date of the merged table is
    refused.  Otherwise the file is written once: it holds [merge] of the
    loaded table and of the batch when the run returns, and what a failed
    write leaves when a text of the merged table cannot be encoded. *)
Theorem run_persists_merge (start_year start_month : Z) (w0 : world) :
  let loaded := rows_of (loaded_table w0) in
  let batch :=
    gathered (crawl_start (loaded_table w0) start_year start_month) in
  exists outcome w',
    crawl_and_save_daily_cash start_year start_month w0 = Some (outcome, w')
    /\ if negb (df_empty (loaded_table w0))
          || valid_start start_year start_month
       then
         match date_filtered loaded batch with
         | [] =>
             outcome = Ok tt
             /\ disk w' = disk w0 /\ written w' = written w0
         | _ :: _ =>
             if forallb (fun r => in_timestamp_range (ad_date r))
                  (merge loaded batch)
             then
               if forallb row_encodable (merge loaded batch)
               then outcome = Ok tt
                    /\ disk w' = Some (to_csv (merge loaded batch))
                    /\ written w'
                       = written w0 ++ [to_csv (merge loaded batch)]
               else outcome = Raise UnicodeEncodeError
                    /\ disk w' = Some (torn_csv (merge loaded batch))
                    /\ written w'
                       = written w0 ++ [torn_csv (merge loaded batch)]
             else outcome = Raise OutOfBoundsDatetime
                  /\ disk w' = disk w0 /\ written w' = written w0
         end
       else outcome = Raise ValueError
            /\ disk w' = disk w0 /\ written w' = written w0.
Proof.
  intros loaded batch.
  destruct (run_cases start_year start_month w0)
    as (w2 & _ & _ & Hd & Hw & Hrun).
  fold loaded batch in Hrun. rewrite Hrun.
  destruct (negb (df_empty (loaded_table w0))
            || valid_start start_year start_month).
  - destruct (date_filtered loaded batch).
    + eexists _, _. split; [reflexivity|]. now split.
    + destruct (forallb _ _); [destruct (forallb _ _)|];
        eexists _, _; (split; [reflexivity|]);
        cbn [saved disk written]; rewrite ?Hw; now split.
  - eexists _, _. split; [reflexivity|]. now split.
Qed.
End RunProperties.

Lemma run_requests_every_month_witness :
  1 <= day (now (Outside := february_outside))
  /\ exists outcome w',
       crawl_and_save_daily_cash (P := stable_pandas) (Py := sample_python)
         (Out := february_outside) 2014 1 january_world
       = Some (outcome, w')
       /\ requested w'
          = requested january_world
            ++ month_sequence (datetime_of 2024 1 1) 2
       /\ slept january_world <= slept w' <= slept january_world + 2.
Proof.
  assert (Hday : 1 <= day (now (Outside := february_outside)))
    by (simpl; lia).
  split; [exact Hday|].
  destruct (@run_requests_every_month stable_pandas sample_python
              february_outside 2014 1 january_world Hday)
    as (outcome & w' & Hrun & Hreq).
  exists outcome, w'. split; [exact Hrun | exact Hreq].
Defined.

(** ** What a merge keeps and what a first run does *)

Section MergeProperties.
Context {P : Pandas}.

Lemma merged_split (existing kept : list row) :
  unique_periods existing ->
  drop_duplicates (existing ++ kept)
  = existing ++ drop_duplicates_seen (map draw existing ++ []) kept.
Proof.
  intros Hu. unfold drop_duplicates. rewrite drop_seen_app.
  fold (drop_duplicates existing). now rewrite drop_duplicates_id.
Qed.

(** X7. On a table that holds one row per period, merging never removes
    a row: every existing row is in the merged table, which is at least as
    long, and every row that is new comes from the batch, is dated after
    the latest existing date and carries a period that no existing row
    carries. *)
Theorem merge_is_append_only (existing incoming : list row) :
  unique_periods existing ->
  (forall r, In r existing -> In r (merge existing incoming))
  /\ (List.length existing <= List.length (merge existing incoming))%nat
  /\ (forall r, In r (merge existing incoming) -> ~ In r existing ->
        In r incoming
        /\ is_newer (latest_date existing) r = true
        /\ ~ In (draw r) (map draw existing)).
Proof.
  intros Hu. rewrite merge_unfold.
  destruct (survivors existing incoming) as [|s kept] eqn:E.
  { split; [auto|]. split; [lia|]. intros r Hr Hn. contradiction. }
  rewrite <- E. clear s kept E.
  split; [|split].
  - intros r Hr. now apply existing_rows_kept.
  - rewrite sort_values_length, merged_split by exact Hu.
    rewrite length_app. lia.
  - intros r Hr Hn. apply (proj1 (sort_values_in _ _)) in Hr.
    rewrite merged_split in Hr by exact Hu.
    apply in_app_or in Hr as [Hr | Hr]; [contradiction|].
    apply drop_seen_in in Hr as [Hr Hseen]. rewrite app_nil_r in Hseen.
    apply survivors_in in Hr as [Hr Hnew]. auto.
Qed.

(** X8. A first run applies no date filter: merging a batch into the
    empty table gives the batch without its repeated periods, first
    occurrences kept, in date order; every period of the batch is in the
    table, once. *)
Theorem first_merge_keeps_every_period (incoming : list row) :
  merge [] incoming = sort_values (drop_duplicates incoming)
  /\ unique_periods (merge [] incoming)
  /\ date_sorted (merge [] incoming)
  /\ (forall p, In p (map draw (merge [] incoming))
                <-> In p (map draw incoming))
  /\ (forall p, first_with_period p (merge [] incoming)
                = first_with_period p incoming).
Proof.
  assert (Heq : merge [] incoming = sort_values (drop_duplicates incoming)).
  { rewrite merge_unfold. unfold survivors. rewrite latest_date_nil.
    assert (filter (is_newer None) incoming = incoming) as ->.
    { induction incoming as [|r l IH]; simpl; [reflexivity | now rewrite IH]. }
    destruct incoming; [|reflexivity].
    symmetry. apply Permutation_nil, Permutation_sym, sort_values_perm. }
  rewrite Heq. split; [reflexivity|].
  split; [apply sort_values_unique, drop_duplicates_nodup|].
  split; [apply sort_values_sorted|]. split.
  - intros p. split.
    + intros Hp. apply in_map_iff in Hp as (r & <- & Hr).
      apply in_map, drop_duplicates_in.
      now apply (proj1 (sort_values_in _ _)) in Hr.
    + intros Hp.
      assert (In p (map draw (drop_duplicates incoming))) as Hd
        by (apply drop_seen_periods; split; [exact Hp | intros []]).
      apply in_map_iff in Hd as (r & <- & Hr).
      apply in_map. now apply sort_values_in.
  - intros p.
    rewrite <- (@drop_seen_first [] incoming p) by (intros []).
    symmetry. apply first_with_period_perm.
    + apply Permutation_sym, sort_values_perm.
    + apply drop_duplicates_nodup.
Qed.
End MergeProperties.

Lemma merge_is_append_only_witness :
  unique_periods [row_jan_02; row_jan_03]
  /\ (List.length [row_jan_02; row_jan_03]
      <= List.length (merge (P := stable_pandas) [row_jan_02; row_jan_03]
                        [row_jan_02_redated; row_jan_04]))%nat.
Proof.
  assert (Hu : unique_periods [row_jan_02; row_jan_03]).
  { unfold unique_periods. simpl.
    constructor; [simpl; intros [H | []]; vm_compute in H; discriminate|].
    constructor; [intros [] | constructor]. }
  split; [exact Hu|].
  apply (@merge_is_append_only stable_pandas [row_jan_02; row_jan_03]
           [row_jan_02_redated; row_jan_04] Hu).
Defined.

(** ** What a run writes *)

Section WriteFacts.
Context {P : Pandas} {Py : Python} {Out : Outside}.

Lemma drop_seen_shorter (seen : list string) (l : list row) :
  (List.length (drop_duplicates_seen seen l) <= List.length l)%nat.
Proof.
  revert seen. induction l as [|x l IH]; intros seen; simpl; [lia|].
  destruct (existsb _ seen);
    [specialize (IH seen) | specialize (IH (draw x :: seen))];
    simpl; lia.
Qed.

(** X9. A run writes the file once at most, and only when a record of the
    batch gathered from the API passes the date filter and no date of the
    merged table is refused.  The table that it then writes is [merge] of
    the loaded table and of the batch: it is not empty, is in date order,
    has one row per period, still holds every row that was loaded if the
    loaded table had one row per period, and is no longer than the loaded
    table and the records that passed the date filter together.  When all
    its texts can be encoded the file holds it and the run reports, as the
    count of new records, the number of records that passed the date
    filter, which de-duplication may have reduced in the table, and as the
    total the length of the table; otherwise the write fails. *)
Theorem run_writes_a_well_formed_table (start_year start_month : Z)
    (w0 : world) :
  let loaded := rows_of (loaded_table w0) in
  let batch :=
    gathered (crawl_start (loaded_table w0) start_year start_month) in
  let table := merge loaded batch in
  let new_count := Z.of_nat (List.length (date_filtered loaded batch)) in
  exists outcome w',
    crawl_and_save_daily_cash start_year start_month w0 = Some (outcome, w')
    /\ ((written w' = written w0 /\ disk w' = disk w0)
        \/ (date_filtered loaded batch <> []
            /\ forallb (fun r => in_timestamp_range (ad_date r)) table = true
            /\ table <> []
            /\ unique_periods table
            /\ date_sorted table
            /\ (unique_periods loaded ->
                forall r, In r loaded -> In r table)
            /\ Z.of_nat (List.length table)
               <= Z.of_nat (List.length loaded) + new_count
            /\ ((outcome = Ok tt
                 /\ forallb row_encodable table = true
                 /\ written w' = written w0 ++ [to_csv table]
                 /\ disk w' = Some (to_csv table)
                 /\ exists before,
                      stdout w'
                      = before ++ [MsgUpdateDone;
                                   MsgUpdateCounts new_count
                                     (Z.of_nat (List.length table));
                                   MsgSaved])
                \/ (outcome = Raise UnicodeEncodeError
                    /\ forallb row_encodable table = false
                    /\ written w' = written w0 ++ [torn_csv table]
                    /\ disk w' = Some (torn_csv table))))).
Proof.
  intros loaded batch table new_count.
  destruct (run_cases start_year start_month w0)
    as (w2 & _ & _ & Hd & Hw & Hrun).
  fold loaded batch table in Hrun. rewrite Hrun.
  destruct (negb (df_empty (loaded_table w0))
            || valid_start start_year start_month).
  2:{ eexists _, _. split; [reflexivity|]. left. now split. }
  destruct (date_filtered loaded batch) as [|s kept] eqn:E.
  { eexists _, _. split; [reflexivity|]. left. now split. }
  destruct (forallb (fun r => in_timestamp_range (ad_date r)) table) eqn:Er.
  2:{ eexists _, _. split; [reflexivity|]. left. now split. }
  assert (Hs : survivors loaded batch = s :: kept)
    by now rewrite survivors_date_filtered.
  assert (Htable : table
                   = sort_values
                       (drop_duplicates (loaded ++ survivors loaded batch))).
  { unfold table. rewrite merge_unfold, Hs. reflexivity. }
  assert (Hwell :
            s :: kept <> []
            /\ true = true
            /\ table <> []
            /\ unique_periods table
            /\ date_sorted table
            /\ (unique_periods loaded ->
                forall r, In r loaded -> In r table)
            /\ Z.of_nat (List.length table)
               <= Z.of_nat (List.length loaded) + new_count).
  { split; [discriminate|]. split; [reflexivity|]. split.
    { intros Hnil.
      destruct (@merged_periods P loaded (survivors loaded batch) s)
        as (r' & Hr' & _);
        [apply in_or_app; right; rewrite Hs; now left|].
      rewrite <- Htable, Hnil in Hr'. destruct Hr'. }
    split; [rewrite Htable; apply sort_values_unique, drop_duplicates_nodup|].
    split; [rewrite Htable; apply sort_values_sorted|].
    split; [intros Hu r Hr; rewrite Htable; now apply existing_rows_kept|].
    rewrite Htable, sort_values_length.
    pose proof (drop_seen_shorter [] (loaded ++ survivors loaded batch))
      as Hle.
    fold (drop_duplicates (loaded ++ survivors loaded batch)) in Hle.
    rewrite length_app in Hle.
    assert (List.length (survivors loaded batch) = List.length (s :: kept))
      as Hlen by now rewrite Hs.
    unfold new_count. lia. }
  destruct Hwell as (H1 & H2 & H3 & H4 & H5 & H6 & H7).
  destruct (forallb row_encodable table) eqn:Ee.
  - eexists _, _. split; [reflexivity|]. right.
    repeat (split; [assumption|]). left.
    cbn [saved written disk stdout]. rewrite Hw.
    split; [reflexivity|]. split; [reflexivity|].
    split; [reflexivity|]. split; [reflexivity|].
    exists (stdout w2). unfold new_count. reflexivity.
  - eexists _, _. split; [reflexivity|]. right.
    repeat (split; [assumption|]). right.
    cbn [saved written disk]. rewrite Hw. repeat split.
Qed.
End WriteFacts.
(* ================================================================== *)
(** * Further properties of the statistics engine                      *)
(* ================================================================== *)

(** ** The window *)

Lemma tail_suffix (A : Type) (n : Z) (rows : list A) :
  exists older, rows = older ++ tail n rows.
Proof.
  unfold tail. destruct (n =? 0).
  - exists rows. now rewrite app_nil_r.
  - destruct (0 <? n); eexists; symmetry; apply firstn_skipn.
Qed.

Lemma tail_length (A : Type) (n : Z) (rows : list A) :
  Z.of_nat (List.length (tail n rows))
  = if 0 <=? n then Z.min n (Z.of_nat (List.length rows))
    else Z.max 0 (Z.of_nat (List.length rows) + n).
Proof.
  unfold tail.
  destruct (Z.eqb_spec n 0) as [-> | Hne]; [simpl; lia|].
  destruct (Z.ltb_spec 0 n), (Z.leb_spec 0 n); try lia;
    rewrite length_skipn; lia.
Qed.

Lemma tail_all (A : Type) (n : Z) (rows : list A) :
  rows <> [] -> Z.of_nat (List.length rows) <= n -> tail n rows = rows.
Proof.
  intros Hne Hn. unfold tail.
  assert (0 < n) by (destruct rows; [congruence | simpl in Hn; lia]).
  destruct (Z.eqb_spec n 0); [lia|].
  destruct (Z.ltb_spec 0 n); [|lia].
  replace (List.length rows - Z.to_nat n)%nat with 0%nat by lia.
  reflexivity.
Qed.

(** X10. The latest-N selector returns the end of the table, in the
    table's order: the table is some older rows followed by the selected
    ones.  For [n >= 0] it selects [n] rows, or all of them when the table
    is shorter; for a negative [n] it drops the first [-n] rows instead. *)
Theorem latest_n_is_the_end_of_the_table (self : StatsEngine) (n : Z) :
  let window := rows_of (get_latest_n_draws self n) in
  (exists older, rows_of (df self) = older ++ window)
  /\ Z.of_nat (List.length window)
     = if 0 <=? n then Z.min n (df_len (df self))
       else Z.max 0 (df_len (df self) + n).
Proof.
  unfold get_latest_n_draws, df_len, df_empty.
  destruct (df self) as [|rows]; simpl.
  - split; [now exists [] | destruct (Z.leb_spec 0 n); lia].
  - destruct rows as [|r rows].
    + split; [now exists [] | simpl; destruct (Z.leb_spec 0 n); lia].
    + cbn [rows_of]. split; [apply tail_suffix | apply tail_length].
Qed.

Lemma target_covering (self : StatsEngine) (n : Z) :
  df_len (df self) <= n ->
  target self (Some n) = df self
  \/ (df_empty (target self (Some n)) = true /\ df_empty (df self) = true).
Proof.
  intros Hn. unfold target, get_latest_n_draws.
  destruct (df_empty (df self)) eqn:He; [right; now split|].
  left. destruct (df self) as [|rows]; [reflexivity|].
  f_equal. apply tail_all; [|exact Hn].
  intros ->. discriminate.
Qed.

(** X11. A window at least as long as the table is the whole table: every
    query gives, for such a window, what it gives when no window is
    asked for. *)
Theorem window_covering_the_table (self : StatsEngine) (n : Z) :
  df_len (df self) <= n ->
  calculate_frequency self (Some n) = calculate_frequency self None
  /\ calculate_sum_analysis self (Some n) = calculate_sum_analysis self None
  /\ calculate_odd_even_big_small_ratios self (Some n)
     = calculate_odd_even_big_small_ratios self None
  /\ analyze_consecutive_numbers self (Some n)
     = analyze_consecutive_numbers self None
  /\ analyze_last_digits self (Some n) = analyze_last_digits self None.
Proof.
  intros Hn.
  unfold calculate_frequency, calculate_sum_analysis,
    calculate_odd_even_big_small_ratios, analyze_consecutive_numbers,
    analyze_last_digits.
  destruct (target_covering self Hn) as [-> | [He1 He2]].
  - change (target self None) with (df self). repeat split.
  - change (target self None) with (df self). rewrite He1, He2. repeat split.
Qed.

Lemma window_covering_the_table_witness :
  df_len (df scenario_engine) <= 30
  /\ calculate_frequency scenario_engine (Some 30)
     = calculate_frequency scenario_engine None.
Proof.
  assert (Hn : df_len (df scenario_engine) <= 30) by (vm_compute; discriminate).
  split; [exact Hn|].
  exact (proj1 (@window_covering_the_table scenario_engine 30 Hn)).
Defined.

(** ** Totals of the frequency tables *)

Lemma total_count_tabulate (f : Z -> Z) (ks : list Z) :
  total_count (map (fun k => (k, f k)) ks)
  = fold_right (fun k acc => f k + acc) 0 ks.
Proof.
  unfold total_count. induction ks as [|k ks IH]; simpl; [reflexivity|].
  now rewrite IH.
Qed.

Lemma py_range_spec (a b n : Z) : In n (py_range a b) <-> a <= n < b.
Proof.
  split; [|apply py_range_in].
  unfold py_range. intros Hin. apply in_map_iff in Hin as (i & <- & Hi).
  apply in_seq in Hi. lia.
Qed.

Lemma py_range_nodup (a b : Z) : NoDup (py_range a b).
Proof.
  unfold py_range.
  generalize (seq_NoDup (Z.to_nat (b - a)) 0).
  induction 1 as [|i l Hi Hnd IH]; simpl; constructor; [|exact IH].
  intros Hin. apply in_map_iff in Hin as (j & Hj & Hin).
  assert (j = i) by lia. subst j. contradiction.
Qed.

Lemma sum_indicator (x : Z) (ks : list Z) :
  NoDup ks ->
  fold_right (fun k acc => (if Z.eq_dec x k then 1 else 0) + acc) 0 ks
  = if existsb (Z.eqb x) ks then 1 else 0.
Proof.
  induction 1 as [|k ks Hk Hnd IH]; simpl; [reflexivity|].
  rewrite IH. destruct (Z.eq_dec x k) as [-> | Hne].
  - rewrite Z.eqb_refl. simpl.
    destruct (existsb (Z.eqb k) ks) eqn:E; [|reflexivity].
    apply existsb_exists in E as (y & Hy & Heq).
    apply Z.eqb_eq in Heq. subst y. contradiction.
  - destruct (Z.eqb_spec x k); [contradiction|]. reflexivity.
Qed.

Lemma sum_occurrences (xs ks : list Z) :
  NoDup ks ->
  fold_right (fun k acc => occurrences k xs + acc) 0 ks
  = count_if (fun x => existsb (Z.eqb x) ks) xs.
Proof.
  intros Hnd. unfold count_if, occurrences.
  induction xs as [|x xs IH]; simpl.
  - induction ks as [|k ks IHk]; simpl; [reflexivity|].
    inversion Hnd; subst. now rewrite IHk.
  - assert (Hsplit :
        fold_right (fun k acc =>
                      Z.of_nat (if Z.eq_dec x k
                                then S (count_occ Z.eq_dec xs k)
                                else count_occ Z.eq_dec xs k) + acc) 0 ks
        = fold_right (fun k acc =>
                        Z.of_nat (count_occ Z.eq_dec xs k) + acc) 0 ks
          + fold_right (fun k acc =>
                          (if Z.eq_dec x k then 1 else 0) + acc) 0 ks).
    { clear. induction ks as [|k ks IHk]; simpl; [reflexivity|].
      rewrite IHk. destruct (Z.eq_dec x k); lia. }
    rewrite Hsplit, IH, sum_indicator by exact Hnd.
    destruct (existsb (Z.eqb x) ks); simpl; lia.
Qed.

Lemma count_if_ext (p q : Z -> bool) (xs : list Z) :
  (forall x, p x = q x) -> count_if p xs = count_if q xs.
Proof.
  intros Hpq. unfold count_if. now rewrite (filter_ext p q Hpq).
Qed.

Lemma in_py_range_b (a b x : Z) :
  existsb (Z.eqb x) (py_range a b) = (a <=? x) && (x <? b).
Proof.
  destruct (existsb (Z.eqb x) (py_range a b)) eqn:E.
  - apply existsb_exists in E as (y & Hy & Heq).
    apply Z.eqb_eq in Heq. subst y. apply py_range_spec in Hy.
    symmetry. apply andb_true_iff. split; [apply Z.leb_le | apply Z.ltb_lt]; lia.
  - symmetry. apply not_true_iff_false. intros Hr.
    apply andb_true_iff in Hr as [H1 H2].
    apply Z.leb_le in H1. apply Z.ltb_lt in H2.
    apply not_true_iff_false in E. apply E.
    apply existsb_exists. exists x. split; [|apply Z.eqb_refl].
    apply py_range_in. lia.
Qed.

Lemma sum_over_ext (f g : Z -> Z) (ks : list Z) :
  (forall k, f k = g k) ->
  fold_right (fun k acc => f k + acc) 0 ks
  = fold_right (fun k acc => g k + acc) 0 ks.
Proof.
  intros Hfg. induction ks as [|k ks IH]; simpl; [reflexivity|].
  now rewrite IH, Hfg.
Qed.

Lemma table_total (a b : Z) (xs : list Z) :
  total_count (series_update (zero_series a b) (sort_index (value_counts xs)))
  = count_if (fun x => (a <=? x) && (x <? b)) xs.
Proof.
  rewrite series_update_zero.
  rewrite (total_count_tabulate
             (fun k => dict_get (sort_index (value_counts xs)) k 0)).
  rewrite (sum_over_ext _ (fun k => occurrences k xs))
    by (intros k; apply value_counts_get).
  rewrite sum_occurrences by apply py_range_nodup.
  apply count_if_ext, in_py_range_b.
Qed.

Lemma window_numbers_empty (self : StatsEngine) (num_draws : option Z) :
  df_empty (target self num_draws) = true ->
  window_numbers self num_draws = [].
Proof.
  unfold window_numbers, df_empty.
  now destruct (rows_of (target self num_draws)).
Qed.

Lemma calculate_frequency_spec (self : StatsEngine) (num_draws : option Z) :
  calculate_frequency self num_draws
  = Ok (if df_empty (target self num_draws) then []
        else series_update (zero_series 1 40)
               (sort_index (value_counts (window_numbers self num_draws)))).
Proof.
  unfold calculate_frequency, window_numbers.
  destruct (df_empty (target self num_draws)) eqn:He; [reflexivity|].
  now destruct (target self num_draws) as [|rows]; [discriminate|].
Qed.

Lemma analyze_last_digits_spec (self : StatsEngine) (num_draws : option Z) :
  analyze_last_digits self num_draws
  = Ok (if df_empty (target self num_draws) then []
        else series_update (zero_series 0 10)
               (sort_index (value_counts
                  (map (fun n => n mod 10) (window_numbers self num_draws))))).
Proof.
  unfold analyze_last_digits, window_numbers.
  destruct (df_empty (target self num_draws)) eqn:He; [reflexivity|].
  destruct (target self num_draws) as [|rows]; [discriminate|].
  cbn [numbers_list_column bind rows_of].
  now rewrite fold_extend_digits, app_nil_l.
Qed.

Lemma count_if_all (p : Z -> bool) (xs : list Z) :
  Forall (fun x => p x = true) xs -> count_if p xs = Z.of_nat (List.length xs).
Proof.
  intros Hall. unfold count_if. rewrite forallb_filter_id; [reflexivity|].
  apply forallb_forall, Forall_forall, Hall.
Qed.

Lemma last_digits_total (xs : list Z) :
  count_if (fun x => (0 <=? x) && (x <? 10)) (map (fun n => n mod 10) xs)
  = Z.of_nat (List.length xs).
Proof.
  rewrite count_if_all; [now rewrite length_map|].
  apply Forall_forall. intros d Hd.
  apply in_map_iff in Hd as (n & <- & _).
  pose proof (Z.mod_pos_bound n 10 ltac:(lia)).
  apply andb_true_iff. split; [apply Z.leb_le | apply Z.ltb_lt]; lia.
Qed.

(** X12. The counts of the frequency table add up to the number of
    entries of the window's draws that lie in 1..39: an entry outside of
    the range is counted nowhere.  The counts of the last-digit table add
    up to the number of all the entries, whatever integers they are. *)
Theorem frequency_totals (self : StatsEngine) (num_draws : option Z) :
  let drawn := window_numbers self num_draws in
  exists freq digits,
    calculate_frequency self num_draws = Ok freq
    /\ analyze_last_digits self num_draws = Ok digits
    /\ total_count freq = count_if (fun n => (1 <=? n) && (n <? 40)) drawn
    /\ total_count digits = Z.of_nat (List.length drawn).
Proof.
  intros drawn.
  rewrite calculate_frequency_spec, analyze_last_digits_spec.
  eexists _, _. split; [reflexivity|]. split; [reflexivity|].
  destruct (df_empty (target self num_draws)) eqn:He.
  - unfold drawn. rewrite window_numbers_empty by exact He. now split.
  - rewrite !table_total, last_digits_total. now split.
Qed.

Lemma concat_length_five (column : list (list Z)) :
  Forall (fun ns => List.length ns = 5%nat) column ->
  Z.of_nat (List.length (List.concat column))
  = 5 * Z.of_nat (List.length column).
Proof.
  induction 1 as [|ns column Hns _ IH]; simpl; [reflexivity|].
  rewrite length_app. lia.
Qed.

(** X13. When every draw of the window holds five entries, each in 1..39,
    the counts of the frequency table add up to five times the number of
    draws of the window, and so do the counts of the last-digit table. *)
Theorem frequency_counts_five_per_draw (self : StatsEngine)
    (num_draws : option Z) :
  Forall five_in_range (rows_of (target self num_draws)) ->
  exists freq digits,
    calculate_frequency self num_draws = Ok freq
    /\ analyze_last_digits self num_draws = Ok digits
    /\ total_count freq = 5 * df_len (target self num_draws)
    /\ total_count digits = 5 * df_len (target self num_draws).
Proof.
  intros Hrows.
  rewrite calculate_frequency_spec, analyze_last_digits_spec.
  eexists _, _. split; [reflexivity|]. split; [reflexivity|].
  unfold df_len, window_numbers.
  destruct (df_empty (target self num_draws)) eqn:He.
  { unfold df_empty in He.
    destruct (rows_of (target self num_draws)); [now split | discriminate]. }
  rewrite !table_total, last_digits_total.
  assert (Hlen : Z.of_nat (List.length
                   (List.concat (map numbers_list
                                   (rows_of (target self num_draws)))))
                 = 5 * Z.of_nat (List.length
                                   (rows_of (target self num_draws)))).
  { rewrite concat_length_five; [now rewrite length_map|].
    apply Forall_map. eapply Forall_impl; [|exact Hrows].
    now intros r [Hr _]. }
  split; [|exact Hlen].
  rewrite count_if_all; [exact Hlen|].
  apply Forall_concat, Forall_map.
  eapply Forall_impl; [|exact Hrows].
  intros r [_ Hr]. eapply Forall_impl; [|exact Hr].
  intros n Hn. cbv beta in Hn. apply andb_true_iff.
  split; [apply Z.leb_le | apply Z.ltb_lt]; lia.
Qed.

Lemma frequency_counts_five_per_draw_witness :
  Forall five_in_range (rows_of (target scenario_engine (Some 2)))
  /\ exists freq digits,
       calculate_frequency scenario_engine (Some 2) = Ok freq
       /\ analyze_last_digits scenario_engine (Some 2) = Ok digits
       /\ total_count freq = 5 * df_len (target scenario_engine (Some 2))
       /\ total_count digits = 5 * df_len (target scenario_engine (Some 2)).
Proof.
  assert (H : Forall five_in_range
                (rows_of (target scenario_engine (Some 2)))).
  { simpl. unfold five_in_range. repeat constructor; simpl; lia. }
  split; [exact H|].
  exact (@frequency_counts_five_per_draw scenario_engine (Some 2) H).
Defined.

(** ** Sum analysis *)

Lemma fold_min_spec (rest : list Z) :
  forall x,
    In (fold_left Z.min rest x) (x :: rest)
    /\ forall s, In s (x :: rest) -> fold_left Z.min rest x <= s.
Proof.
  induction rest as [|y rest IH]; intros x; simpl.
  - split; [now left | intros s [<- | []]; lia].
  - destruct (IH (Z.min x y)) as [Hin Hle]. split.
    + destruct Hin as [Heq | Hin]; [|right; right; exact Hin].
      rewrite <- Heq. destruct (Z.min_spec x y) as [[_ ->] | [_ ->]]; auto.
    + pose proof (Hle (Z.min x y) (or_introl eq_refl)) as H0.
      intros s [<- | [<- | Hs]]; [lia | lia | apply Hle; now right].
Qed.

Lemma fold_max_spec (rest : list Z) :
  forall x,
    In (fold_left Z.max rest x) (x :: rest)
    /\ forall s, In s (x :: rest) -> s <= fold_left Z.max rest x.
Proof.
  induction rest as [|y rest IH]; intros x; simpl.
  - split; [now left | intros s [<- | []]; lia].
  - destruct (IH (Z.max x y)) as [Hin Hle]. split.
    + destruct Hin as [Heq | Hin]; [|right; right; exact Hin].
      rewrite <- Heq. destruct (Z.max_spec x y) as [[_ ->] | [_ ->]]; auto.
    + pose proof (Hle (Z.max x y) (or_introl eq_refl)) as H0.
      intros s [<- | [<- | Hs]]; [lia | lia | apply Hle; now right].
Qed.

Lemma series_min_max_spec (xs : list Z) :
  xs <> [] ->
  In (series_min xs) xs /\ In (series_max xs) xs
  /\ forall s, In s xs -> series_min xs <= s <= series_max xs.
Proof.
  destruct xs as [|x rest]; [congruence|]. intros _.
  unfold series_min, series_max.
  destruct (fold_min_spec rest x) as [Hmin Hlo].
  destruct (fold_max_spec rest x) as [Hmax Hhi].
  split; [exact Hmin|]. split; [exact Hmax|].
  intros s Hs. split; [now apply Hlo | now apply Hhi].
Qed.

Lemma py_sum_from (xs : list Z) :
  forall a, fold_left Z.add xs a = a + py_sum xs.
Proof.
  unfold py_sum. induction xs as [|x xs IH]; intros a; simpl; [lia|].
  rewrite IH, (IH x). lia.
Qed.

Lemma py_sum_bounds (xs : list Z) (lo hi : Z) :
  (forall s, In s xs -> lo <= s <= hi) ->
  lo * Z.of_nat (List.length xs) <= py_sum xs
  <= hi * Z.of_nat (List.length xs).
Proof.
  induction xs as [|x xs IH]; intros Hb.
  - unfold py_sum. simpl. lia.
  - unfold py_sum. cbn [fold_left]. rewrite py_sum_from.
    specialize (IH (fun s Hs => Hb s (or_intror Hs))).
    pose proof (Hb x (or_introl eq_refl)).
    cbn [List.length]. lia.
Qed.

Lemma between_div (lo hi total count : Z) :
  0 < count ->
  lo * count <= total <= hi * count ->
  (inject_Z lo <= Q_of_Z total / Q_of_Z count <= inject_Z hi)%Q.
Proof.
  intros Hpos [Hlo Hhi]. unfold Q_of_Z.
  assert (0 < inject_Z count)%Q as Hc
    by (change 0%Q with (inject_Z 0); rewrite <- Zlt_Qlt; exact Hpos).
  split.
  - apply Qle_shift_div_l; [exact Hc|].
    rewrite <- inject_Z_mult, <- Zle_Qle. exact Hlo.
  - apply Qle_shift_div_r; [exact Hc|].
    rewrite <- inject_Z_mult, <- Zle_Qle. exact Hhi.
Qed.

Lemma series_mean_bounds (xs : list Z) (lo hi : Z) :
  xs <> [] ->
  (forall s, In s xs -> lo <= s <= hi) ->
  (inject_Z lo <= series_mean xs <= inject_Z hi)%Q.
Proof.
  intros Hne Hb. unfold series_mean. apply between_div.
  - destruct xs; [congruence | simpl; lia].
  - now apply py_sum_bounds.
Qed.

Lemma series_median_bounds (xs : list Z) (lo hi : Z) :
  xs <> [] ->
  (forall s, In s xs -> lo <= s <= hi) ->
  (inject_Z lo <= series_median xs <= inject_Z hi)%Q.
Proof.
  intros Hne Hb. unfold series_median.
  set (ordered := sorted xs).
  assert (Hlen : (0 < List.length ordered)%nat).
  { unfold ordered. rewrite (Permutation_length (sorted_perm xs)).
    destruct xs; [congruence | simpl; lia]. }
  assert (Hnth : forall i, (i < List.length ordered)%nat ->
                           lo <= nth i ordered 0 <= hi).
  { intros i Hi. apply Hb.
    apply (Permutation_in _ (sorted_perm xs)). now apply nth_In. }
  assert (Hhalf : (List.length ordered / 2 < List.length ordered)%nat)
    by (apply Nat.div_lt; lia).
  pose proof (Hnth _ Hhalf) as Hupper.
  destruct (Nat.even (List.length ordered)).
  - assert (Hlower : lo <= nth (List.length ordered / 2 - 1) ordered 0 <= hi)
      by (apply Hnth; lia).
    change (Q_of_Z ?a + Q_of_Z ?b)%Q with (inject_Z a + inject_Z b)%Q.
    rewrite <- inject_Z_plus.
    apply (@between_div lo hi _ 2); lia.
  - unfold Q_of_Z. rewrite <- !Zle_Qle. exact Hupper.
Qed.

Lemma square_nonneg (q : Q) : (0 <= q * q)%Q.
Proof. destruct q as [n d]. unfold Qle, Qmult. simpl. nia. Qed.

Lemma squares_nonneg (m : Q) (xs : list Z) :
  forall acc : Q,
    (0 <= acc)%Q ->
    (0 <= fold_left (fun acc x => acc + (Q_of_Z x - m) * (Q_of_Z x - m)) xs
            acc)%Q.
Proof.
  induction xs as [|x xs IH]; intros acc Hacc; simpl; [exact Hacc|].
  apply IH.
  rewrite <- (Qplus_0_r 0). apply Qplus_le_compat; [exact Hacc|].
  apply square_nonneg.
Qed.

Lemma series_std_cases (xs : list Z) :
  match xs with
  | [] | [_] => series_std xs = VNaN
  | _ => exists v, series_std xs = VSqrt v /\ (0 <= v)%Q
  end.
Proof.
  destruct xs as [|x [|y rest]]; try reflexivity.
  unfold series_std. eexists. split; [reflexivity|].
  apply Qle_shift_div_l.
  - unfold Q_of_Z. change 0%Q with (inject_Z 0). rewrite <- Zlt_Qlt.
    cbn [List.length]. lia.
  - rewrite Qmult_0_l. apply squares_nonneg. unfold Q_of_Z. apply Qle_refl.
Qed.

(** X14. On a window that holds at least one draw, sum analysis returns
    one sum per draw, in the order of the draws.  The minimum and the
    maximum are sums of the window and bound all of them, and the mean and
    the median lie between the two.  The standard deviation is [NaN] for a
    window of a single draw, and the square root of a value that is not
    negative otherwise. *)
Theorem sum_analysis_of_window (self : StatsEngine) (num_draws : option Z) :
  df_empty (target self num_draws) = false ->
  let rows := rows_of (target self num_draws) in
  let sums := map (fun r => py_sum (numbers_list r)) rows in
  exists mean median std lo hi,
    calculate_sum_analysis self num_draws
    = Ok [("sums", VInts sums); ("mean_sum", VNum mean);
          ("median_sum", VNum median); ("std_dev_sum", std);
          ("min_sum", VInt lo); ("max_sum", VInt hi)]
    /\ In lo sums /\ In hi sums
    /\ (forall s, In s sums -> lo <= s <= hi)
    /\ (inject_Z lo <= mean <= inject_Z hi)%Q
    /\ (inject_Z lo <= median <= inject_Z hi)%Q
    /\ match rows with
       | [_] => std = VNaN
       | _ => exists v, std = VSqrt v /\ (0 <= v)%Q
       end.
Proof.
  intros He rows sums. unfold calculate_sum_analysis. rewrite He.
  assert (Hcol : numbers_list_column (target self num_draws)
                 = Ok (map numbers_list rows)).
  { unfold rows. destruct (target self num_draws); [discriminate|reflexivity]. }
  rewrite Hcol. cbn [bind]. rewrite map_map. fold sums.
  assert (Hne : sums <> []).
  { unfold sums, rows, df_empty in *.
    destruct (rows_of (target self num_draws)); [discriminate|].
    discriminate. }
  destruct (series_min_max_spec Hne) as (Hmin & Hmax & Hb).
  eexists _, _, _, _, _. split; [reflexivity|].
  split; [exact Hmin|]. split; [exact Hmax|]. split; [exact Hb|].
  split; [now apply series_mean_bounds|].
  split; [now apply series_median_bounds|].
  pose proof (series_std_cases sums) as Hstd. unfold sums in *.
  destruct rows as [|r [|r' rest]];
    [now simpl in Hne | exact Hstd | exact Hstd].
Qed.

Lemma sum_analysis_of_window_witness :
  df_empty (target scenario_engine (Some 2)) = false
  /\ let rows := rows_of (target scenario_engine (Some 2)) in
     let sums := map (fun r => py_sum (numbers_list r)) rows in
     exists mean median std lo hi,
       calculate_sum_analysis scenario_engine (Some 2)
       = Ok [("sums", VInts sums); ("mean_sum", VNum mean);
             ("median_sum", VNum median); ("std_dev_sum", std);
             ("min_sum", VInt lo); ("max_sum", VInt hi)]
       /\ In lo sums /\ In hi sums
       /\ (forall s, In s sums -> lo <= s <= hi)
       /\ (inject_Z lo <= mean <= inject_Z hi)%Q
       /\ (inject_Z lo <= median <= inject_Z hi)%Q
       /\ match rows with
          | [_] => std = VNaN
          | _ => exists v, std = VSqrt v /\ (0 <= v)%Q
          end.
Proof.
  split; [reflexivity|].
  exact (@sum_analysis_of_window scenario_engine (Some 2) eq_refl).
Defined.

(** ** The ratio distributions *)

Lemma total_count_bump (d : dict string Z) (l : string) :
  total_count (bump d l) = total_count d + 1.
Proof.
  unfold bump, total_count, dict_get.
  induction d as [|[k v] d IH]; simpl; [lia|].
  destruct (String.eqb l k); simpl; [lia|].
  rewrite IH. lia.
Qed.

Lemma total_count_fold_bump (ls : list string) :
  forall d, total_count (fold_left bump ls d)
            = total_count d + Z.of_nat (List.length ls).
Proof.
  induction ls as [|l ls IH]; intros d; simpl; [lia|].
  rewrite IH, total_count_bump. lia.
Qed.

Lemma total_count_perm (K : Type) (d d' : dict K Z) :
  Permutation d d' -> total_count d = total_count d'.
Proof.
  unfold total_count. induction 1; simpl; lia.
Qed.

Lemma fold_ratio_step (rows : list stats_row) :
  forall st,
    fold_left ratio_step rows st
    = {| odd_even_ratios := odd_even_ratios st ++ map odd_even_ratio rows;
         big_small_ratios := big_small_ratios st ++ map big_small_ratio rows;
         odd_even_counts :=
           fold_left bump (map odd_even_label rows) (odd_even_counts st);
         big_small_counts :=
           fold_left bump (map big_small_label rows) (big_small_counts st) |}.
Proof.
  induction rows as [|r rows IH]; intros st; cbn [fold_left map].
  - destruct st as [oe bs oec bsc]. cbn [odd_even_ratios big_small_ratios odd_even_counts
      big_small_counts]. now rewrite !app_nil_r.
  - rewrite IH. unfold ratio_step, odd_even_ratio, big_small_ratio,
      odd_even_label, big_small_label.
    cbn [odd_even_ratios big_small_ratios odd_even_counts big_small_counts].
    rewrite <- !app_assoc. reflexivity.
Qed.

Lemma counted_labels (labels : list string) :
  let counts := sorted_items (fold_left bump labels []) in
  (forall l, dict_get counts l 0 = pattern_occurrences l labels)
  /\ sorted_by_label counts
  /\ total_count counts = Z.of_nat (List.length labels)
  /\ NoDup (dict_keys counts).
Proof.
  intros counts.
  assert (Hnd : NoDup (dict_keys (fold_left bump labels [])))
    by (apply fold_bump_nodup; constructor).
  split; [|split; [|split]].
  - intros l. unfold counts. rewrite sorted_items_get by exact Hnd.
    now rewrite fold_bump_get.
  - now apply sorted_items_by_label.
  - unfold counts. rewrite (total_count_perm (sorted_items_perm _)).
    now rewrite total_count_fold_bump.
  - eapply Permutation_NoDup; [|exact Hnd].
    apply Permutation_map, Permutation_sym, sorted_items_perm.
Qed.

Lemma ratios_spec (self : StatsEngine) (num_draws : option Z) :
  df_empty (target self num_draws) = false ->
  let rows := rows_of (target self num_draws) in
  calculate_odd_even_big_small_ratios self num_draws
  = Ok [("odd_even_ratios", VStrs (map odd_even_ratio rows));
        ("big_small_ratios", VStrs (map big_small_ratio rows));
        ("odd_even_distribution",
          VCounts (sorted_items
                     (fold_left bump (map odd_even_label rows) [])));
        ("big_small_distribution",
          VCounts (sorted_items
                     (fold_left bump (map big_small_label rows) [])))].
Proof.
  intros He rows. unfold calculate_odd_even_big_small_ratios.
  rewrite He. fold rows. rewrite fold_ratio_step. reflexivity.
Qed.

(** X15. On a window that holds at least one draw, the ratio query
    returns one ratio string per draw, in the order of the draws, and two
    distributions that count the draws: the count under a label is the
    number of draws of the window with that label, the labels are in
    ascending order, and the counts of either distribution add up to the
    number of draws. *)
Theorem ratio_distributions_count_draws (self : StatsEngine)
    (num_draws : option Z) :
  df_empty (target self num_draws) = false ->
  let rows := rows_of (target self num_draws) in
  exists odd_even big_small,
    calculate_odd_even_big_small_ratios self num_draws
    = Ok [("odd_even_ratios", VStrs (map odd_even_ratio rows));
          ("big_small_ratios", VStrs (map big_small_ratio rows));
          ("odd_even_distribution", VCounts odd_even);
          ("big_small_distribution", VCounts big_small)]
    /\ (forall l, dict_get odd_even l 0
                  = pattern_occurrences l (map odd_even_label rows))
    /\ (forall l, dict_get big_small l 0
                  = pattern_occurrences l (map big_small_label rows))
    /\ sorted_by_label odd_even
    /\ sorted_by_label big_small
    /\ total_count odd_even = df_len (target self num_draws)
    /\ total_count big_small = df_len (target self num_draws).
Proof.
  intros He rows. rewrite ratios_spec by exact He. fold rows.
  destruct (counted_labels (map odd_even_label rows))
    as (Hoe & Hoes & Hoet & _).
  destruct (counted_labels (map big_small_label rows))
    as (Hbs & Hbss & Hbst & _).
  rewrite length_map in Hoet, Hbst.
  eexists _, _. split; [reflexivity|]. unfold df_len. fold rows.
  repeat split; assumption.
Qed.

Lemma ratio_distributions_count_draws_witness :
  df_empty (target scenario_engine None) = false
  /\ let rows := rows_of (target scenario_engine None) in
     exists odd_even big_small,
       calculate_odd_even_big_small_ratios scenario_engine None
       = Ok [("odd_even_ratios", VStrs (map odd_even_ratio rows));
             ("big_small_ratios", VStrs (map big_small_ratio rows));
             ("odd_even_distribution", VCounts odd_even);
             ("big_small_distribution", VCounts big_small)]
       /\ (forall l, dict_get odd_even l 0
                     = pattern_occurrences l (map odd_even_label rows))
       /\ (forall l, dict_get big_small l 0
                     = pattern_occurrences l (map big_small_label rows))
       /\ sorted_by_label odd_even
       /\ sorted_by_label big_small
       /\ total_count odd_even = df_len (target scenario_engine None)
       /\ total_count big_small = df_len (target scenario_engine None).
Proof.
  split; [reflexivity|].
  exact (@ratio_distributions_count_draws scenario_engine None eq_refl).
Defined.

(** ** Loading the table into the engine *)

Lemma stats_date_leb_total (a b : stats_row) :
  stats_date_leb a b = false -> stats_date_leb b a = true.
Proof. unfold stats_date_leb. apply ad_date_leb_total. Qed.

Lemma with_numbers_list_written (rows : list row) :
  Forall (fun r => exists ns, written_numbers r ns) rows ->
  exists table,
    with_numbers_list rows = Ok table
    /\ map persisted table = rows
    /\ Forall (fun s => written_numbers (persisted s) (numbers_list s)) table.
Proof.
  induction 1 as [|r rows (ns & Hlen & Hnum) _ (table & Ht & Hp & Hw)].
  - exists []. repeat split. constructor.
  - exists ({| persisted := r; numbers_list := ns |} :: table).
    simpl. rewrite Hnum, parse_numbers_join_all, Ht.
    + simpl. split; [reflexivity|]. split; [now rewrite Hp|].
      constructor; [now split | exact Hw].
    + intros ->. simpl in Hlen. lia.
Qed.

(** X16. The engine loads every table that the normalizer wrote.  When
    the [numbers] field of every row of the file is a list of at least
    two integers in the normalizer's format, the engine is constructed,
    its table holds the rows of the file in ascending order of date, and
    the [numbers_list] of each row is the list of integers that was
    written. *)
Theorem loading_a_written_table (P : Pandas) (rows : list row) :
  Forall (fun r => exists ns, written_numbers r ns) rows ->
  exists table,
    StatsEngine_init (Some rows) = Ok {| df := Frame table |}
    /\ Permutation (map persisted table) rows
    /\ Sorted (le_of stats_date_leb) table
    /\ Forall (fun s => written_numbers (persisted s) (numbers_list s)) table.
Proof.
  intros Hrows.
  destruct (with_numbers_list_written Hrows) as (loaded & Hl & Hp & Hw).
  exists (sort_stats_values loaded).
  unfold StatsEngine_init, _load_data. rewrite Hl. cbn [bind].
  split; [reflexivity|]. split; [|split].
  - rewrite <- Hp. apply Permutation_map, sort_by_date_perm.
  - apply sort_by_date_sorted.
  - apply Forall_forall. intros s Hs.
    apply (Permutation_in s (sort_by_date_perm _ loaded)) in Hs.
    revert s Hs. now apply Forall_forall.
Qed.

Lemma loading_a_written_table_witness :
  Forall (fun r => exists ns, written_numbers r ns)
    [row_jan_04; row_jan_02]
  /\ exists table,
       StatsEngine_init (P := stable_pandas) (Some [row_jan_04; row_jan_02])
       = Ok {| df := Frame table |}
       /\ Permutation (map persisted table) [row_jan_04; row_jan_02]
       /\ Sorted (le_of stats_date_leb) table
       /\ Forall (fun s => written_numbers (persisted s) (numbers_list s))
            table.
Proof.
  assert (H : Forall (fun r => exists ns, written_numbers r ns)
                [row_jan_04; row_jan_02]).
  { constructor; [exists [2; 4; 6; 8; 10] | constructor;
                  [exists [1; 2; 3; 4; 5] | constructor]];
      (split; [simpl; lia | reflexivity]). }
  split; [exact H|].
  exact (@loading_a_written_table stable_pandas [row_jan_04; row_jan_02] H).
Defined.
(* ================================================================== *)
(** * Properties of the AI layer                                       *)
(* ================================================================== *)

(** ** Hot and cold numbers, most common labels *)

Lemma count_leb_total (a b : Z * Z) :
  count_leb a b = false -> count_leb b a = true.
Proof.
  unfold count_leb. intros H. apply Z.leb_gt in H. apply Z.leb_le. lia.
Qed.

Lemma count_geb_total (a b : Z * Z) :
  count_geb a b = false -> count_geb b a = true.
Proof.
  unfold count_geb. intros H. apply Z.leb_gt in H. apply Z.leb_le. lia.
Qed.

Lemma sorted_parts (A : Type) (leb : A -> A -> bool) (l : list A) :
  (forall a b c, leb a b = true -> leb b c = true -> leb a c = true) ->
  Sorted (le_of leb) l ->
  forall n a b, In a (firstn n l) -> In b (skipn n l) -> leb a b = true.
Proof.
  intros Htrans Hs.
  apply Sorted_StronglySorted in Hs; [|intros a b c; apply Htrans].
  induction Hs as [|x l Hs IH Hx]; intros n a b Ha Hb.
  - rewrite firstn_nil in Ha. destruct Ha.
  - destruct n as [|n]; simpl in Ha, Hb; [destruct Ha|].
    destruct Ha as [<- | Ha]; [|now apply (IH n)].
    rewrite Forall_forall in Hx. apply Hx.
    rewrite <- (firstn_skipn n l). apply in_or_app. now right.
Qed.

Lemma ranked_keys (f : Z -> Z) (ks : list Z) (item : Z * Z) :
  In item (sorted_by_count (map (fun k => (k, f k)) ks)) ->
  In (fst item) ks.
Proof.
  unfold sorted_by_count. intros Hin. apply sort_by_in in Hin.
  apply in_map_iff in Hin as (k & <- & Hk). exact Hk.
Qed.

Lemma ranked_by_count (f : Z -> Z) (ks : list Z) (n : nat) :
  let ranked := sorted_by_count (map (fun k => (k, f k)) ks) in
  (forall c k, In c (map fst (firstn n ranked)) -> In k ks ->
               ~ In k (map fst (firstn n ranked)) -> f c <= f k)
  /\ (forall h k, In h (map fst (skipn n ranked)) -> In k ks ->
                  ~ In k (map fst (skipn n ranked)) -> f k <= f h).
Proof.
  intros ranked.
  assert (Hs : Sorted (le_of count_leb) ranked)
    by apply sort_by_sorted, count_leb_total.
  assert (Htrans : forall a b c : Z * Z,
             count_leb a b = true -> count_leb b c = true ->
             count_leb a c = true).
  { unfold count_leb. intros a b c H1 H2.
    apply Z.leb_le in H1, H2. apply Z.leb_le. lia. }
  assert (Hform : forall item, In item ranked -> item = (fst item, f (fst item))).
  { intros item Hi. apply sort_by_in in Hi.
    apply in_map_iff in Hi as (k & <- & _). reflexivity. }
  assert (Hall : forall k, In k ks ->
             In (k, f k) (firstn n ranked) \/ In (k, f k) (skipn n ranked)).
  { intros k Hk. apply in_app_or. rewrite firstn_skipn.
    apply sort_by_in, in_map_iff. now exists k. }
  assert (Hfirst : forall item, In item (firstn n ranked) -> In item ranked).
  { intros item Hi. rewrite <- (firstn_skipn n ranked).
    apply in_or_app. now left. }
  assert (Hskip : forall item, In item (skipn n ranked) -> In item ranked).
  { intros item Hi. rewrite <- (firstn_skipn n ranked).
    apply in_or_app. now right. }
  split.
  - intros c k Hc Hk Hnot.
    apply in_map_iff in Hc as (item & <- & Hitem).
    destruct (Hall k Hk) as [Hin | Hin].
    + exfalso. apply Hnot. apply in_map_iff. now exists (k, f k).
    + pose proof (sorted_parts Htrans Hs n _ _ Hitem Hin) as Hle.
      rewrite (Hform item (Hfirst _ Hitem)) in Hle.
      unfold count_leb in Hle. simpl in Hle. now apply Z.leb_le.
  - intros h k Hh Hk Hnot.
    apply in_map_iff in Hh as (item & <- & Hitem).
    destruct (Hall k Hk) as [Hin | Hin].
    + pose proof (sorted_parts Htrans Hs n _ _ Hin Hitem) as Hle.
      rewrite (Hform item (Hskip _ Hitem)) in Hle.
      unfold count_leb in Hle. simpl in Hle. now apply Z.leb_le.
    + exfalso. apply Hnot. apply in_map_iff. now exists (k, f k).
Qed.

Lemma max_key_from_spec (d : dict string Z) :
  forall best,
    exists v,
      In (max_key_from best d, v) (best :: d)
      /\ forall kv, In kv (best :: d) -> snd kv <= v.
Proof.
  induction d as [|kv d IH]; intros [k0 v0]; simpl.
  - exists v0. split; [now left | intros kv [<- | []]; simpl; lia].
  - destruct (Z.ltb_spec v0 (snd kv)) as [Hlt | Hge].
    + destruct (IH kv) as (v & Hin & Hmax). exists v. split; [now right|].
      pose proof (Hmax kv (or_introl eq_refl)).
      intros x [<- | Hx]; [simpl; lia | now apply Hmax].
    + destruct (IH (k0, v0)) as (v & Hin & Hmax). exists v. split.
      * destruct Hin as [Hin | Hin]; [now left | now right; right].
      * pose proof (Hmax (k0, v0) (or_introl eq_refl)) as H0. simpl in H0.
        intros x [<- | [<- | Hx]];
          [simpl; lia | lia | apply Hmax; now right].
Qed.

Lemma dict_find_in (d : dict string Z) (k : string) (v : Z) :
  NoDup (dict_keys d) -> In (k, v) d -> dict_find d k = Some v.
Proof.
  induction d as [|[k0 v0] d IH]; simpl; [easy|].
  intros Hnd [[= -> ->] | Hin].
  - now rewrite String.eqb_refl.
  - inversion Hnd as [|? ? Hk0 Hnd']; subst.
    destruct (String.eqb_spec k k0) as [-> | Hne].
    + exfalso. apply Hk0. apply in_map_iff. now exists (k0, v).
    + now apply IH.
Qed.

Lemma dict_find_some_in (d : dict string Z) (k : string) (v : Z) :
  dict_find d k = Some v -> In (k, v) d.
Proof.
  induction d as [|[k0 v0] d IH]; simpl; [discriminate|].
  destruct (String.eqb_spec k k0) as [-> | Hne].
  - intros [= ->]. now left.
  - intros H. right. now apply IH.
Qed.

Lemma most_common_label (labels : list string) :
  labels <> [] ->
  exists common,
    max_key (sorted_items (fold_left bump labels [])) = Ok common
    /\ forall l, pattern_occurrences l labels
                 <= pattern_occurrences common labels.
Proof.
  intros Hne.
  destruct (counted_labels labels) as (Hget & _ & Htotal & Hnd).
  set (counts := sorted_items (fold_left bump labels [])) in *.
  destruct counts as [|best d] eqn:E.
  { exfalso. unfold total_count in Htotal. simpl in Htotal.
    destruct labels; [congruence | simpl in Htotal; lia]. }
  destruct (max_key_from_spec d best) as (v & Hin & Hmax).
  exists (max_key_from best d). split; [reflexivity|].
  assert (Hv : pattern_occurrences (max_key_from best d) labels = v).
  { rewrite <- Hget. unfold dict_get.
    now rewrite (@dict_find_in _ _ _ Hnd Hin). }
  intros l. rewrite Hv, <- (Hget l). unfold dict_get.
  destruct (dict_find (best :: d) l) as [v'|] eqn:El.
  - apply dict_find_some_in in El. apply (Hmax _ El).
  - rewrite <- Hv. unfold pattern_occurrences. lia.
Qed.

(** ** The prompt *)

Lemma sum_analysis_spec (self : StatsEngine) (num_draws : option Z) :
  df_empty (target self num_draws) = false ->
  let sums := map py_sum
                (map numbers_list (rows_of (target self num_draws))) in
  calculate_sum_analysis self num_draws
  = Ok [("sums", VInts sums);
        ("mean_sum", VNum (series_mean sums));
        ("median_sum", VNum (series_median sums));
        ("std_dev_sum", series_std sums);
        ("min_sum", VInt (series_min sums));
        ("max_sum", VInt (series_max sums))].
Proof.
  intros He. unfold calculate_sum_analysis. rewrite He.
  now destruct (target self num_draws); [discriminate|].
Qed.

Lemma consecutive_spec (self : StatsEngine) (num_draws : option Z) :
  df_empty (target self num_draws) = false ->
  let rows := rows_of (target self num_draws) in
  let tally := Z.of_nat (List.length (filter has_consecutive rows)) in
  analyze_consecutive_numbers self num_draws
  = Ok [("consecutive_patterns",
          VCounts (sorted_items (fold_left bump (window_patterns rows) [])));
        ("total_draws_with_consecutive", VInt tally);
        ("percentage_with_consecutive",
          VNum (Q_of_Z tally / Q_of_Z (df_len (target self num_draws))
                * Q_of_Z 100)%Q)].
Proof.
  intros He rows tally. unfold analyze_consecutive_numbers. rewrite He.
  fold rows. rewrite fold_consecutive_step. cbn [fst snd].
  rewrite Z.add_0_l. fold tally.
  assert (Hpos : (0 <? df_len (target self num_draws)) = true).
  { apply Z.ltb_lt. unfold df_len, df_empty in *.
    destruct (rows_of (target self num_draws)); [discriminate | simpl; lia]. }
  now rewrite Hpos.
Qed.

Lemma py_range_length (a b : Z) :
  List.length (py_range a b) = Z.to_nat (b - a).
Proof. unfold py_range. now rewrite length_map, length_seq. Qed.

Section AILayerFacts.
Variable Model : Type.
Variable Chat : Type.
Variable genai_configure : string -> result Model.
Variable start_chat : Model -> result Chat.
Variable send_message : Chat -> string -> result string * Chat.
Variable getenv : option string.
Variable format_2f : Q -> string.
Variable str_float : Q -> string.
Variable exn_text : exn -> string.

Lemma prompt_on_empty_table (self : AILayer Model Chat) (num_draws : Z) :
  df_empty (df (stats_engine self)) = true ->
  _generate_analysis_prompt format_2f str_float self num_draws
  = Ok no_data_message.
Proof.
  intros He. unfold _generate_analysis_prompt. now rewrite He.
Qed.

Lemma prompt_on_empty_window (self : AILayer Model Chat) (num_draws : Z) :
  df_empty (df (stats_engine self)) = false ->
  df_empty (get_latest_n_draws (stats_engine self) num_draws) = true ->
  _generate_analysis_prompt format_2f str_float self num_draws
  = Raise KeyError.
Proof.
  intros He Hw. unfold _generate_analysis_prompt. rewrite He.
  unfold calculate_frequency, calculate_sum_analysis,
    calculate_odd_even_big_small_ratios, analyze_consecutive_numbers,
    analyze_last_digits, target.
  rewrite Hw. reflexivity.
Qed.

Lemma prompt_on_window (self : AILayer Model Chat) (num_draws : Z) :
  df_empty (get_latest_n_draws (stats_engine self) num_draws) = false ->
  let engine := stats_engine self in
  let window := rows_of (get_latest_n_draws engine num_draws) in
  let drawn := window_numbers engine (Some num_draws) in
  exists hot cold mean lo hi odd_even big_small total percentage digits,
    _generate_analysis_prompt format_2f str_float self num_draws
    = Ok (prompt_text num_draws (map format_02d hot) (map format_02d cold)
            mean lo hi odd_even big_small total percentage digits)
    /\ List.length hot = 5%nat
    /\ List.length cold = 5%nat
    /\ (forall k, In k (hot ++ cold) -> 1 <= k <= 39)
    /\ (forall h k, In h hot -> 1 <= k <= 39 -> ~ In k hot ->
          occurrences k drawn <= occurrences h drawn)
    /\ (forall c k, In c cold -> 1 <= k <= 39 -> ~ In k cold ->
          occurrences c drawn <= occurrences k drawn)
    /\ (forall l, pattern_occurrences l (map odd_even_label window)
                  <= pattern_occurrences odd_even
                       (map odd_even_label window))
    /\ (forall l, pattern_occurrences l (map big_small_label window)
                  <= pattern_occurrences big_small
                       (map big_small_label window)).
Proof.
  intros Hw engine. fold engine in Hw. intros window drawn.
  assert (He : df_empty (df engine) = false).
  { unfold get_latest_n_draws in Hw.
    destruct (df_empty (df engine)); [discriminate | reflexivity]. }
  assert (Ht : df_empty (target engine (Some num_draws)) = false) by exact Hw.
  assert (Hwin : window <> []).
  { unfold window. unfold df_empty in Hw.
    destruct (rows_of (get_latest_n_draws engine num_draws));
      [discriminate Hw | discriminate]. }
  destruct (most_common_label (labels := map odd_even_label window))
    as (common_oe & Hoe & Hoe_max).
  { destruct window; [congruence | discriminate]. }
  destruct (most_common_label (labels := map big_small_label window))
    as (common_bs & Hbs & Hbs_max).
  { destruct window; [congruence | discriminate]. }
  unfold _generate_analysis_prompt. fold engine. rewrite He.
  rewrite calculate_frequency_spec, analyze_last_digits_spec.
  rewrite (sum_analysis_spec engine (Some num_draws) Ht).
  rewrite (ratios_spec engine (Some num_draws) Ht).
  rewrite (consecutive_spec engine (Some num_draws) Ht).
  rewrite Ht. cbn [bind].
  change (rows_of (target engine (Some num_draws))) with window.
  change (window_numbers engine (Some num_draws)) with drawn.
  rewrite series_update_zero.
  set (f := fun k => dict_get (sort_index (value_counts drawn)) k 0).
  set (ranked := sorted_by_count (map (fun k => (k, f k)) (py_range 1 40))).
  match goal with
  | |- context [dict_item ?d "odd_even_distribution"] =>
      change (dict_item d "odd_even_distribution")
        with (Ok (VCounts (sorted_items
                    (fold_left bump (map odd_even_label window) []))));
      change (dict_item d "big_small_distribution")
        with (Ok (VCounts (sorted_items
                    (fold_left bump (map big_small_label window) []))))
  end.
  cbn [bind counts_of]. rewrite Hoe, Hbs. cbn [bind].
  match goal with
  | |- context [dict_item ?d "mean_sum"] =>
      match d with
      | [_; (_, ?mean); _; _; (_, ?lo); (_, ?hi)] =>
          change (dict_item d "mean_sum") with (Ok mean);
          change (dict_item d "min_sum") with (Ok lo);
          change (dict_item d "max_sum") with (Ok hi)
      end
  end.
  match goal with
  | |- context [dict_item ?d "total_draws_with_consecutive"] =>
      match d with
      | [_; (_, ?total); (_, ?pct)] =>
          change (dict_item d "total_draws_with_consecutive") with (Ok total);
          change (dict_item d "percentage_with_consecutive") with (Ok pct)
      end
  end.
  cbn [bind format_2f_value str_value].
  exists (map fst (last_n 5 ranked)), (map fst (firstn 5 ranked)).
  eexists _, _, _, common_oe, common_bs, _, _, _.
  split; [now rewrite !map_map|].
  assert (Hlen : List.length ranked = 39%nat).
  { unfold ranked, sorted_by_count.
    now rewrite sort_by_length, length_map, py_range_length. }
  destruct (ranked_by_count f (py_range 1 40) 5) as [Hcold _].
  destruct (ranked_by_count f (py_range 1 40) 34) as [_ Hhot].
  fold ranked in Hcold, Hhot.
  assert (Hf : forall k, f k = occurrences k drawn)
    by (intros k; apply value_counts_get).
  unfold last_n. rewrite Hlen.
  change (39 - 5)%nat with 34%nat.
  split; [rewrite length_map, length_skipn, Hlen; reflexivity|].
  split; [rewrite length_map, length_firstn, Hlen; reflexivity|].
  split.
  { assert (Hkeys : forall item, In item ranked -> 1 <= fst item <= 39).
    { intros item Hin. unfold ranked in Hin.
      apply ranked_keys, py_range_spec in Hin. lia. }
    intros k Hk. apply in_app_or in Hk as [Hk | Hk];
      apply in_map_iff in Hk as (item & <- & Hitem); apply Hkeys.
    - rewrite <- (firstn_skipn 34 ranked). apply in_or_app.
      right. exact Hitem.
    - rewrite <- (firstn_skipn 5 ranked). apply in_or_app.
      left. exact Hitem. }
  split; [|split; [|split; [exact Hoe_max | exact Hbs_max]]].
  - intros h k Hh Hk Hnot. rewrite <- !Hf.
    apply Hhot; [exact Hh | apply py_range_in; lia | exact Hnot].
  - intros c k Hc Hk Hnot. rewrite <- !Hf.
    apply Hcold; [exact Hc | apply py_range_in; lia | exact Hnot].
Qed.

(** X17. The prompt of the analysis.  For a table without rows the
    function returns its error message.  For a table with rows and a
    window without any (a window of zero draws, or a negative one that
    drops every row), it raises [KeyError]: the ratio query then has no
    distribution.  Otherwise it returns the prompt, in which the five hot
    numbers are numbers of 1..39 that no other number of 1..39 exceeds in
    occurrences in the window, the five cold numbers are numbers of 1..39
    that none falls below, and the odd/even and big/small ratios named are
    labels that no other label exceeds in draws. *)
Theorem analysis_prompt_outcomes (self : AILayer Model Chat)
    (num_draws : Z) :
  let engine := stats_engine self in
  let window := rows_of (get_latest_n_draws engine num_draws) in
  let drawn := window_numbers engine (Some num_draws) in
  let outcome :=
    _generate_analysis_prompt format_2f str_float self num_draws in
  match rows_of (df engine), window with
  | [], _ => outcome = Ok no_data_message
  | _ :: _, [] => outcome = Raise KeyError
  | _ :: _, _ :: _ =>
      exists hot cold mean lo hi odd_even big_small total percentage digits,
        outcome
        = Ok (prompt_text num_draws (map format_02d hot)
                (map format_02d cold) mean lo hi odd_even big_small total
                percentage digits)
        /\ List.length hot = 5%nat
        /\ List.length cold = 5%nat
        /\ (forall k, In k (hot ++ cold) -> 1 <= k <= 39)
        /\ (forall h k, In h hot -> 1 <= k <= 39 -> ~ In k hot ->
              occurrences k drawn <= occurrences h drawn)
        /\ (forall c k, In c cold -> 1 <= k <= 39 -> ~ In k cold ->
              occurrences c drawn <= occurrences k drawn)
        /\ (forall l, pattern_occurrences l (map odd_even_label window)
                      <= pattern_occurrences odd_even
                           (map odd_even_label window))
        /\ (forall l, pattern_occurrences l (map big_small_label window)
                      <= pattern_occurrences big_small
                           (map big_small_label window))
  end.
Proof.
  intros engine window drawn outcome.
  destruct (rows_of (df engine)) as [|r rows] eqn:Erows.
  { apply prompt_on_empty_table. unfold df_empty. fold engine.
    now rewrite Erows. }
  assert (He : df_empty (df (stats_engine self)) = false)
    by (unfold df_empty; fold engine; now rewrite Erows).
  destruct window as [|s window'] eqn:Ewin.
  - apply prompt_on_empty_window; [exact He|].
    unfold df_empty. fold engine. unfold window in Ewin. now rewrite Ewin.
  - rewrite <- Ewin. apply prompt_on_window.
    unfold df_empty. fold engine. unfold window in Ewin. now rewrite Ewin.
Qed.

(** ** The analysis request and the chat *)

Lemma no_data_message_is_error : prefix "錯誤" no_data_message = true.
Proof. reflexivity. Qed.

Lemma prompt_is_no_error (num_draws : Z) (hot cold : list string)
    (mean lo hi odd_even big_small total percentage digits : string) :
  prefix "錯誤"
    (prompt_text num_draws hot cold mean lo hi odd_even big_small total
       percentage digits) = false.
Proof. reflexivity. Qed.

(** X18. The analysis request.  Without a model it returns its error
    message and does nothing.  With a model, it returns the error message
    of the prompt for a table without rows and raises [KeyError] for a
    table with rows and a window without any, in both cases before any call
    to the library and leaving the layer as it was.  Otherwise it returns a
    text, whatever the library does: it starts a chat, which becomes the
    layer's chat, and sends it the prompt; when the chat cannot be started
    nothing is sent and the layer keeps the chat it had. *)
Theorem analysis_request_outcomes (num_draws : Z)
    (st : ai_state Model Chat) :
  let engine := stats_engine (layer st) in
  let outcome :=
    get_ai_analysis start_chat send_message format_2f str_float exn_text
      num_draws st in
  match model (layer st) with
  | None => outcome = (Ok not_configured_message, st)
  | Some m =>
      if df_empty (df engine) then outcome = (Ok no_data_message, st)
      else if df_empty (get_latest_n_draws engine num_draws)
      then outcome = (Raise KeyError, st)
      else
        exists prompt text,
          _generate_analysis_prompt format_2f str_float (layer st) num_draws
          = Ok prompt
          /\ fst outcome = Ok text
          /\ ai_stdout (snd outcome) = ai_stdout st ++ [AiSending]
          /\ model (layer (snd outcome)) = Some m
          /\ match start_chat m with
             | Raise _ =>
                 ai_calls (snd outcome) = ai_calls st ++ [CallStartChat]
                 /\ chat (layer (snd outcome)) = chat (layer st)
             | Ok session =>
                 ai_calls (snd outcome)
                 = ai_calls st ++ [CallStartChat; CallSendMessage prompt]
                 /\ chat (layer (snd outcome))
                    = Some (snd (send_message session prompt))
             end
  end.
Proof.
  intros engine outcome. unfold outcome, get_ai_analysis.
  destruct (model (layer st)) as [m|] eqn:Em; [|reflexivity].
  destruct (df_empty (df engine)) eqn:He.
  { rewrite prompt_on_empty_table by exact He.
    now rewrite no_data_message_is_error. }
  destruct (df_empty (get_latest_n_draws engine num_draws)) eqn:Hw.
  { now rewrite prompt_on_empty_window. }
  destruct (prompt_on_window (layer st) num_draws Hw)
    as (hot & cold & mean & lo & hi & oe & bs & total & pct & digits
        & -> & _).
  rewrite prompt_is_no_error.
  eexists. destruct (start_chat m) as [session|e].
  - destruct (send_message session _) as [[text|e] session'] eqn:Es;
      eexists; (split; [reflexivity|]);
      cbn [fst snd ai_calls ai_stdout layer model chat set_chat ai_print
             ai_call_made];
      (split; [reflexivity|]); (split; [reflexivity|]);
      (split; [exact Em|]); (split; [now rewrite <- app_assoc|]);
      now rewrite Es.
  - eexists. split; [reflexivity|].
    cbn [fst snd ai_calls ai_stdout layer model chat set_chat ai_print
           ai_call_made].
    split; [reflexivity|]. split; [reflexivity|].
    split; [exact Em|]. split; reflexivity.
Qed.

(** X19. The exceptions of the layer.  Configuring raises [ValueError]
    exactly when neither the argument nor the environment gives a key that
    is not empty; the analysis request raises, and then [KeyError], exactly
    when the layer has a model and the table has rows but the window has
    none; sending a chat message never raises, whatever the library does.
    A request that raises has called nothing and leaves the layer as it
    was. *)
Theorem layer_exceptions (st : ai_state Model Chat) (request : ai_request) :
  let engine := stats_engine (layer st) in
  raised genai_configure start_chat send_message getenv format_2f str_float
    exn_text st request
  = match request with
    | Configure api_key =>
        match key_used getenv api_key with
        | None => Some ValueError
        | Some _ => None
        end
    | Analyse num_draws =>
        match model (layer st) with
        | None => None
        | Some _ =>
            if negb (df_empty (df engine))
               && df_empty (get_latest_n_draws engine num_draws)
            then Some KeyError
            else None
        end
    | ChatMessage _ => None
    end
  /\ (raised genai_configure start_chat send_message getenv format_2f
        str_float exn_text st request <> None ->
      serve genai_configure start_chat send_message getenv format_2f
        str_float exn_text st request = st).
Proof.
  intros engine.
  destruct request as [api_key | num_draws | message]; cbn [raised serve].
  - unfold configure_api_key, key_used.
    assert (Hkey : non_empty_key
                     match non_empty_key api_key with
                     | Some k => Some k
                     | None => getenv
                     end
                   = match non_empty_key api_key with
                     | Some k => Some k
                     | None => non_empty_key getenv
                     end).
    { destruct api_key as [[|c k]|]; reflexivity. }
    rewrite Hkey.
    destruct (match non_empty_key api_key with
              | Some k => Some k
              | None => non_empty_key getenv
              end) as [k|]; [|now split].
    destruct (genai_configure k); cbn [fst exception_of];
      (split; [reflexivity | intros H; now contradiction H]).
  - unfold get_ai_analysis.
    destruct (model (layer st)) as [m|];
      [|split; [reflexivity | intros H; now contradiction H]].
    fold engine.
    destruct (df_empty (df engine)) eqn:He.
    { rewrite prompt_on_empty_table by exact He.
      rewrite no_data_message_is_error.
      split; [reflexivity | intros H; now contradiction H]. }
    destruct (df_empty (get_latest_n_draws engine num_draws)) eqn:Hw.
    { rewrite prompt_on_empty_window by assumption. now split. }
    destruct (prompt_on_window (layer st) num_draws Hw)
      as (hot & cold & mean & lo & hi & oe & bs & total & pct & digits
          & -> & _).
    rewrite prompt_is_no_error.
    destruct (start_chat m) as [session|e];
      [destruct (send_message session _) as [[text|e] session']|];
      cbn [fst exception_of negb andb];
      (split; [reflexivity | intros H; now contradiction H]).
  - unfold send_chat_message.
    destruct (chat (layer st)) as [session|];
      [destruct (send_message session message) as [[text|e] session']|];
      cbn [fst exception_of];
      (split; [reflexivity | intros H; now contradiction H]).
Qed.

(** ** A session *)

Lemma protocol_app (calls more : list ai_call) :
  protocol (calls ++ more) = fold_left protocol_step more (protocol calls).
Proof. unfold protocol. apply fold_left_app. Qed.

Lemma serve_keeps_protocol (st : ai_state Model Chat)
    (request : ai_request) (configured started : bool) :
  protocol (ai_calls st) = Some (configured, started) ->
  (model (layer st) <> None -> configured = true) ->
  (chat (layer st) <> None -> started = true) ->
  let st' := serve genai_configure start_chat send_message getenv format_2f
               str_float exn_text st request in
  stats_engine (layer st') = stats_engine (layer st)
  /\ exists configured' started',
       protocol (ai_calls st') = Some (configured', started')
       /\ (model (layer st') <> None -> configured' = true)
       /\ (chat (layer st') <> None -> started' = true).
Proof.
  intros Hp Hm Hc.
  assert (Hsame : stats_engine (layer st) = stats_engine (layer st)
                  /\ exists configured' started',
                       protocol (ai_calls st) = Some (configured', started')
                       /\ (model (layer st) <> None -> configured' = true)
                       /\ (chat (layer st) <> None -> started' = true)).
  { split; [reflexivity|]. now exists configured, started. }
  destruct request as [api_key | num_draws | message]; cbn [serve].
  - unfold configure_api_key.
    destruct (non_empty_key _) as [k|]; [|cbn [snd]; rewrite ?Em, ?Ec; exact Hsame].
    destruct (genai_configure k) as [m|e]; cbn [snd];
      (split; [reflexivity|]); exists true, started;
      cbn [ai_calls layer chat model set_model ai_print ai_call_made];
      rewrite protocol_app, Hp; repeat split; auto.
  - unfold get_ai_analysis.
    destruct (model (layer st)) as [m|] eqn:Em; [|cbn [snd]; rewrite ?Em, ?Ec; exact Hsame].
    assert (configured = true) as -> by (apply Hm; discriminate).
    destruct (_generate_analysis_prompt _ _ _ _) as [prompt|e];
      [|cbn [snd]; rewrite ?Em, ?Ec; exact Hsame].
    destruct (prefix "錯誤" prompt); [cbn [snd]; rewrite ?Em, ?Ec; exact Hsame|].
    destruct (start_chat m) as [session|e].
    + destruct (send_message session prompt) as [[text|e] session'];
        cbn [snd]; (split; [reflexivity|]); exists true, true;
        cbn [ai_calls layer chat model set_chat ai_print ai_call_made];
        rewrite <- app_assoc, protocol_app, Hp; repeat split; auto.
    + cbn [snd]. split; [reflexivity|]. exists true, true.
      cbn [ai_calls layer chat model set_chat ai_print ai_call_made].
      rewrite protocol_app, Hp. repeat split; auto.
  - unfold send_chat_message.
    destruct (chat (layer st)) as [session|] eqn:Ec; [|cbn [snd]; rewrite ?Em, ?Ec; exact Hsame].
    assert (started = true) as -> by (apply Hc; discriminate).
    destruct (send_message session message) as [[text|e] session'];
      cbn [snd]; (split; [reflexivity|]); exists configured, true;
      cbn [ai_calls layer chat model set_chat ai_print ai_call_made];
      rewrite protocol_app, Hp; repeat split; auto.
Qed.

(** X20. Whatever requests are made of a new layer, in whatever order and
    whatever the library answers, the layer keeps to the order of the
    library's calls: it starts a chat only after it has passed a key, and
    sends a message only after it has started a chat.  A layer that holds
    a model has passed a key, a layer that holds a chat has started one,
    and the statistics engine of the layer is the one it was made with. *)
Theorem session_follows_protocol (engine : StatsEngine)
    (requests : list ai_request) :
  let st := session genai_configure start_chat send_message getenv
              format_2f str_float exn_text engine requests in
  stats_engine (layer st) = engine
  /\ exists configured started,
       protocol (ai_calls st) = Some (configured, started)
       /\ (model (layer st) <> None -> configured = true)
       /\ (chat (layer st) <> None -> started = true).
Proof.
  unfold session.
  set (init := {| layer := AILayer_init Model Chat engine;
                  ai_stdout := []; ai_calls := [] |}).
  assert (Hinit : stats_engine (layer init) = engine
                  /\ exists configured started,
                       protocol (ai_calls init) = Some (configured, started)
                       /\ (model (layer init) <> None -> configured = true)
                       /\ (chat (layer init) <> None -> started = true)).
  { split; [reflexivity|]. exists false, false.
    split; [reflexivity|]. split; intros H; now contradiction H. }
  revert Hinit. generalize init. clear init.
  induction requests as [|request requests IH]; intros st Hst; [exact Hst|].
  cbn [fold_left]. apply IH.
  destruct Hst as (He & configured & started & Hp & Hm & Hc).
  destruct (serve_keeps_protocol st request Hp Hm Hc) as (He' & Hrest).
  split; [congruence | exact Hrest].
Qed.
End AILayerFacts.

(* ================================================================== *)
(** * The dashboard's loader                                           *)
(* ================================================================== *)

Section AppFacts.
Context {P : Pandas} {Py : Python} {Out : Outside}.

(** X21. The dashboard's loader always comes to an end.  The crawl that
    it starts from January 2014 raises only while it saves, when there are
    new records and a date of the merged table is refused or a text of it
    cannot be encoded, and the loader then fails with the exception of the
    crawl.  Otherwise the loader returns the table that the engine loads
    from the file as the crawl left it, or a frame without columns when
    there is no file; it then fails only when that file cannot be read or
    parsed. *)
Theorem loader_reads_what_the_crawl_left (w0 : world) :
  let loaded := rows_of (loaded_table w0) in
  let batch := gathered (crawl_start (loaded_table w0) 2014 1) in
  exists outcome w',
    crawl_and_save_daily_cash 2014 1 w0 = Some (outcome, w')
    /\ outcome
       = match date_filtered loaded batch with
         | [] => Ok tt
         | _ :: _ =>
             if forallb (fun r => in_timestamp_range (ad_date r))
                  (merge loaded batch)
             then
               if forallb row_encodable (merge loaded batch)
               then Ok tt
               else Raise UnicodeEncodeError
             else Raise OutOfBoundsDatetime
         end
    /\ load_and_process_data w0
       = Some (match outcome with
               | Ok _ =>
                   match disk w' with
                   | Some content =>
                       rows <- read_csv content ;; _load_data (Some rows)
                   | None => Ok NoColumns
                   end
               | Raise e => Raise e
               end, w').
Proof.
  intros loaded batch.
  destruct (run_cases 2014 1 w0) as (w2 & _ & _ & _ & _ & Hrun).
  fold loaded batch in Hrun.
  change (valid_start 2014 1) with true in Hrun.
  rewrite orb_true_r in Hrun.
  unfold load_and_process_data. rewrite Hrun.
  destruct (date_filtered loaded batch).
  - eexists _, _. split; [reflexivity|]. split; [reflexivity|].
    cbn [disk printed]. now destruct (disk w2).
  - destruct (forallb _ _); [destruct (forallb _ _)|];
      eexists _, _; (split; [reflexivity|]); (split; reflexivity).
Qed.
End AppFacts.

(* ================================================================== *)
(** * The window of a loaded table                                     *)
(* ================================================================== *)

Lemma tail_skipn (A : Type) (n : Z) (rows : list A) :
  exists k, tail n rows = skipn k rows.
Proof.
  unfold tail. destruct (n =? 0).
  - exists (List.length rows). now rewrite skipn_all.
  - destruct (0 <? n); eexists; reflexivity.
Qed.

Lemma stats_date_leb_trans (a b c : stats_row) :
  stats_date_leb a b = true -> stats_date_leb b c = true ->
  stats_date_leb a c = true.
Proof. unfold stats_date_leb, ad_date_leb. apply date_leb_trans. Qed.

(** X23. In an engine constructed from the file, the latest-N selector
    selects the latest draws: the table is some older rows followed by
    the selected ones, and no older row has a later date than a selected
    one. *)
Theorem window_holds_the_latest_draws (P : Pandas)
    (file : option (list row)) (self : StatsEngine) (n : Z) :
  StatsEngine_init file = Ok self ->
  exists older,
    rows_of (df self) = older ++ rows_of (get_latest_n_draws self n)
    /\ forall a b, In a older -> In b (rows_of (get_latest_n_draws self n)) ->
                   date_leb (ad_date (persisted a)) (ad_date (persisted b))
                   = true.
Proof.
  unfold StatsEngine_init, _load_data.
  destruct file as [rows|]; cbn [bind].
  2:{ intros [= <-]. exists []. split; [reflexivity | intros a b []]. }
  destruct (with_numbers_list rows) as [loaded|]; cbn [bind]; [|discriminate].
  intros [= <-]. unfold get_latest_n_draws, df_empty. cbn [df rows_of].
  set (table := sort_stats_values loaded).
  assert (Hs : Sorted (le_of stats_date_leb) table)
    by apply sort_by_date_sorted.
  destruct table as [|r table'] eqn:E.
  { exists []. split; [reflexivity | intros a b []]. }
  rewrite <- E in *. cbn [rows_of].
  destruct (tail_skipn n table) as (k & ->).
  exists (firstn k table). split; [now rewrite firstn_skipn|].
  intros a b Ha Hb.
  apply (sorted_parts stats_date_leb_trans Hs k a b Ha Hb).
Qed.

Lemma window_holds_the_latest_draws_witness :
  StatsEngine_init (P := stable_pandas)
    (Some [row_jan_04; row_jan_02; row_jan_03])
  = Ok scenario_engine
  /\ exists older,
       rows_of (df scenario_engine)
       = older ++ rows_of (get_latest_n_draws scenario_engine 2)
       /\ forall a b,
            In a older ->
            In b (rows_of (get_latest_n_draws scenario_engine 2)) ->
            date_leb (ad_date (persisted a)) (ad_date (persisted b)) = true.
Proof.
  assert (H : StatsEngine_init (P := stable_pandas)
                (Some [row_jan_04; row_jan_02; row_jan_03])
              = Ok scenario_engine) by (vm_compute; reflexivity).
  split; [exact H|].
  exact (@window_holds_the_latest_draws stable_pandas _ scenario_engine 2 H).
Defined.
